(** * AWS Cost Calculator: price resolution, cost normalisation, cart and report

    A shallow embedding of the Python sources

    - [bulk_pricing.py]    (class [LivePricingScraper], the static price table),
    - [aws_pricing.py]     (class [AWSPricingClient], the two formatters),
    - [app.py]             (the request handlers and the session cart),
    - [report_generator.py] (the CSV report),

    followed by the properties of the specification proved about them.

    Python values are modelled as the code has them: prices are binary64
    floats (the kernel's primitive floats), quantities are unbounded integers,
    dictionaries with string keys are finite maps or records of optional
    fields (a field read with [d.get(k, default)] is optional, a field read
    with [d[k]] is mandatory), and a raised exception is a [Raise] result. *)

From stdpp Require Import gmap strings list sorting pretty.
From Stdlib Require Import ZArith Ascii.
From Stdlib Require Import Floats.PrimFloat Floats.SpecFloat Floats.FloatOps Floats.FloatAxioms.

Local Open Scope string_scope.

(* Decimal price literals denote the nearest binary64 value, as in Python. *)
Set Warnings "-inexact-float,-register-all,-clear-no-such-hyp".

(** ** Python exceptions and results *)

Inductive exn : Set :=
  | TypeError
  | ValueError
  | OverflowError
  | KeyError (key : string)
  | ApiError (msg : string).

Inductive result (A : Type) : Type :=
  | Ok (a : A)
  | Raise (e : exn).
Arguments Ok {A} a.
Arguments Raise {A} e.

#[global] Instance result_ret : MRet result := λ A a, Ok a.
#[global] Instance result_bind : MBind result := λ A B k m,
  match m with
  | Ok a => k a
  | Raise e => Raise e
  end.
#[global] Instance result_fmap : FMap result := λ A B g m,
  match m with
  | Ok a => Ok (g a)
  | Raise e => Raise e
  end.

Definition is_ok {A} (r : result A) : bool :=
  match r with Ok _ => true | Raise _ => false end.

(** ** Python numbers: [int] and [float] *)

Module Py.

Inductive num : Set :=
  | PInt (z : Z)
  | PFloat (f : float).

(** [float(z)] for an [int]: the nearest binary64 value, ties to even;
    [OverflowError] when that value would not be finite. *)
Definition float_of_int (z : Z) : result float :=
  match binary_normalize prec emax z 0 false with
  | S754_infinity _ => Raise OverflowError
  | sf => Ok (SF2Prim sf)
  end.

(** [int(f)] for a [float]: truncation towards zero. *)
Definition int_of_float (f : float) : result Z :=
  match Prim2SF f with
  | S754_nan => Raise ValueError
  | S754_infinity _ => Raise OverflowError
  | S754_zero _ => Ok 0%Z
  | S754_finite s m e =>
      let a := Z.shiftl (Z.pos m) e in
      Ok (if s then (- a)%Z else a)
  end.

Definition to_float (n : num) : result float :=
  match n with
  | PInt z => float_of_int z
  | PFloat f => Ok f
  end.

Definition to_int (n : num) : result Z :=
  match n with
  | PInt z => Ok z
  | PFloat f => int_of_float f
  end.

(** [a * b] and [a + b]: an [int] operand is converted when the other one is
    a [float]. *)
Definition mul (a b : num) : result num :=
  match a, b with
  | PInt x, PInt y => Ok (PInt (x * y))
  | PFloat x, PFloat y => Ok (PFloat (x * y))
  | PFloat x, PInt y => y' ← float_of_int y; Ok (PFloat (x * y'))
  | PInt x, PFloat y => x' ← float_of_int x; Ok (PFloat (x' * y))
  end.

Definition add (a b : num) : result num :=
  match a, b with
  | PInt x, PInt y => Ok (PInt (x + y))
  | PFloat x, PFloat y => Ok (PFloat (x + y))
  | PFloat x, PInt y => y' ← float_of_int y; Ok (PFloat (x + y'))
  | PInt x, PFloat y => x' ← float_of_int x; Ok (PFloat (x' + y))
  end.

(** [n == 0] *)
Definition eq0 (n : num) : bool :=
  match n with
  | PInt z => (z =? 0)%Z
  | PFloat f => (f =? 0)%float
  end.

(** The text [str(n)] of a number, kept symbolic.  Python prints a float
    with the shortest digits that read back as the same float, so
    [float(str(f)) == f]; the digits of an [int] read back as the nearest
    float, infinite when the integer is too large. *)
Inductive numstr : Set :=
  | Str (n : num).

Definition float_of_numstr (s : numstr) : float :=
  match s with
  | Str (PFloat f) => f
  | Str (PInt z) => SF2Prim (binary_normalize prec emax z 0 false)
  end.

End Py.

(** ** Python builtins that are not part of the repository

    [float(s)] and [int(s)] on a text, [round(f, 2)] on a float, and the
    float loop of [sum] are the interpreter's; the development is parametric
    in them.  [None] stands for the [ValueError] Python raises on a text that
    is not a number.  [sum_floats acc xs] is what [sum] returns once its
    running total is the float [acc] and the floats [xs] remain: the additions
    from the left, which CPython compensates for rounding errors from version
    3.12 on. *)

Class Builtins := {
  float_of_str : string → option float;
  int_of_str : string → option Z;
  round2 : float → float;
  sum_floats : float → list float → float
}.

(** A reference instance, used to run the model on concrete requests.  It
    reads plain ASCII decimal numerals: a sign and digits for [int], a sign,
    digits and an optional fraction for [float]; it rejects every other text
    (Python also reads exponents, surrounding blanks, underscores between
    digits, [inf] and [nan]).  Its sum is the compensated one of CPython 3.12
    and later. *)
Module Reference.

(** The binary64 value nearest to [± n / d], ties to even.  The quotient is
    taken with 55 bits or more and a sticky last bit, so that rounding it
    rounds the exact ratio. *)
Definition round_ratio (neg : bool) (n d : positive) : spec_float :=
  let k := Z.max 0 (56 + Z.log2 (Z.pos d) - Z.log2 (Z.pos n)) in
  let num := (Z.pos n * 2 ^ k)%Z in
  let q := (num / Z.pos d)%Z in
  let sticky := if (num mod Z.pos d =? 0)%Z then 0%Z else 1%Z in
  let m := (2 * q + sticky)%Z in
  binary_normalize prec emax (if neg then (- m)%Z else m) (- (k + 1)) false.

(** [n / d] rounded to an integer, ties to even, for [0 ≤ n] and [0 < d]. *)
Definition div_half_even (n d : Z) : Z :=
  let q := (n / d)%Z in
  let r := (n mod d)%Z in
  match (2 * r ?= d)%Z with
  | Lt => q
  | Gt => (q + 1)%Z
  | Eq => if Z.even q then q else (q + 1)%Z
  end.

(** [round(f, 2)]: the exact value of [f] is rounded to two decimals, ties
    to even, and the nearest float to that decimal is returned. *)
Definition round_2dp (f : float) : float :=
  match Prim2SF f with
  | S754_finite s m e =>
      let hundredths :=
        if (0 <=? e)%Z then (Z.pos m * 2 ^ e * 100)%Z
        else div_half_even (Z.pos m * 100) (2 ^ (- e)) in
      match hundredths with
      | Z.pos n => SF2Prim (round_ratio s n 100)
      | _ => SF2Prim (S754_zero s)
      end
  | _ => f
  end.

Definition digit_of (c : ascii) : option Z :=
  let n := nat_of_ascii c in
  if (48 <=? n)%nat && (n <=? 57)%nat then Some (Z.of_nat (n - 48)) else None.

(** The value of a run of decimal digits, their number, and the rest. *)
Fixpoint digits (acc : Z) (len : nat) (s : string) : Z * nat * string :=
  match s with
  | String c s' =>
      match digit_of c with
      | Some d => digits (10 * acc + d) (S len) s'
      | None => (acc, len, s)
      end
  | EmptyString => (acc, len, s)
  end.

Definition signed (s : string) : bool * string :=
  match s with
  | String "-" s' => (true, s')
  | String "+" s' => (false, s')
  | _ => (false, s)
  end.

Definition int_of (s : string) : option Z :=
  let '(neg, body) := signed s in
  match digits 0 0 body with
  | (v, S _, EmptyString) => Some (if neg then (- v)%Z else v)
  | _ => None
  end.

(** The float of [± v / 10 ^ k], when the numeral has a digit. *)
Definition decimal (neg : bool) (v : Z) (ndigits k : nat) : option float :=
  match ndigits with
  | O => None
  | S _ =>
      match v with
      | Z.pos p => Some (SF2Prim (round_ratio neg p (Z.to_pos (10 ^ Z.of_nat k))))
      | _ => Some (SF2Prim (S754_zero neg))
      end
  end.

Definition float_of (s : string) : option float :=
  let '(neg, body) := signed s in
  let '(v, n1, rest) := digits 0 0 body in
  match rest with
  | EmptyString => decimal neg v n1 0
  | String "." frac =>
      match digits v 0 frac with
      | (v', n2, EmptyString) => decimal neg v' (n1 + n2) n2
      | _ => None
      end
  | _ => None
  end.

(** The float loop of [sum]: Neumaier's compensated summation, the
    compensation [c] being added at the end when it is finite and not zero. *)
Fixpoint neumaier (f c : float) (xs : list float) : float :=
  match xs with
  | [] => if negb (c =? 0)%float && is_finite c then (f + c)%float else f
  | x :: rest =>
      let t := (f + x)%float in
      let c' := if (abs x <=? abs f)%float then (c + ((f - t) + x))%float
                else (c + ((x - t) + f))%float in
      neumaier t c' rest
  end.

Definition builtins : Builtins := {|
  float_of_str := float_of;
  int_of_str := int_of;
  round2 := round_2dp;
  sum_floats := λ acc xs, neumaier acc 0 xs
|}.

End Reference.

(** ** Text helpers *)

(** [needle in hay] on texts. *)
Fixpoint contains (needle hay : string) : bool :=
  String.prefix needle hay ||
  match hay with
  | EmptyString => false
  | String _ hay' => contains needle hay'
  end.

(** [s.count('x')] for a one-character pattern. *)
Fixpoint count_char (c : ascii) (s : string) : nat :=
  match s with
  | EmptyString => 0
  | String d s' => (if Ascii.eqb c d then 1 else 0) + count_char c s'
  end.

(** [s.replace('db.', '')]: every occurrence, scanning left to right. *)
Fixpoint remove_db_prefixes (skip : nat) (s : string) : string :=
  match s with
  | EmptyString => EmptyString
  | String c s' =>
      match skip with
      | S k => remove_db_prefixes k s'
      | O => if String.prefix "db." s then remove_db_prefixes 2 s'
             else String c (remove_db_prefixes 0 s')
      end
  end.

(** ** Price records and products

    Every product the backend handles is a Python [dict]; the keys that occur
    in the code are the fields below.  A bulk-format product carries [prices];
    a product of the pricing API carries [attributes]
    ([product['product']['attributes']]) and [on_demand]
    ([product['terms']['OnDemand']], each offer term with the values of its
    [priceDimensions]). *)

Inductive amount_t : Set :=
  | AmountStr (s : Py.numstr)   (* str(price), written by the price table client *)
  | AmountNum (f : float)       (* a float, written by the formatters *)
  | AmountText (s : string).    (* the text sent by the pricing API *)

Record price := {
  amount : option amount_t;
  monthly_cost : option Py.num;
  price_unit : option string;
  price_description : option string
}.

Record price_dimension := {
  pricePerUnit_USD : option string;
  pd_unit : option string;
  pd_description : option string
}.

Record product := {
  service : option string;
  description : option string;
  instanceType : option string;
  location : option string;
  vcpu : option string;
  memory : option string;
  storage : option string;
  networkPerformance : option string;
  productFamily : option string;
  storageClass : option string;
  volumeType : option string;
  storageGB : option Py.num;
  quantity : option Z;
  prices : option (list price);
  attributes : gmap string string;
  on_demand : list (list price_dimension)
}.

(** The in-place updates of the formatters:
    [price['monthly_cost'] = m], and [product['storageGB']],
    [product['quantity']] with the changed list of prices. *)
Definition set_monthly_cost (m : Py.num) (pr : price) : price := {|
  amount := amount pr;
  monthly_cost := Some m;
  price_unit := price_unit pr;
  price_description := price_description pr
|}.

Definition update_product (p : product) (storage_gb : option Py.num) (qty : option Z)
    (prs : list price) : product := {|
  service := service p; description := description p;
  instanceType := instanceType p; location := location p;
  vcpu := vcpu p; memory := memory p; storage := storage p;
  networkPerformance := networkPerformance p;
  productFamily := productFamily p;
  storageClass := storageClass p; volumeType := volumeType p;
  storageGB := storage_gb;
  quantity := qty;
  prices := Some prs;
  attributes := attributes p; on_demand := on_demand p
|}.

(** [float(x)] where [x] is the ['amount'] of a price, or the default [0]. *)
Definition float_of_amount `{!Builtins} (a : option amount_t) : result float :=
  match a with
  | None => Py.float_of_int 0
  | Some (AmountStr s) => Ok (Py.float_of_numstr s)
  | Some (AmountNum f) => Ok f
  | Some (AmountText s) =>
      match float_of_str s with
      | Some f => Ok f
      | None => Raise ValueError
      end
  end.

(** ** bulk_pricing.py: the static price table and its lookups *)

Definition default_region : string := "US East (N. Virginia)".

(** [pricing_data]: service → region → resource key → attribute → price.  A
    missing top-level key reads as the empty table ([.get(service, {})]). *)
Record pricing_data := {
  EC2 : gmap string (gmap string (gmap string float));
  RDS : gmap string (gmap string (gmap string (gmap string float)));
  S3 : gmap string (gmap string float);
  VPC : gmap string (gmap string float);
  ALB : gmap string float;
  Route53 : gmap string float
}.

(** [d.get(k, {})] and [d.get(k, default)] on a table of prices. *)
Definition get_table {V} `{Empty V} (d : gmap string V) (k : string) : V :=
  default ∅ (d !! k).

Definition get_price (d : gmap string float) (k : string) (dflt : Py.num) : Py.num :=
  default dflt (Py.PFloat <$> d !! k).

Module LivePricingScraper.

Definition _get_instance_vcpu (instance_type : string) : string :=
  if contains "nano" instance_type then "1"
  else if contains "micro" instance_type then "1-2"
  else if contains "small" instance_type then "1-2"
  else if contains "medium" instance_type then "2"
  else if contains "large" instance_type && negb (contains "xlarge" instance_type) then "2"
  else if contains "xlarge" instance_type then
    let multiplier := count_char "x" instance_type + 1 in
    pretty (2 * multiplier)
  else "N/A".

Definition _get_instance_memory (instance_type : string) : string :=
  if contains "micro" instance_type then "1 GiB"
  else if contains "small" instance_type then "2 GiB"
  else if contains "medium" instance_type then "4 GiB"
  else if contains "large" instance_type && negb (contains "xlarge" instance_type) then "8 GiB"
  else if contains "xlarge" instance_type then "16+ GiB"
  else "N/A".

Definition _get_network_performance (instance_type : string) : string :=
  if String.prefix "t" instance_type then "Low to Moderate"
  else if String.prefix "c" instance_type then "High"
  else if String.prefix "r" instance_type then "High"
  else "Moderate".

Section Lookups.
Variable pricing : pricing_data.

(** The hourly price of an EC2 instance: the entry of the region, and the
    entry of the default region when that price [== 0]. *)
Definition ec2_hourly_price (instance_type region os : string) : Py.num :=
  let region_pricing := get_table (EC2 pricing) region in
  let instance_pricing := get_table region_pricing instance_type in
  let hourly_price := get_price instance_pricing os (Py.PInt 0) in
  if Py.eq0 hourly_price then
    let us_pricing := get_table (EC2 pricing) default_region in
    get_price (get_table us_pricing instance_type) os (Py.PInt 0)
  else hourly_price.

Definition find_ec2_pricing (instance_type region os : string) : list product :=
  let hourly_price := ec2_hourly_price instance_type region os in
  [ {| service := None; description := None;
       instanceType := Some instance_type;
       location := Some region;
       vcpu := Some (_get_instance_vcpu instance_type);
       memory := Some (_get_instance_memory instance_type);
       storage := Some "EBS only";
       networkPerformance := Some (_get_network_performance instance_type);
       productFamily := None; storageClass := None; volumeType := None;
       storageGB := None; quantity := None;
       prices := Some [ {| amount := Some (AmountStr (Py.Str hourly_price));
                           monthly_cost := None;
                           price_unit := Some "Hrs";
                           price_description :=
                             Some (instance_type ++ " " ++ os ++ " on-demand") |} ];
       attributes := ∅; on_demand := [] |} ].

Definition rds_hourly_price (instance_type region engine deployment : string) : Py.num :=
  let region_pricing := get_table (RDS pricing) region in
  let instance_pricing := get_table region_pricing instance_type in
  let engine_pricing := get_table instance_pricing engine in
  let hourly_price := get_price engine_pricing deployment (Py.PInt 0) in
  if Py.eq0 hourly_price then
    let us_pricing := get_table (RDS pricing) default_region in
    get_price (get_table (get_table us_pricing instance_type) engine) deployment (Py.PInt 0)
  else hourly_price.

Definition find_rds_pricing (instance_type region engine deployment : string) : list product :=
  let hourly_price := rds_hourly_price instance_type region engine deployment in
  [ {| service := None; description := None;
       instanceType := Some instance_type;
       location := Some region;
       vcpu := Some (_get_instance_vcpu (remove_db_prefixes 0 instance_type));
       memory := Some (_get_instance_memory (remove_db_prefixes 0 instance_type));
       storage := Some "EBS";
       networkPerformance := Some "Moderate";
       productFamily := None; storageClass := None; volumeType := None;
       storageGB := None; quantity := None;
       prices := Some [ {| amount := Some (AmountStr (Py.Str hourly_price));
                           monthly_cost := None;
                           price_unit := Some "Hrs";
                           price_description :=
                             Some (instance_type ++ " " ++ engine ++ " " ++ deployment) |} ];
       attributes := ∅; on_demand := [] |} ].

(** The four lookups below compute [monthly_cost] first; an
    [OverflowError] of that product is caught by the function's [except]
    clause, which returns the empty list. *)
Definition s3_price_per_gb (storage_class region : string) : Py.num :=
  get_price (get_table (S3 pricing) region) storage_class (Py.PFloat 0.023).

Definition find_s3_pricing (storage_class region : string) (storage_gb : Py.num) : list product :=
  let price_per_gb := s3_price_per_gb storage_class region in
  match Py.mul price_per_gb storage_gb with
  | Ok monthly =>
      [ {| service := Some "S3"; description := None; instanceType := None;
           location := Some region;
           vcpu := None; memory := None; storage := None; networkPerformance := None;
           productFamily := None;
           storageClass := Some storage_class; volumeType := None;
           storageGB := Some storage_gb; quantity := None;
           prices := Some [ {| amount := Some (AmountStr (Py.Str price_per_gb));
                               monthly_cost := Some monthly;
                               price_unit := Some "GB-Mo";
                               price_description := None |} ];
           attributes := ∅; on_demand := [] |} ]
  | Raise _ => []
  end.

Definition vpc_hourly_price (component region : string) : Py.num :=
  get_price (get_table (VPC pricing) region) component (Py.PFloat 0.045).

Definition find_vpc_pricing (component region : string) (qty : Z) : list product :=
  let hourly_price := vpc_hourly_price component region in
  match Py.mul hourly_price (Py.PInt 730) ≫= λ h, Py.mul h (Py.PInt qty) with
  | Ok monthly =>
      [ {| service := Some "VPC"; description := None; instanceType := None;
           location := Some region;
           vcpu := None; memory := None; storage := None; networkPerformance := None;
           productFamily := Some component;
           storageClass := None; volumeType := None;
           storageGB := None; quantity := None;
           prices := Some [ {| amount := Some (AmountStr (Py.Str hourly_price));
                               monthly_cost := Some monthly;
                               price_unit := Some "Hrs";
                               price_description := None |} ];
           attributes := ∅; on_demand := [] |} ]
  | Raise _ => []
  end.

Definition alb_hourly_price (region : string) : Py.num :=
  get_price (ALB pricing) region (Py.PFloat 0.0225).

Definition find_alb_pricing (region : string) (qty : Z) : list product :=
  let hourly_price := alb_hourly_price region in
  match Py.mul hourly_price (Py.PInt 730) ≫= λ h, Py.mul h (Py.PInt qty) with
  | Ok monthly =>
      [ {| service := Some "ALB"; description := None; instanceType := None;
           location := Some region;
           vcpu := None; memory := None; storage := None; networkPerformance := None;
           productFamily := Some "Load Balancer-Application";
           storageClass := None; volumeType := None;
           storageGB := None; quantity := None;
           prices := Some [ {| amount := Some (AmountStr (Py.Str hourly_price));
                               monthly_cost := Some monthly;
                               price_unit := Some "Hrs";
                               price_description := None |} ];
           attributes := ∅; on_demand := [] |} ]
  | Raise _ => []
  end.

Definition route53_monthly_price (component : string) : Py.num :=
  get_price (Route53 pricing) component (Py.PFloat 0.50).

Definition find_route53_pricing (component : string) (qty : Z) : list product :=
  let monthly_price := route53_monthly_price component in
  match Py.mul monthly_price (Py.PInt qty) with
  | Ok total_monthly =>
      [ {| service := Some "Route53"; description := None; instanceType := None;
           location := None;
           vcpu := None; memory := None; storage := None; networkPerformance := None;
           productFamily := Some component;
           storageClass := None; volumeType := None;
           storageGB := None; quantity := None;
           prices := Some [ {| amount := Some (AmountStr (Py.Str monthly_price));
                               monthly_cost := Some total_monthly;
                               price_unit := Some "Month";
                               price_description := None |} ];
           attributes := ∅; on_demand := [] |} ]
  | Raise _ => []
  end.

End Lookups.

End LivePricingScraper.

(** ** aws_pricing.py: the pricing client and the formatters *)

(** A filter of the pricing API: [{'Type': 'TERM_MATCH', 'Field': f, 'Value': v}]. *)
Definition term_match := (string * string)%type.

(** The client is built once at start-up in one of two modes: on the static
    price table ([use_bulk_pricing]), or on the external pricing service, whose
    [get_products] either returns the parsed price list or raises. *)
Inductive AWSPricingClient :=
  | BulkClient (bulk_client : pricing_data)
  | ApiClient (get_products : string → list term_match → Z → result (list product)).

Definition use_bulk_pricing (c : AWSPricingClient) : bool :=
  match c with BulkClient _ => true | ApiClient _ => false end.

(** [for x in xs: try: ... append ... except Exception: continue] *)
Definition skip_failures {A B} (body : A → result B) (xs : list A) : list B :=
  xs ≫= λ x, match body x with Ok y => [y] | Raise _ => [] end.

(** [d.get(k, 'N/A')] *)
Definition or_na (o : option string) : string := default "N/A" o.

Module Client.
Import LivePricingScraper.

Definition get_ec2_pricing (c : AWSPricingClient)
    (instance_type region operating_system tenancy : string) : result (list product) :=
  match c with
  | BulkClient pricing => Ok (find_ec2_pricing pricing instance_type region operating_system)
  | ApiClient get_products =>
      get_products "AmazonEC2"
        [("instanceType", instance_type); ("location", region);
         ("operatingSystem", operating_system); ("tenancy", tenancy);
         ("preInstalledSw", "NA"); ("capacitystatus", "Used")] 10%Z
  end.

Definition get_rds_pricing (c : AWSPricingClient)
    (instance_type region database_engine deployment_option : string) : result (list product) :=
  match c with
  | BulkClient pricing =>
      Ok (find_rds_pricing pricing instance_type region database_engine deployment_option)
  | ApiClient get_products =>
      get_products "AmazonRDS"
        [("instanceType", instance_type); ("location", region);
         ("databaseEngine", database_engine); ("deploymentOption", deployment_option)] 10%Z
  end.

Definition get_s3_pricing (c : AWSPricingClient) (storage_class region : string)
    : result (list product) :=
  match c with
  | BulkClient pricing => Ok (find_s3_pricing pricing storage_class region (Py.PInt 0))
  | ApiClient get_products =>
      get_products "AmazonS3"
        [("location", region); ("storageClass", storage_class); ("volumeType", "Standard")] 10%Z
  end.

Definition get_vpc_pricing (c : AWSPricingClient) (component region : string)
    : result (list product) :=
  match c with
  | BulkClient pricing => Ok (find_vpc_pricing pricing component region 1%Z)
  | ApiClient get_products =>
      let filters :=
        if String.eqb component "NatGateway" then
          [("location", region); ("productFamily", "NAT Gateway")]
        else if String.eqb component "VPN" then
          [("location", region); ("productFamily", "VPN Connection")]
        else [] in
      get_products "AmazonVPC" filters 10%Z
  end.

Definition get_alb_pricing (c : AWSPricingClient) (region : string) : result (list product) :=
  match c with
  | BulkClient pricing => Ok (find_alb_pricing pricing region 1%Z)
  | ApiClient get_products =>
      get_products "AWSELB"
        [("location", region); ("productFamily", "Load Balancer-Application")] 10%Z
  end.

Definition get_route53_pricing (c : AWSPricingClient) (component : string)
    : result (list product) :=
  match c with
  | BulkClient pricing => Ok (find_route53_pricing pricing component 1%Z)
  | ApiClient get_products =>
      let filters :=
        if String.eqb component "HostedZone" then [("productFamily", "DNS Zone")]
        else if String.eqb component "Queries" then [("productFamily", "DNS Query")]
        else [] in
      get_products "AmazonRoute53" filters 10%Z
  end.

(** [format_pricing_data]: EC2 and RDS products of the pricing API. *)
Definition format_pricing_data (products : list product) : list product :=
  products ≫= λ p,
    let product_attrs := attributes p in
    [ {| service := None;
         description := Some (or_na (product_attrs !! "instanceType"));
         instanceType := Some (or_na (product_attrs !! "instanceType"));
         location := Some (or_na (product_attrs !! "location"));
         vcpu := Some (or_na (product_attrs !! "vcpu"));
         memory := Some (or_na (product_attrs !! "memory"));
         storage := Some (or_na (product_attrs !! "storage"));
         networkPerformance := Some (or_na (product_attrs !! "networkPerformance"));
         productFamily := None; storageClass := None; volumeType := None;
         storageGB := None; quantity := None;
         prices := Some (concat (on_demand p) ≫= λ d,
           [ {| amount := Some (AmountText (or_na (pricePerUnit_USD d)));
                monthly_cost := None;
                price_unit := Some (or_na (pd_unit d));
                price_description := Some (or_na (pd_description d)) |} ]);
         attributes := ∅; on_demand := [] |} ].

Section Formatters.
Context `{!Builtins}.

(** [float(price_dimension.get('pricePerUnit', {}).get('USD', 0))] *)
Definition price_per_unit (d : price_dimension) : result float :=
  float_of_amount (AmountText <$> pricePerUnit_USD d).

(** One product of [format_s3_pricing_data]: a product with
    ['service'] [== 'S3'] is in the bulk pricing format and gets its storage
    size and monthly cost updated; any other one is read as a product of the
    pricing API. *)
Definition format_s3_product (storage_gb : float) (p : product) : result product :=
  if bool_decide (service p = Some "S3") then
    match prices p with
    | Some (pr :: rest) =>
        match amount pr with
        | None => Raise (KeyError "amount")
        | Some a =>
            price_per_gb ← float_of_amount (Some a);
            Ok (update_product p (Some (Py.PFloat storage_gb)) (quantity p)
                  (set_monthly_cost (Py.PFloat (price_per_gb * storage_gb)) pr :: rest))
        end
    | _ => Ok p
    end
  else
    let product_attrs := attributes p in
    ps ← mapM (λ d,
            ppu ← price_per_unit d;
            Ok {| amount := Some (AmountNum ppu);
                  monthly_cost :=
                    Some (if (0 <? storage_gb)%float
                          then Py.PFloat (ppu * storage_gb) else Py.PInt 0);
                  price_unit := Some (or_na (pd_unit d));
                  price_description := None |})
          (concat (on_demand p));
    Ok {| service := Some "S3"; description := None; instanceType := None;
          location := Some (or_na (product_attrs !! "location"));
          vcpu := None; memory := None; storage := None; networkPerformance := None;
          productFamily := None;
          storageClass := Some (or_na (product_attrs !! "storageClass"));
          volumeType := Some (or_na (product_attrs !! "volumeType"));
          storageGB := Some (Py.PFloat storage_gb); quantity := None;
          prices := Some ps;
          attributes := ∅; on_demand := [] |}.

Definition format_s3_pricing_data (products : list product) (storage_gb : float)
    : list product :=
  skip_failures (format_s3_product storage_gb) products.

(** [amount * 730 * quantity] when ['Hrs' in unit], [amount * quantity]
    otherwise. *)
Definition monthly_of (amount : float) (unit_text : string) (qty : Z) : result Py.num :=
  if contains "Hrs" unit_text then
    Py.mul (Py.PFloat amount) (Py.PInt 730) ≫= λ h, Py.mul h (Py.PInt qty)
  else Py.mul (Py.PFloat amount) (Py.PInt qty).

(** One product of [format_single_price]: a product whose ['service'] is
    VPC, ALB or Route53 was formatted by bulk pricing and gets its monthly
    cost recomputed with the actual quantity; any other one is read as a
    product of the pricing API. *)
Definition format_single_product (service_name : string) (qty : Z) (p : product)
    : result product :=
  if bool_decide (service p ∈ [Some "VPC"; Some "ALB"; Some "Route53"]) then
    match prices p with
    | Some (pr :: rest) =>
        a ← float_of_amount (amount pr);
        m ← monthly_of a (default "Hrs" (price_unit pr)) qty;
        Ok (update_product p (storageGB p) (Some qty) (set_monthly_cost m pr :: rest))
    | _ => Ok p
    end
  else
    let product_attrs := attributes p in
    ps ← mapM (λ d,
            ppu ← price_per_unit d;
            m ← monthly_of ppu (or_na (pd_unit d)) qty;
            Ok {| amount := Some (AmountNum ppu);
                  monthly_cost := Some m;
                  price_unit := Some (or_na (pd_unit d));
                  price_description := Some (or_na (pd_description d)) |})
          (concat (on_demand p));
    Ok {| service := Some service_name;
          description := Some (or_na (product_attrs !! "usagetype"));
          instanceType := None;
          location := Some (or_na (product_attrs !! "location"));
          vcpu := None; memory := None; storage := None; networkPerformance := None;
          productFamily := Some (or_na (product_attrs !! "productFamily"));
          storageClass := None; volumeType := None;
          storageGB := None; quantity := Some qty;
          prices := Some ps;
          attributes := ∅; on_demand := [] |}.

Definition format_single_price (products : list product) (service_name : string)
    (qty : Z) : list product :=
  skip_failures (format_single_product service_name qty) products.

End Formatters.
End Client.

(** ** app.py: requests, responses, and the pricing endpoints *)

(** A JSON value of a request body, as [request.get_json()] parses it. *)
Inductive json : Set :=
  | JNull
  | JBool (b : bool)
  | JNum (n : Py.num)
  | JStr (s : string)
  | JArr (l : list json)
  | JObj (l : list (string * json)).

(** [float(v)] and [int(v)] on a parsed JSON value. *)
Definition py_float `{!Builtins} (v : json) : result float :=
  match v with
  | JNum n => Py.to_float n
  | JBool b => Ok (if b then 1 else 0)%float
  | JStr s => match float_of_str s with Some f => Ok f | None => Raise ValueError end
  | JNull | JArr _ | JObj _ => Raise TypeError
  end.

Definition py_int `{!Builtins} (v : json) : result Z :=
  match v with
  | JNum n => Py.to_int n
  | JBool b => Ok (if b then 1 else 0)%Z
  | JStr s => match int_of_str s with Some z => Ok z | None => Raise ValueError end
  | JNull | JArr _ | JObj _ => Raise TypeError
  end.

(** The body of a request: a JSON object.  A field is [None] when its key is
    absent.  The selectors and the descriptive fields are texts; the numeric
    fields are kept as the JSON values they arrive as. *)
Record request := {
  req_instanceType : option string;
  req_region : option string;
  req_operatingSystem : option string;
  req_tenancy : option string;
  req_databaseEngine : option string;
  req_deploymentOption : option string;
  req_storageClass : option string;
  req_component : option string;
  req_service : option string;
  req_resourceType : option string;
  req_specifications : option string;
  req_storageGB : option json;
  req_quantity : option json;
  req_hourlyCost : option json;
  req_monthlyCost : option json
}.

Definition empty_request : request := {|
  req_instanceType := None; req_region := None; req_operatingSystem := None;
  req_tenancy := None; req_databaseEngine := None; req_deploymentOption := None;
  req_storageClass := None; req_component := None; req_service := None;
  req_resourceType := None; req_specifications := None;
  req_storageGB := None; req_quantity := None;
  req_hourlyCost := None; req_monthlyCost := None
|}.

(** The uniform envelope: [{'success': True, ...}] with status 200, or
    [{'success': False, 'error': message}] with its status. *)
Inductive error_message :=
  | ClientNotInitialized            (* 'AWS Pricing client not initialized' *)
  | ExceptionText (e : exn).        (* str(e) *)

Inductive response (A : Type) :=
  | Success (body : A)
  | Failure (error : error_message) (status : Z).
Arguments Success {A} body.
Arguments Failure {A} error status.

Definition success {A} (r : response A) : bool :=
  match r with Success _ => true | Failure _ _ => false end.

Record pricing_body := {
  data : list product;
  count : nat
}.

(** [try: ... return jsonify(success) except Exception as e: return jsonify(error), 500] *)
Definition respond {A} (r : result A) : response A :=
  match r with
  | Ok body => Success body
  | Raise e => Failure (ExceptionText e) 500
  end.

Definition pricing_response (r : result (list product)) : response pricing_body :=
  respond (formatted_data ← r;
           Ok {| data := formatted_data; count := length formatted_data |}).

Module App.
Import Client.

Section Pricing.
Context `{!Builtins}.
Variable pricing_client : option AWSPricingClient.

Definition get_ec2_pricing (data : request) : response pricing_body :=
  match pricing_client with
  | None => Failure ClientNotInitialized 500
  | Some c =>
      pricing_response (
        products ← Client.get_ec2_pricing c
          (default "t2.micro" (req_instanceType data))
          (default default_region (req_region data))
          (default "Linux" (req_operatingSystem data))
          (default "Shared" (req_tenancy data));
        Ok (if use_bulk_pricing c then products else format_pricing_data products))
  end.

Definition get_rds_pricing (data : request) : response pricing_body :=
  match pricing_client with
  | None => Failure ClientNotInitialized 500
  | Some c =>
      pricing_response (
        products ← Client.get_rds_pricing c
          (default "db.t3.micro" (req_instanceType data))
          (default default_region (req_region data))
          (default "MySQL" (req_databaseEngine data))
          (default "Single-AZ" (req_deploymentOption data));
        Ok (if use_bulk_pricing c then products else format_pricing_data products))
  end.

Definition get_s3_pricing (data : request) : response pricing_body :=
  match pricing_client with
  | None => Failure ClientNotInitialized 500
  | Some c =>
      pricing_response (
        storage_gb ← py_float (default (JNum (Py.PInt 0)) (req_storageGB data));
        products ← Client.get_s3_pricing c
          (default "General Purpose" (req_storageClass data))
          (default default_region (req_region data));
        Ok (format_s3_pricing_data products storage_gb))
  end.

Definition get_vpc_pricing (data : request) : response pricing_body :=
  match pricing_client with
  | None => Failure ClientNotInitialized 500
  | Some c =>
      pricing_response (
        qty ← py_int (default (JNum (Py.PInt 1)) (req_quantity data));
        products ← Client.get_vpc_pricing c
          (default "NatGateway" (req_component data))
          (default default_region (req_region data));
        Ok (format_single_price products "VPC" qty))
  end.

Definition get_alb_pricing (data : request) : response pricing_body :=
  match pricing_client with
  | None => Failure ClientNotInitialized 500
  | Some c =>
      pricing_response (
        qty ← py_int (default (JNum (Py.PInt 1)) (req_quantity data));
        products ← Client.get_alb_pricing c
          (default default_region (req_region data));
        Ok (format_single_price products "ALB" qty))
  end.

Definition get_route53_pricing (data : request) : response pricing_body :=
  match pricing_client with
  | None => Failure ClientNotInitialized 500
  | Some c =>
      pricing_response (
        qty ← py_int (default (JNum (Py.PInt 1)) (req_quantity data));
        products ← Client.get_route53_pricing c
          (default "HostedZone" (req_component data));
        Ok (format_single_price products "Route53" qty))
  end.

End Pricing.
End App.

(** ** app.py: the session cart *)

(** A cart item, as [add_to_cart] builds it: every key is present.  The
    descriptive fields (service, resourceType, specifications, region) are
    texts in the request bodies of the interface, so each holds the text
    [data.get(key)] returned, or Python's [None] when the request had no such
    key; [quantity] is stored as the JSON value it arrived as.  The code
    stores whatever JSON value the body carries under a descriptive key; a
    body with a number, a list or an object there is outside this record,
    and the statements on the report say which services and regions (texts,
    [None]) they are about. *)
Record cart_item := {
  id : string;
  item_service : option string;
  resourceType : option string;
  specifications : option string;
  region : option string;
  item_quantity : json;
  hourlyCost : float;
  monthlyCost : float
}.

(** The session: ['cart'] may not have been set yet. *)
Record session := {
  cart : option (list cart_item)
}.

(** [if 'cart' not in session: session['cart'] = []] *)
Definition ensure_cart (s : session) : list cart_item := default [] (cart s).

Record cart_body := {
  cartCount : nat
}.

Record items_body := {
  items : list cart_item;
  items_count : nat
}.

Record total_body := {
  total : Py.num;
  total_count : nat
}.

(** [sum(xs)] on floats.  The start value is the integer [0], returned for
    no item; the first item [x] makes the total the float [0 + x], and the
    float loop of the builtin adds the rest. *)
Definition py_sum `{!Builtins} (xs : list float) : Py.num :=
  match xs with
  | [] => Py.PInt 0
  | x :: rest => Py.PFloat (sum_floats (0 + x)%float rest)
  end.

(** [round(n, 2)]: an [int] is returned unchanged. *)
Definition py_round2 `{!Builtins} (n : Py.num) : Py.num :=
  match n with
  | Py.PInt z => Py.PInt z
  | Py.PFloat f => Py.PFloat (round2 f)
  end.

(** [sum(item.get('monthlyCost', 0) for item in session['cart'])] *)
Definition cart_sum `{!Builtins} (items : list cart_item) : Py.num :=
  py_sum (monthlyCost <$> items).

Module Cart.

Section Handlers.
Context `{!Builtins}.

(** [uuid] is the text of the fresh [uuid.uuid4()]. *)
Definition add_to_cart (uuid : string) (data : request) (s : session)
    : response cart_body * session :=
  let items := ensure_cart s in
  match
    hourly ← py_float (default (JNum (Py.PInt 0)) (req_hourlyCost data));
    monthly ← py_float (default (JNum (Py.PInt 0)) (req_monthlyCost data));
    Ok {| id := uuid;
          item_service := req_service data;
          resourceType := req_resourceType data;
          specifications := req_specifications data;
          region := req_region data;
          item_quantity := default (JNum (Py.PInt 1)) (req_quantity data);
          hourlyCost := hourly;
          monthlyCost := monthly |}
  with
  | Ok new_item =>
      let items' := (items ++ [new_item])%list in
      (Success {| cartCount := length items' |}, {| cart := Some items' |})
  | Raise e =>
      (Failure (ExceptionText e) 500, {| cart := Some items |})
  end.

Definition get_cart_items (s : session) : response items_body * session :=
  let items := ensure_cart s in
  (Success {| items := items; items_count := length items |}, {| cart := Some items |}).

Definition remove_from_cart (item_id : string) (s : session)
    : response cart_body * session :=
  let items := filter (λ item, id item ≠ item_id) (ensure_cart s) in
  (Success {| cartCount := length items |}, {| cart := Some items |}).

Definition clear_cart (s : session) : response unit * session :=
  (Success (), {| cart := Some [] |}).

Definition get_cart_total (s : session) : response total_body * session :=
  let items := ensure_cart s in
  (Success {| total := py_round2 (cart_sum items); total_count := length items |},
   {| cart := Some items |}).

End Handlers.
End Cart.

(** ** report_generator.py: the CSV report

    The report is modelled as the rows handed to [csv.writer.writerow], each
    cell with the value and the format it is written with.  An item of the
    cart has every key, so [item.get(key, default)] returns the stored value,
    [None] included, and never the default. *)

Inductive cell :=
  | CText (s : string)              (* a literal text *)
  | CValue (v : option string)      (* a text field of an item, or None *)
  | CInt (n : Z)
  | CJson (j : json)                (* the stored quantity *)
  | CRate (x : float)               (* f'${x:.4f}/hr' *)
  | CMoney (x : Py.num).            (* f'${x:,.2f}' *)

Definition row := list cell.

(** ['-' * n] *)
Fixpoint dashes (n : nat) : string :=
  match n with
  | O => EmptyString
  | S k => String "-" (dashes k)
  end.

(** The order of Python texts: by code point, a proper prefix first. *)
Definition str_le (a b : string) : Prop := String.leb a b = true.

#[global] Instance str_le_dec : RelDecision str_le.
Proof. intros a b. unfold str_le. apply _. Defined.

(** [sorted(keys)] on keys that are texts or [None].  With two keys or more
    every key is compared with another one, and comparing [None] with a text
    raises [TypeError]. *)
Definition py_sorted (keys : list (option string)) : result (list (option string)) :=
  match keys with
  | [] | [_] => Ok keys
  | _ =>
      texts ← mapM (λ k, match k with
                          | Some s => Ok s
                          | None => Raise TypeError
                          end) keys;
      Ok (Some <$> merge_sort str_le texts)
  end.

Module Report.

Definition header (now : string) (n : nat) : list row :=
  [ [CText "AWS COST ESTIMATE REPORT"];
    [CText "Generated"; CText now];
    [CText "Total Resources"; CInt (Z.of_nat n)];
    [];
    [CText "RESOURCE BREAKDOWN"];
    [];
    [CText "Service"; CText "Resource"; CText "Specifications"; CText "Region";
     CText "Qty"; CText "Hourly Rate"; CText "Monthly Cost"; CText "Annual Cost"];
    [CText (dashes 15); CText (dashes 20); CText (dashes 40); CText (dashes 25);
     CText (dashes 5); CText (dashes 12); CText (dashes 15); CText (dashes 15)] ].

(** One row of the itemized table.  (The loop also adds [annual_cost] to
    [annual_total], which is never written.) *)
Definition item_row (item : cart_item) : result row :=
  annual_cost ← Py.mul (Py.PFloat (monthlyCost item)) (Py.PInt 12);
  Ok [ CValue (item_service item);
       CValue (resourceType item);
       CValue (specifications item);
       CValue (region item);
       CJson (item_quantity item);
       CRate (hourlyCost item);
       CMoney (Py.PFloat (monthlyCost item));
       CMoney annual_cost ].

Definition summary (total_cost annual : Py.num) : list row :=
  [ [CText "COST SUMMARY"];
    [];
    [CText "Period"; CText "Total Cost"];
    [CText (dashes 20); CText (dashes 20)];
    [CText "Monthly"; CMoney total_cost];
    [CText "Annual"; CMoney annual];
    [] ].

Definition breakdown_header (title column : string) (width : nat) : list row :=
  [ [CText title];
    [];
    [CText column; CText "Resources"; CText "Monthly Cost"; CText "Annual Cost"];
    [CText (dashes width); CText (dashes 12); CText (dashes 15); CText (dashes 15)] ].

(** The two dictionaries of a grouping loop: costs and counts by key. *)
Definition groups : Type := gmap (option string) Py.num * gmap (option string) Z.

Definition group_step (key : cart_item → option string) (acc : result groups)
    (item : cart_item) : result groups :=
  '(costs, counts) ← acc;
  let k := key item in
  let cost := default (Py.PInt 0) (costs !! k) in
  let n := default 0%Z (counts !! k) in
  cost' ← Py.add cost (Py.PFloat (monthlyCost item));
  Ok (<[k := cost']> costs, <[k := (n + 1)%Z]> counts).

Definition group_by (key : cart_item → option string) (cart_items : list cart_item)
    : result groups :=
  foldl (group_step key) (Ok (∅, ∅)) cart_items.

Definition breakdown_row (g : groups) (k : option string) : result row :=
  let monthly := default (Py.PInt 0) (g.1 !! k) in
  annual ← Py.mul monthly (Py.PInt 12);
  Ok [ CValue k; CInt (default 0%Z (g.2 !! k)); CMoney monthly; CMoney annual ].

Definition breakdown (key : cart_item → option string) (cart_items : list cart_item)
    : result (list row) :=
  g ← group_by key cart_items;
  keys ← py_sorted (elements (dom g.1));
  mapM (breakdown_row g) keys.

Definition notes : list row :=
  [ [CText "IMPORTANT NOTES"];
    [];
    [CText "1. Pricing Basis"; CText "On-Demand pricing (no reservations or savings plans)"];
    [CText "2. Monthly Hours"; CText "730 hours (365 days ÷ 12 months × 24 hours)"];
    [CText "3. Currency"; CText "USD (United States Dollars)"];
    [CText "4. Exclusions";
     CText "Data transfer, requests, and additional service-specific charges"];
    [CText "5. Accuracy"; CText "Estimates based on official AWS pricing as of January 2026"];
    [CText "6. Actual Costs";
     CText "May vary based on usage patterns, reserved instances, and volume discounts"];
    [] ].

Definition footer : list row :=
  [ [CText "Report generated by AWS Cost Calculator"];
    [CText "For the most accurate pricing, please consult the official AWS Pricing Calculator"];
    [CText "https://calculator.aws/"] ].

(** The sections of the report that depend on the cart. *)
Record sections := {
  itemized : list row;
  by_service : list row;
  by_region : list row
}.

Definition report_sections (cart_items : list cart_item) : result sections :=
  item_rows ← mapM item_row cart_items;
  service_rows ← breakdown item_service cart_items;
  region_rows ← breakdown region cart_items;
  Ok {| itemized := item_rows; by_service := service_rows; by_region := region_rows |}.

Definition render (now : string) (n : nat) (total_cost annual : Py.num) (s : sections)
    : list row :=
  (header now n ++ itemized s ++ [[]]
   ++ summary total_cost annual
   ++ breakdown_header "COST BY SERVICE" "Service" 15 ++ by_service s ++ [[]]
   ++ breakdown_header "COST BY REGION" "Region" 30 ++ by_region s ++ [[]]
   ++ notes ++ footer)%list.

(** [now] is the text of [datetime.now()]. *)
Definition generate_csv_report (now : string) (cart_items : list cart_item)
    (total_cost : Py.num) : result (list row) :=
  s ← report_sections cart_items;
  annual ← Py.mul total_cost (Py.PInt 12);
  Ok (render now (length cart_items) total_cost annual s).

(** The export endpoint of app.py. *)
Definition export_csv `{!Builtins} (now : string) (s : session)
    : response (list row) * session :=
  let cart_items := ensure_cart s in
  (respond (generate_csv_report now cart_items (cart_sum cart_items)),
   {| cart := Some cart_items |}).

End Report.

(** ** Price tables used in the examples *)

(** The entries of a few resources in the default region, as the source
    tables give them (the regional multiplier of the default region is 1.0). *)
Definition sample_pricing : pricing_data := {|
  EC2 := {[ default_region :=
              {[ "t2.micro" := {[ "Linux" := 0.0116%float; "Windows" := 0.0162%float ]};
                 "t3.micro" := {[ "Linux" := 0.0104%float; "Windows" := 0.015%float ]};
                 "m5.large" := {[ "Linux" := 0.096%float; "Windows" := 0.192%float ]} ]} ]};
  RDS := {[ default_region :=
              {[ "db.t3.micro" :=
                   {[ "MySQL" := {[ "Single-AZ" := 0.017%float; "Multi-AZ" := 0.034%float ]} ]} ]} ]};
  S3 := {[ default_region :=
             {[ "General Purpose" := 0.023%float;
                "Infrequent Access" := 0.0125%float;
                "Archive" := 0.004%float ]} ]};
  VPC := {[ default_region := {[ "NatGateway" := 0.045%float; "VPN" := 0.05%float ]} ]};
  ALB := {[ default_region := 0.0225%float ]};
  Route53 := {[ "HostedZone" := 0.50%float; "Queries" := 0.40%float ]}
|}.

(** A table in which one region lists a resource at the price zero. *)
Definition zero_entry_pricing : pricing_data := {|
  EC2 := {[ default_region := {[ "t2.micro" := {[ "Linux" := 0.0116%float ]} ]};
            "EU (Ireland)" := {[ "t2.micro" := {[ "Linux" := 0%float ]} ]} ]};
  RDS := {[ default_region :=
              {[ "db.t3.micro" := {[ "MySQL" := {[ "Single-AZ" := 0.017%float ]} ]} ]};
            "EU (Ireland)" :=
              {[ "db.t3.micro" := {[ "MySQL" := {[ "Single-AZ" := 0%float ]} ]} ]} ]};
  S3 := ∅; VPC := ∅; ALB := ∅; Route53 := ∅
|}.

(** The table entries the lookups read. *)
Definition ec2_entry (pricing : pricing_data) (region instance_type os : string)
    : option float :=
  get_table (get_table (EC2 pricing) region) instance_type !! os.

Definition rds_entry (pricing : pricing_data) (region instance_type engine deployment : string)
    : option float :=
  get_table (get_table (get_table (RDS pricing) region) instance_type) engine !! deployment.

(** The requests of the examples. *)
Definition ec2_t2_micro : request := {|
  req_instanceType := Some "t2.micro"; req_region := Some default_region;
  req_operatingSystem := Some "Linux";
  req_tenancy := None; req_databaseEngine := None; req_deploymentOption := None;
  req_storageClass := None; req_component := None; req_service := None;
  req_resourceType := None; req_specifications := None;
  req_storageGB := None; req_quantity := None;
  req_hourlyCost := None; req_monthlyCost := None
|}.

Definition with_quantity (v : json) (r : request) : request := {|
  req_instanceType := req_instanceType r; req_region := req_region r;
  req_operatingSystem := req_operatingSystem r; req_tenancy := req_tenancy r;
  req_databaseEngine := req_databaseEngine r;
  req_deploymentOption := req_deploymentOption r;
  req_storageClass := req_storageClass r; req_component := req_component r;
  req_service := req_service r; req_resourceType := req_resourceType r;
  req_specifications := req_specifications r;
  req_storageGB := req_storageGB r; req_quantity := Some v;
  req_hourlyCost := req_hourlyCost r; req_monthlyCost := req_monthlyCost r
|}.

Definition with_storageGB (v : json) (r : request) : request := {|
  req_instanceType := req_instanceType r; req_region := req_region r;
  req_operatingSystem := req_operatingSystem r; req_tenancy := req_tenancy r;
  req_databaseEngine := req_databaseEngine r;
  req_deploymentOption := req_deploymentOption r;
  req_storageClass := req_storageClass r; req_component := req_component r;
  req_service := req_service r; req_resourceType := req_resourceType r;
  req_specifications := req_specifications r;
  req_storageGB := Some v; req_quantity := req_quantity r;
  req_hourlyCost := req_hourlyCost r; req_monthlyCost := req_monthlyCost r
|}.


(** A product as the pricing API sends it for S3 standard storage, and a
    client in live mode whose service answers with it. *)
Definition api_s3_product : product := {|
  service := None; description := None; instanceType := None; location := None;
  vcpu := None; memory := None; storage := None; networkPerformance := None;
  productFamily := None; storageClass := None; volumeType := None;
  storageGB := None; quantity := None; prices := None;
  attributes := {[ "location" := default_region;
                   "storageClass" := "General Purpose";
                   "volumeType" := "Standard" ]};
  on_demand := [ [ {| pricePerUnit_USD := Some "0.0230000000";
                      pd_unit := Some "GB-Mo";
                      pd_description := Some "per GB - first 50 TB / month of storage used" |} ] ]
|}.

Definition s3_api_client : AWSPricingClient :=
  ApiClient (λ _ _ _, Ok [api_s3_product]).

(** A sequence of calls of [add_to_cart], each with its fresh identifier. *)
Definition add_all `{!Builtins} (calls : list (string * request)) (s : session) : session :=
  foldl (λ s call, (Cart.add_to_cart call.1 call.2 s).2) s calls.

(** The carts of the examples. *)
Definition sample_item (item_id : string) (service_name : option string)
    (monthly : float) : cart_item := {|
  id := item_id;
  item_service := service_name;
  resourceType := Some "t2.micro";
  specifications := Some "Linux";
  region := Some default_region;
  item_quantity := JNum (Py.PInt 1);
  hourlyCost := 0.0116%float;
  monthlyCost := monthly
|}.

Definition sample_cart : list cart_item :=
  [ sample_item "a" (Some "S3") 2.3; sample_item "b" (Some "EC2") 8.468;
    sample_item "c" (Some "S3") 1 ].

(** A request to add an item, with or without a service. *)
Definition cart_request (service_name : option string) (monthly : float) : request := {|
  req_instanceType := None; req_region := Some default_region;
  req_operatingSystem := None; req_tenancy := None; req_databaseEngine := None;
  req_deploymentOption := None; req_storageClass := None; req_component := None;
  req_service := service_name;
  req_resourceType := Some "t2.micro"; req_specifications := Some "Linux";
  req_storageGB := None; req_quantity := Some (JNum (Py.PInt 1));
  req_hourlyCost := Some (JNum (Py.PFloat 0.0116));
  req_monthlyCost := Some (JNum (Py.PFloat monthly))
|}.

(** ** app.py: the utility endpoints *)

(** The answer of the connectivity probe.  Every answer of this endpoint
    goes out with the default status, 200. *)
Inductive connection_report :=
  | ConnectionOk (message : string)       (* {'success': True, 'message': message} *)
  | ConnectionFailed (error : string)     (* {'success': False, 'error': error} *)
  | ConnectionRaised (e : exn).           (* {'success': False, 'error': str(e)} *)

Record instances_body := {
  instances : list string;
  instances_count : nat;
  instances_region : option string   (* the fallback answer has no key 'region' *)
}.

Module Utility.

(** [get_services] is the outcome of [pricing_client.get_services()], the
    call to the external pricing service. *)
Definition test_connection (pricing_client : option AWSPricingClient)
    (get_services : result (list string)) : connection_report * Z :=
  match pricing_client with
  | None => (ConnectionFailed "Pricing client not initialized", 200%Z)
  | Some c =>
      if use_bulk_pricing c then (ConnectionOk "Using credential-free pricing", 200%Z)
      else
        match get_services with
        | Ok _ => (ConnectionOk "Connected to AWS Pricing API", 200%Z)
        | Raise e => (ConnectionRaised e, 200%Z)
        end
  end.

(** [region_arg] is [request.args.get('region')]. *)
Definition get_available_instances (pricing_client : option AWSPricingClient)
    (region_arg : option string) : response instances_body :=
  let region := default default_region region_arg in
  match pricing_client with
  | Some (BulkClient pricing) =>
      let ec2_data := EC2 pricing in
      let region_data := get_table ec2_data region in
      let instances := merge_sort str_le (map_to_list region_data).*1 in
      Success {| instances := instances;
                 instances_count := length instances;
                 instances_region := Some region |}
  | _ =>
      Success {| instances := ["t2.micro"; "t3.micro"; "m5.large"];
                 instances_count := 3;
                 instances_region := None |}
  end.

End Utility.

(** ** comprehensive_pricing.py and bulk_pricing.py: building the price table

    [round(x, 4)] is the interpreter's; the construction is parametric in
    it. *)

Module ComprehensivePricing.
Section Expand.
Variable round4 : float → float.

(** [{os: round(price * multiplier, 4) for os, price in os_prices.items()}] *)
Definition regional_prices (multiplier : float) (os_prices : gmap string float)
    : gmap string float :=
  (λ price, round4 (price * multiplier)%float) <$> os_prices.

(** The inner loop: every instance type of US East that the region does not
    list yet is added with the regional prices. *)
Definition add_missing_instances (us_east_instances : gmap string (gmap string float))
    (multiplier : float) (region_table : gmap string (gmap string float))
    : gmap string (gmap string float) :=
  map_fold (λ instance_type os_prices table,
              if decide (is_Some (table !! instance_type)) then table
              else <[instance_type := regional_prices multiplier os_prices]> table)
    region_table us_east_instances.

(** [get_all_regions_pricing()], on the tables [EC2_PRICING] and
    [REGION_MULTIPLIERS] of the module.  ([us_east_instances] is the table of
    the default region itself; processing that region adds nothing to it,
    since it lists every one of its own instance types.) *)
Definition get_all_regions_pricing
    (EC2_PRICING : gmap string (gmap string (gmap string float)))
    (REGION_MULTIPLIERS : gmap string float)
    : result (gmap string (gmap string (gmap string float))) :=
  match EC2_PRICING !! default_region with
  | None => Raise (KeyError default_region)
  | Some us_east_instances =>
      Ok (map_fold (λ region multiplier table,
                      let table :=
                        if decide (is_Some (table !! region)) then table
                        else <[region := ∅]> table in
                      <[region := add_missing_instances us_east_instances multiplier
                                    (get_table table region)]> table)
            EC2_PRICING REGION_MULTIPLIERS)
  end.

End Expand.
End ComprehensivePricing.

(** The prices of one RDS engine: [deployment_prices["Single-AZ"]] and
    [deployment_prices["Multi-AZ"]]. *)
Record deployment_prices := {
  single_az : float;
  multi_az : float
}.

Definition S3_BASE : gmap string float :=
  {[ "General Purpose" := 0.023%float; "Infrequent Access" := 0.0125%float;
     "Archive" := 0.004%float ]}.

Definition VPC_BASE : gmap string float :=
  {[ "NatGateway" := 0.045%float; "VPN" := 0.05%float ]}.

Definition ALB_BASE : float := 0.0225%float.

Module BulkPricing.
Section Fallback.
Variable round4 : float → float.
Variable EC2_PRICING : gmap string (gmap string (gmap string float)).
Variable REGION_MULTIPLIERS : gmap string float.
Variable RDS_BASE_US_EAST : gmap string (gmap string deployment_prices).

(** [for region, multiplier in REGION_MULTIPLIERS.items(): table[region] = entry] *)
Definition for_each_region {V} (entry : float → V) : gmap string V :=
  map_fold (λ region multiplier table, <[region := entry multiplier]> table)
    ∅ REGION_MULTIPLIERS.

(** The prices of one engine in one region. *)
Definition deployment_entry (multiplier : float) (prices : deployment_prices)
    : gmap string float :=
  {[ "Single-AZ" := round4 (single_az prices * multiplier)%float;
     "Multi-AZ" := round4 (multi_az prices * multiplier)%float ]}.

Definition rds_region (multiplier : float) : gmap string (gmap string (gmap string float)) :=
  map_fold (λ instance_type engine_data table,
              <[instance_type :=
                  map_fold (λ engine prices engines,
                              <[engine := deployment_entry multiplier prices]> engines)
                    ∅ engine_data]> table)
    ∅ RDS_BASE_US_EAST.

(** [FALLBACK_PRICING] once the module is loaded; loading fails when
    [comprehensive_pricing] does. *)
Definition FALLBACK_PRICING : result pricing_data :=
  ec2 ← ComprehensivePricing.get_all_regions_pricing round4 EC2_PRICING REGION_MULTIPLIERS;
  Ok {| EC2 := ec2;
        RDS := for_each_region rds_region;
        S3 := for_each_region (λ multiplier,
                (λ price, round4 (price * multiplier)%float) <$> S3_BASE);
        VPC := for_each_region (λ multiplier,
                 (λ price, round4 (price * multiplier)%float) <$> VPC_BASE);
        ALB := for_each_region (λ multiplier, round4 (ALB_BASE * multiplier)%float);
        Route53 := {[ "HostedZone" := 0.50%float; "Queries" := 0.40%float ]} |}.

End Fallback.
End BulkPricing.

(** Two helpers of [LivePricingScraper]. *)
Definition region_map : gmap string string :=
  {[ "us-east-1" := "US East (N. Virginia)";
     "us-west-2" := "US West (Oregon)";
     "eu-west-1" := "EU (Ireland)";
     "eu-central-1" := "EU (Frankfurt)";
     "ap-southeast-1" := "Asia Pacific (Singapore)";
     "ap-northeast-1" := "Asia Pacific (Tokyo)";
     "ap-southeast-2" := "Asia Pacific (Sydney)" ]}.

Definition _get_region_name (region_code : string) : string :=
  default region_code (region_map !! region_code).

Definition _count_instances {V} (pricing_data : gmap string (gmap string V)) : nat :=
  map_fold (λ region instances count, count + size instances) 0 pricing_data.

(** [round(f, 4)], computed as the reference [round(f, 2)] is. *)
Definition round_4dp (f : float) : float :=
  match Prim2SF f with
  | S754_finite s m e =>
      let units :=
        if (0 <=? e)%Z then (Z.pos m * 2 ^ e * 10000)%Z
        else Reference.div_half_even (Z.pos m * 10000) (2 ^ (- e)) in
      match units with
      | Z.pos n => SF2Prim (Reference.round_ratio s n 10000)
      | _ => SF2Prim (S754_zero s)
      end
  | _ => f
  end.

(** Base tables of the examples: two instance types of US East, one price
    listed for EU (Ireland), three regions with a multiplier, one RDS
    instance type. *)
Definition sample_EC2_PRICING : gmap string (gmap string (gmap string float)) :=
  {[ default_region :=
       {[ "t2.micro" := {[ "Linux" := 0.0116%float; "Windows" := 0.0162%float ]};
          "m5.large" := {[ "Linux" := 0.096%float; "Windows" := 0.192%float ]} ]};
     "EU (Ireland)" :=
       {[ "t2.micro" := {[ "Linux" := 0.0126%float; "Windows" := 0.0172%float ]} ]} ]}.

Definition sample_REGION_MULTIPLIERS : gmap string float :=
  {[ default_region := 1.0%float; "EU (Ireland)" := 1.12%float;
     "EU (London)" := 1.13%float ]}.

Definition sample_RDS_BASE : gmap string (gmap string deployment_prices) :=
  {[ "db.t3.micro" :=
       {[ "MySQL" := {| single_az := 0.017%float; multi_az := 0.034%float |} ]} ]}.

(** The table generated from them. *)
Definition sample_fallback : pricing_data :=
  match BulkPricing.FALLBACK_PRICING round_4dp sample_EC2_PRICING
          sample_REGION_MULTIPLIERS sample_RDS_BASE with
  | Ok pricing => pricing
  | Raise _ => sample_pricing
  end.

(** A product of the pricing service whose price is not a number. *)
Definition unreadable_product : product := {|
  service := None; description := None; instanceType := None; location := None;
  vcpu := None; memory := None; storage := None; networkPerformance := None;
  productFamily := None; storageClass := None; volumeType := None;
  storageGB := None; quantity := None; prices := None;
  attributes := {[ "location" := default_region ]};
  on_demand := [ [ {| pricePerUnit_USD := Some "n/a";
                      pd_unit := Some "GB-Mo";
                      pd_description := None |} ] ]
|}.

(** A product as the pricing API sends it for a NAT gateway. *)
Definition api_nat_product : product := {|
  service := None; description := None; instanceType := None; location := None;
  vcpu := None; memory := None; storage := None; networkPerformance := None;
  productFamily := None; storageClass := None; volumeType := None;
  storageGB := None; quantity := None; prices := None;
  attributes := {[ "location" := default_region;
                   "productFamily" := "NAT Gateway";
                   "usagetype" := "NatGateway-Hours" ]};
  on_demand := [ [ {| pricePerUnit_USD := Some "0.0450000000";
                      pd_unit := Some "Hrs";
                      pd_description := Some "$0.045 per NAT Gateway Hour" |} ] ]
|}.

(** The float loop of [sum], as CPython has it from version 3.12 on, keeps
    two numbers: the running total, to which every item is added in turn, and
    the sum [c] of the rounding errors of these additions.
    [compensation f c xs] is that [c] once the floats [xs] have been added to
    the running total [f]. *)
Fixpoint compensation (f c : float) (xs : list float) : float :=
  match xs with
  | [] => c
  | x :: rest =>
      let t := (f + x)%float in
      let c' := if (abs x <=? abs f)%float then (c + ((f - t) + x))%float
                else (c + ((x - t) + f))%float in
      compensation t c' rest
  end.

(** * Properties *)

(** ** Arithmetic of the model *)

Example float_of_int_730 : Py.float_of_int 730 = Ok 730%float.
Proof. vm_compute. reflexivity. Qed.

Example float_of_int_12 : Py.float_of_int 12 = Ok 12%float.
Proof. vm_compute. reflexivity. Qed.

Example float_of_int_1 : Py.float_of_int 1 = Ok 1%float.
Proof. vm_compute. reflexivity. Qed.

Example float_of_int_2 : Py.float_of_int 2 = Ok 2%float.
Proof. vm_compute. reflexivity. Qed.

Example float_of_int_0 : Py.float_of_int 0 = Ok 0%float.
Proof. vm_compute. reflexivity. Qed.

Example float_of_int_tie : Py.float_of_int (2 ^ 53 + 1) = Ok 9007199254740992%float.
Proof. vm_compute. reflexivity. Qed.

Example float_of_int_huge : Py.float_of_int (10 ^ 400) = Raise OverflowError.
Proof. vm_compute. reflexivity. Qed.

Example int_of_float_trunc : Py.int_of_float (-2.75)%float = Ok (-2)%Z.
Proof. vm_compute. reflexivity. Qed.

Example mul_hourly : Py.mul (Py.PFloat 0.0116) (Py.PInt 730) = Ok (Py.PFloat 8.468).
Proof. vm_compute. reflexivity. Qed.

Example contains_hrs : contains "Hrs" "Hrs" = true ∧ contains "Hrs" "Month" = false.
Proof. split; reflexivity. Qed.

Example remove_db_prefixes_rds : remove_db_prefixes 0 "db.t3.micro" = "t3.micro".
Proof. reflexivity. Qed.

Example round_2dp_total : Reference.round_2dp 10.768000000000001%float = 10.77%float.
Proof. vm_compute. reflexivity. Qed.

Example round_2dp_tie : Reference.round_2dp 0.125%float = 0.12%float.
Proof. vm_compute. reflexivity. Qed.

Example float_of_text :
  Reference.float_of "2.30" = Some 2.3%float ∧ Reference.float_of "abc" = None.
Proof. split; vm_compute; reflexivity. Qed.

(** A finite float is a zero or a finite number in the IEEE specification. *)
Lemma Prim2SF_finite_cases (p : float) :
  is_finite p = true →
  (∃ s, Prim2SF p = S754_zero s) ∨ (∃ s m e, Prim2SF p = S754_finite s m e).
Proof.
  unfold is_finite. intros Hf.
  apply negb_true_iff, orb_false_iff in Hf as [Hnan Hinf].
  unfold Prim2SF. rewrite Hnan, Hinf.
  destruct (is_zero p); [left; eauto|].
  destruct (Z.frexp p) as [r ex].
  destruct (shr_fexp _ _ _ _ _) as [sh e'].
  destruct (shr_m sh); [left|right|left]; eauto.
Qed.

(** [p * 0.0 == 0] for every finite [p]. *)
Lemma mul_zero_r_finite (p : float) :
  is_finite p = true → (p * 0 =? 0)%float = true.
Proof.
  intros Hf. rewrite FloatAxioms.eqb_spec, mul_spec.
  destruct (Prim2SF_finite_cases p Hf) as [[s ->]|(s & m & e & ->)];
    destruct s; reflexivity.
Qed.





Lemma mul_float_int (x : float) (z : Z) (zf : float) :
  Py.float_of_int z = Ok zf →
  Py.mul (Py.PFloat x) (Py.PInt z) = Ok (Py.PFloat (x * zf)).
Proof. intros Hz. cbv beta iota delta [Py.mul]. rewrite Hz. reflexivity. Qed.

(** ** Lookups in the price table *)

Section LookupFacts.
Import LivePricingScraper.
Variable pricing : pricing_data.

Lemma ec2_hourly_price_unfold instance_type region os :
  ec2_hourly_price pricing instance_type region os =
    let hourly_price := default (Py.PInt 0) (Py.PFloat <$> ec2_entry pricing region instance_type os) in
    if Py.eq0 hourly_price
    then default (Py.PInt 0) (Py.PFloat <$> ec2_entry pricing default_region instance_type os)
    else hourly_price.
Proof. reflexivity. Qed.

Lemma rds_hourly_price_unfold instance_type region engine deployment :
  rds_hourly_price pricing instance_type region engine deployment =
    let hourly_price :=
      default (Py.PInt 0) (Py.PFloat <$> rds_entry pricing region instance_type engine deployment) in
    if Py.eq0 hourly_price
    then default (Py.PInt 0)
           (Py.PFloat <$> rds_entry pricing default_region instance_type engine deployment)
    else hourly_price.
Proof. reflexivity. Qed.

End LookupFacts.

Section Resolution.
Import LivePricingScraper.
Variable pricing : pricing_data.

(** A lookup that finds no price, or the price zero, answers with the entry
    of the default region. *)
Lemma ec2_retry instance_type region os :
  Py.eq0 (default (Py.PInt 0) (Py.PFloat <$> ec2_entry pricing region instance_type os)) = true →
  ec2_hourly_price pricing instance_type region os =
    default (Py.PInt 0) (Py.PFloat <$> ec2_entry pricing default_region instance_type os).
Proof. intros Hz. rewrite ec2_hourly_price_unfold. simpl. rewrite Hz. reflexivity. Qed.

Lemma ec2_no_retry instance_type region os f :
  ec2_entry pricing region instance_type os = Some f →
  (f =? 0)%float = false →
  ec2_hourly_price pricing instance_type region os = Py.PFloat f.
Proof.
  intros He Hz. rewrite ec2_hourly_price_unfold, He. simpl. rewrite Hz. reflexivity.
Qed.

Lemma rds_retry instance_type region engine deployment :
  Py.eq0 (default (Py.PInt 0)
            (Py.PFloat <$> rds_entry pricing region instance_type engine deployment)) = true →
  rds_hourly_price pricing instance_type region engine deployment =
    default (Py.PInt 0)
      (Py.PFloat <$> rds_entry pricing default_region instance_type engine deployment).
Proof. intros Hz. rewrite rds_hourly_price_unfold. simpl. rewrite Hz. reflexivity. Qed.


(** C9.  In static-table mode the lookup of an EC2 or RDS price retries with
    the default region whenever the price found for the requested region
    [== 0]: when the entry is missing, and just as well when the entry is
    present with the price zero.  Both cases resolve to the same value, the
    entry of the default region (or [0] when that one is missing too), so a
    listed price of zero is replaced by the price of US East (N. Virginia)
    when there is one. *)
Theorem zero_price_triggers_default_region_retry
    (instance_type db_instance_type region os engine deployment : string) :
  (∀ entry,
     ec2_entry pricing region instance_type os = entry →
     entry = None ∨ (∃ f, entry = Some f ∧ (f =? 0)%float = true) →
     ec2_hourly_price pricing instance_type region os =
       default (Py.PInt 0) (Py.PFloat <$> ec2_entry pricing default_region instance_type os)
     ∧ ∀ g, ec2_entry pricing default_region instance_type os = Some g →
            ec2_hourly_price pricing instance_type region os = Py.PFloat g)
  ∧ (∀ entry,
     rds_entry pricing region db_instance_type engine deployment = entry →
     entry = None ∨ (∃ f, entry = Some f ∧ (f =? 0)%float = true) →
     rds_hourly_price pricing db_instance_type region engine deployment =
       default (Py.PInt 0)
         (Py.PFloat <$> rds_entry pricing default_region db_instance_type engine deployment)
     ∧ ∀ g, rds_entry pricing default_region db_instance_type engine deployment = Some g →
            rds_hourly_price pricing db_instance_type region engine deployment = Py.PFloat g).
Proof.
  split; intros entry He Hzero.
  - assert (Hretry : ec2_hourly_price pricing instance_type region os =
      default (Py.PInt 0) (Py.PFloat <$> ec2_entry pricing default_region instance_type os)).
    { apply ec2_retry. rewrite He.
      destruct Hzero as [-> | (f & -> & Hf)]; [reflexivity | exact Hf]. }
    split; [exact Hretry | intros g Hg; rewrite Hretry, Hg; reflexivity].
  - assert (Hretry : rds_hourly_price pricing db_instance_type region engine deployment =
      default (Py.PInt 0)
        (Py.PFloat <$> rds_entry pricing default_region db_instance_type engine deployment)).
    { apply rds_retry. rewrite He.
      destruct Hzero as [-> | (f & -> & Hf)]; [reflexivity | exact Hf]. }
    split; [exact Hretry | intros g Hg; rewrite Hretry, Hg; reflexivity].
Qed.

End Resolution.

(** The table [zero_entry_pricing] lists t2.micro at zero in EU (Ireland):
    the lookup answers with the price of the default region. *)
Lemma zero_price_triggers_default_region_retry_witness :
  ec2_entry zero_entry_pricing "EU (Ireland)" "t2.micro" "Linux" = Some 0%float
  ∧ LivePricingScraper.ec2_hourly_price zero_entry_pricing "t2.micro" "EU (Ireland)" "Linux"
      = Py.PFloat 0.0116
  ∧ LivePricingScraper.rds_hourly_price zero_entry_pricing "db.t3.micro" "EU (Ireland)"
      "MySQL" "Single-AZ" = Py.PFloat 0.017.
Proof.
  pose proof (zero_price_triggers_default_region_retry zero_entry_pricing
                "t2.micro" "db.t3.micro" "EU (Ireland)" "Linux" "MySQL" "Single-AZ")
    as [Hec2 Hrds].
  assert (Hz : ∃ f, Some 0%float = Some f ∧ (f =? 0)%float = true)
    by (eexists; split; reflexivity).
  split; [reflexivity|]. split.
  - exact (proj2 (Hec2 (Some 0%float) eq_refl (or_intror Hz)) 0.0116%float eq_refl).
  - exact (proj2 (Hrds (Some 0%float) eq_refl (or_intror Hz)) 0.017%float eq_refl).
Defined.

(** ** Normalisation of hourly and monthly prices *)

Arguments Py.float_of_int : simpl never.

(** A lookup with a float default yields a float. *)
Lemma get_price_float d k (x : float) : ∃ f, get_price d k (Py.PFloat x) = Py.PFloat f.
Proof. unfold get_price. destruct (d !! k); simpl; eauto. Qed.

Lemma hourly_formula (f : float) (q : Z) (qf : float) :
  Py.float_of_int q = Ok qf →
  Py.mul (Py.PFloat f) (Py.PInt 730) ≫= (λ h, Py.mul h (Py.PInt q))
    = Ok (Py.PFloat (f * 730 * qf)).
Proof.
  intros Hq. cbv beta iota delta [Py.mul].
  rewrite float_of_int_730. cbv beta iota delta [mbind result_bind Py.mul].
  rewrite Hq. reflexivity.
Qed.

Section HourlyServices.
Import LivePricingScraper Client.
Context `{!Builtins}.
Variable pricing : pricing_data.

Lemma monthly_of_hrs (a : float) (q : Z) (qf : float) :
  Py.float_of_int q = Ok qf →
  monthly_of a "Hrs" q = Ok (Py.PFloat (a * 730 * qf)).
Proof. intros Hq. unfold monthly_of. simpl contains. cbv iota. apply hourly_formula, Hq. Qed.

Lemma monthly_of_month (a : float) (q : Z) (qf : float) :
  Py.float_of_int q = Ok qf →
  monthly_of a "Month" q = Ok (Py.PFloat (a * qf)).
Proof. intros Hq. unfold monthly_of. simpl contains. cbv iota. apply mul_float_int, Hq. Qed.

(** The bulk branch of [format_single_price] on one product. *)
Lemma format_single_product_bulk service_name (q : Z) (p : product) pr rest a m :
  service p ∈ [Some "VPC"; Some "ALB"; Some "Route53"] →
  prices p = Some (pr :: rest) →
  float_of_amount (amount pr) = Ok a →
  monthly_of a (default "Hrs" (price_unit pr)) q = Ok m →
  format_single_product service_name q p
    = Ok (update_product p (storageGB p) (Some q) (set_monthly_cost m pr :: rest)).
Proof.
  intros Hs Hp Ha Hm. unfold format_single_product.
  rewrite (bool_decide_eq_true_2 _ Hs), Hp, Ha.
  cbv beta iota delta [mbind result_bind]. rewrite Hm. reflexivity.
Qed.

(** The VPC endpoint on the static table. *)
Lemma get_vpc_pricing_bulk (data : request) (q : Z) (qf f : float) :
  py_int (default (JNum (Py.PInt 1)) (req_quantity data)) = Ok q →
  Py.float_of_int q = Ok qf →
  vpc_hourly_price pricing (default "NatGateway" (req_component data))
    (default default_region (req_region data)) = Py.PFloat f →
  ∃ p pr,
    App.get_vpc_pricing (Some (BulkClient pricing)) data
      = Success {| data := [p]; count := 1 |}
    ∧ service p = Some "VPC" ∧ quantity p = Some q ∧ prices p = Some [pr]
    ∧ amount pr = Some (AmountStr (Py.Str (Py.PFloat f)))
    ∧ price_unit pr = Some "Hrs"
    ∧ monthly_cost pr = Some (Py.PFloat (f * 730 * qf)).
Proof.
  intros Hq Hqf Hf.
  unfold App.get_vpc_pricing, Client.get_vpc_pricing, find_vpc_pricing.
  rewrite Hq, Hf, (hourly_formula f 1 1 float_of_int_1).
  cbv beta iota delta [mbind result_bind format_single_price skip_failures list_bind mapM].
  erewrite format_single_product_bulk;
    [ | set_solver | reflexivity | reflexivity | apply (monthly_of_hrs f q qf Hqf) ].
  do 2 eexists. repeat split; reflexivity.
Qed.

(** The ALB endpoint on the static table. *)
Lemma get_alb_pricing_bulk (data : request) (q : Z) (qf f : float) :
  py_int (default (JNum (Py.PInt 1)) (req_quantity data)) = Ok q →
  Py.float_of_int q = Ok qf →
  alb_hourly_price pricing (default default_region (req_region data)) = Py.PFloat f →
  ∃ p pr,
    App.get_alb_pricing (Some (BulkClient pricing)) data
      = Success {| data := [p]; count := 1 |}
    ∧ service p = Some "ALB" ∧ quantity p = Some q ∧ prices p = Some [pr]
    ∧ amount pr = Some (AmountStr (Py.Str (Py.PFloat f)))
    ∧ price_unit pr = Some "Hrs"
    ∧ monthly_cost pr = Some (Py.PFloat (f * 730 * qf)).
Proof.
  intros Hq Hqf Hf.
  unfold App.get_alb_pricing, Client.get_alb_pricing, find_alb_pricing.
  rewrite Hq, Hf, (hourly_formula f 1 1 float_of_int_1).
  cbv beta iota delta [mbind result_bind format_single_price skip_failures list_bind mapM].
  erewrite format_single_product_bulk;
    [ | set_solver | reflexivity | reflexivity | apply (monthly_of_hrs f q qf Hqf) ].
  do 2 eexists. repeat split; reflexivity.
Qed.

(** The Route53 endpoint on the static table. *)
Lemma get_route53_pricing_bulk (data : request) (q : Z) (qf f : float) :
  py_int (default (JNum (Py.PInt 1)) (req_quantity data)) = Ok q →
  Py.float_of_int q = Ok qf →
  route53_monthly_price pricing (default "HostedZone" (req_component data)) = Py.PFloat f →
  ∃ p pr,
    App.get_route53_pricing (Some (BulkClient pricing)) data
      = Success {| data := [p]; count := 1 |}
    ∧ service p = Some "Route53" ∧ quantity p = Some q ∧ prices p = Some [pr]
    ∧ amount pr = Some (AmountStr (Py.Str (Py.PFloat f)))
    ∧ price_unit pr = Some "Month"
    ∧ monthly_cost pr = Some (Py.PFloat (f * qf)).
Proof.
  intros Hq Hqf Hf.
  unfold App.get_route53_pricing, Client.get_route53_pricing, find_route53_pricing.
  rewrite Hq, Hf, (mul_float_int f 1 1 float_of_int_1).
  cbv beta iota delta [mbind result_bind format_single_price skip_failures list_bind mapM].
  erewrite format_single_product_bulk;
    [ | set_solver | reflexivity | reflexivity | apply (monthly_of_month f q qf Hqf) ].
  do 2 eexists. repeat split; reflexivity.
Qed.

(** The EC2 and RDS endpoints on the static table return the record of the
    lookup as it is: a unit price, and no monthly cost. *)
Lemma get_ec2_pricing_bulk (data : request) :
  ∃ p pr,
    App.get_ec2_pricing (Some (BulkClient pricing)) data
      = Success {| data := [p]; count := 1 |}
    ∧ quantity p = None ∧ prices p = Some [pr]
    ∧ amount pr = Some (AmountStr (Py.Str
        (ec2_hourly_price pricing
           (default "t2.micro" (req_instanceType data))
           (default default_region (req_region data))
           (default "Linux" (req_operatingSystem data)))))
    ∧ price_unit pr = Some "Hrs"
    ∧ monthly_cost pr = None.
Proof. do 2 eexists. repeat split; reflexivity. Qed.

Lemma get_rds_pricing_bulk (data : request) :
  ∃ p pr,
    App.get_rds_pricing (Some (BulkClient pricing)) data
      = Success {| data := [p]; count := 1 |}
    ∧ quantity p = None ∧ prices p = Some [pr]
    ∧ amount pr = Some (AmountStr (Py.Str
        (rds_hourly_price pricing
           (default "db.t3.micro" (req_instanceType data))
           (default default_region (req_region data))
           (default "MySQL" (req_databaseEngine data))
           (default "Single-AZ" (req_deploymentOption data)))))
    ∧ price_unit pr = Some "Hrs"
    ∧ monthly_cost pr = None.
Proof. do 2 eexists. repeat split; reflexivity. Qed.

(** C1, as the code has it.  In static-table mode a VPC-component or ALB
    request whose quantity is an integer that converts to a float is answered
    with one record whose monthly cost is [amount * 730 * quantity], [amount]
    being the resolved hourly price.  An EC2 or RDS request is answered with
    the resolved record alone: the hourly price with the unit Hrs, and neither
    a quantity nor a monthly cost. *)
Theorem hourly_services_monthly_cost (data : request) (q : Z) (qf : float) :
  py_int (default (JNum (Py.PInt 1)) (req_quantity data)) = Ok q →
  Py.float_of_int q = Ok qf →
  (∃ f p pr,
     vpc_hourly_price pricing (default "NatGateway" (req_component data))
       (default default_region (req_region data)) = Py.PFloat f
     ∧ App.get_vpc_pricing (Some (BulkClient pricing)) data
         = Success {| data := [p]; count := 1 |}
     ∧ quantity p = Some q ∧ prices p = Some [pr]
     ∧ amount pr = Some (AmountStr (Py.Str (Py.PFloat f)))
     ∧ price_unit pr = Some "Hrs"
     ∧ monthly_cost pr = Some (Py.PFloat (f * 730 * qf)))
  ∧ (∃ f p pr,
     alb_hourly_price pricing (default default_region (req_region data)) = Py.PFloat f
     ∧ App.get_alb_pricing (Some (BulkClient pricing)) data
         = Success {| data := [p]; count := 1 |}
     ∧ quantity p = Some q ∧ prices p = Some [pr]
     ∧ amount pr = Some (AmountStr (Py.Str (Py.PFloat f)))
     ∧ price_unit pr = Some "Hrs"
     ∧ monthly_cost pr = Some (Py.PFloat (f * 730 * qf)))
  ∧ (∃ p pr,
     App.get_ec2_pricing (Some (BulkClient pricing)) data
       = Success {| data := [p]; count := 1 |}
     ∧ quantity p = None ∧ prices p = Some [pr]
     ∧ amount pr = Some (AmountStr (Py.Str
         (ec2_hourly_price pricing
            (default "t2.micro" (req_instanceType data))
            (default default_region (req_region data))
            (default "Linux" (req_operatingSystem data)))))
     ∧ price_unit pr = Some "Hrs"
     ∧ monthly_cost pr = None)
  ∧ (∃ p pr,
     App.get_rds_pricing (Some (BulkClient pricing)) data
       = Success {| data := [p]; count := 1 |}
     ∧ quantity p = None ∧ prices p = Some [pr]
     ∧ amount pr = Some (AmountStr (Py.Str
         (rds_hourly_price pricing
            (default "db.t3.micro" (req_instanceType data))
            (default default_region (req_region data))
            (default "MySQL" (req_databaseEngine data))
            (default "Single-AZ" (req_deploymentOption data)))))
     ∧ price_unit pr = Some "Hrs"
     ∧ monthly_cost pr = None).
Proof.
  intros Hq Hqf. repeat split.
  - destruct (get_price_float
      (get_table (VPC pricing) (default default_region (req_region data)))
      (default "NatGateway" (req_component data)) 0.045) as [f Hf].
    destruct (get_vpc_pricing_bulk data q qf f Hq Hqf Hf) as (p & pr & ? & ? & ?).
    exists f, p, pr. split; [exact Hf | tauto].
  - destruct (get_price_float (ALB pricing)
      (default default_region (req_region data)) 0.0225) as [f Hf].
    destruct (get_alb_pricing_bulk data q qf f Hq Hqf Hf) as (p & pr & ? & ? & ?).
    exists f, p, pr. split; [exact Hf | tauto].
  - apply get_ec2_pricing_bulk.
  - apply get_rds_pricing_bulk.
Qed.

End HourlyServices.

(** Two NAT gateways in the default region cost 0.045 * 730 * 2 a month; the
    record resolved for t2.micro, Linux, in the same region carries the price
    0.0116 and no monthly cost. *)
Lemma hourly_services_monthly_cost_witness :
  py_int (H := Reference.builtins)
    (default (JNum (Py.PInt 1))
       (req_quantity (with_quantity (JNum (Py.PInt 2)) ec2_t2_micro))) = Ok 2%Z
  ∧ Py.float_of_int 2 = Ok 2%float
  ∧ (∃ p pr,
      App.get_vpc_pricing (H := Reference.builtins) (Some (BulkClient sample_pricing))
        (with_quantity (JNum (Py.PInt 2)) ec2_t2_micro)
        = Success {| data := [p]; count := 1 |}
      ∧ quantity p = Some 2%Z ∧ prices p = Some [pr]
      ∧ amount pr = Some (AmountStr (Py.Str (Py.PFloat 0.045)))
      ∧ monthly_cost pr = Some (Py.PFloat 65.7))
  ∧ (∃ p pr,
      App.get_ec2_pricing (Some (BulkClient sample_pricing))
        (with_quantity (JNum (Py.PInt 2)) ec2_t2_micro)
        = Success {| data := [p]; count := 1 |}
      ∧ quantity p = None ∧ prices p = Some [pr]
      ∧ amount pr = Some (AmountStr (Py.Str (Py.PFloat 0.0116)))
      ∧ monthly_cost pr = None).
Proof.
  assert (Hq : py_int (H := Reference.builtins)
    (default (JNum (Py.PInt 1))
       (req_quantity (with_quantity (JNum (Py.PInt 2)) ec2_t2_micro))) = Ok 2%Z)
    by reflexivity.
  split; [exact Hq|]. split; [exact float_of_int_2|].
  destruct (hourly_services_monthly_cost (H := Reference.builtins) sample_pricing
              (with_quantity (JNum (Py.PInt 2)) ec2_t2_micro) 2 2 Hq float_of_int_2)
    as ((f & p & pr & Hf & Hr & Hqty & Hp & Ha & _ & Hm) & _
        & (p' & pr' & Hr' & Hqty' & Hp' & Ha' & _ & Hm') & _).
  vm_compute in Hf. injection Hf as <-. vm_compute in Ha'. split.
  - exists p, pr. repeat split; [exact Hr | exact Hqty | exact Hp | exact Ha | exact Hm].
  - exists p', pr'. repeat split; [exact Hr' | exact Hqty' | exact Hp' | exact Ha' | exact Hm'].
Defined.

(** C1, against the claim as stated: the record resolved for t2.micro, Linux,
    US East (N. Virginia) carries the unit price 0.0116 and no monthly cost
    (nor a quantity); the product 0.0116 * 730 * 1 = 8.468 is not computed by
    the backend for EC2. *)
Lemma ec2_record_has_no_monthly_cost :
  ∃ p pr,
    App.get_ec2_pricing (Some (BulkClient sample_pricing)) ec2_t2_micro
      = Success {| data := [p]; count := 1 |}
    ∧ prices p = Some [pr]
    ∧ amount pr = Some (AmountStr (Py.Str (Py.PFloat 0.0116)))
    ∧ price_unit pr = Some "Hrs"
    ∧ monthly_cost pr = None
    ∧ monthly_cost pr ≠ Some (Py.PFloat 8.468)
    ∧ quantity p = None.
Proof.
  do 2 eexists. split; [reflexivity|]. split; [reflexivity|].
  split; [vm_compute; reflexivity|]. repeat split; try reflexivity. discriminate.
Qed.

(** An integer quantity too large for a float makes the formatter skip the
    record: [amount * 730 * quantity] raises [OverflowError], which the loop
    of [format_single_price] catches. *)
Example huge_quantity_drops_the_record :
  App.get_vpc_pricing (H := Reference.builtins) (Some (BulkClient sample_pricing))
    (with_quantity (JNum (Py.PInt (10 ^ 400))) empty_request)
    = Success {| data := []; count := 0 |}.
Proof. vm_compute. reflexivity. Qed.

Example t2_micro_formula :
  Client.monthly_of 0.0116 "Hrs" 1 = Ok (Py.PFloat 8.468).
Proof. vm_compute. reflexivity. Qed.

(** ** The lookup policy *)

Section LookupPolicy.
Import LivePricingScraper.
Variable pricing : pricing_data.


End LookupPolicy.



(** ** Capacity-billed and flat-monthly services *)



Section Storage.
Import LivePricingScraper Client.
Context `{!Builtins}.

(** The bulk branch of [format_s3_pricing_data] on one product. *)
Lemma format_s3_product_bulk (g : float) (p : product) pr rest a f :
  service p = Some "S3" →
  prices p = Some (pr :: rest) →
  amount pr = Some a →
  float_of_amount (Some a) = Ok f →
  format_s3_product g p
    = Ok (update_product p (Some (Py.PFloat g)) (quantity p)
            (set_monthly_cost (Py.PFloat (f * g)) pr :: rest)).
Proof.
  intros Hs Hp Ha Hf. unfold format_s3_product.
  rewrite (bool_decide_eq_true_2 _ Hs), Hp, Ha, Hf. reflexivity.
Qed.




End Storage.


(** A negative storageGB is no size.  The record of the pricing service
    answers it with the monthly cost 0, where the static table multiplies
    as it does for a size. *)
Example negative_storage_is_outside_the_sizes :
  (0 <=? -1)%float = false
  ∧ ∃ p pr,
      App.get_s3_pricing (H := Reference.builtins) (Some s3_api_client)
        (with_storageGB (JNum (Py.PFloat (-1))) empty_request)
        = Success {| data := [p]; count := 1 |}
      ∧ storageGB p = Some (Py.PFloat (-1))
      ∧ prices p = Some [pr]
      ∧ amount pr = Some (AmountNum 0.023)
      ∧ monthly_cost pr = Some (Py.PInt 0).
Proof.
  split; [reflexivity|].
  do 2 eexists. split; [vm_compute; reflexivity|]. repeat split; reflexivity.
Qed.

Section FlatMonthly.
Import LivePricingScraper Client.
Context `{!Builtins}.

(** C7.  A Route53 request whose quantity is an integer that converts to a
    float is answered, in static-table mode, with one record of unit Month
    whose monthly cost is [unit price * quantity]; no factor 730 is applied.
    The same holds for every price whose unit does not contain Hrs, which is
    how the formatter tells an hourly price from a flat one. *)
Theorem route53_monthly_cost pricing (data : request) (q : Z) (qf : float) :
  py_int (default (JNum (Py.PInt 1)) (req_quantity data)) = Ok q →
  Py.float_of_int q = Ok qf →
  (∃ f p pr,
     route53_monthly_price pricing (default "HostedZone" (req_component data)) = Py.PFloat f
     ∧ App.get_route53_pricing (Some (BulkClient pricing)) data
         = Success {| data := [p]; count := 1 |}
     ∧ quantity p = Some q ∧ prices p = Some [pr]
     ∧ amount pr = Some (AmountStr (Py.Str (Py.PFloat f)))
     ∧ price_unit pr = Some "Month"
     ∧ monthly_cost pr = Some (Py.PFloat (f * qf)))
  ∧ (∀ (a : float) (unit_text : string),
       contains "Hrs" unit_text = false →
       monthly_of a unit_text q = Ok (Py.PFloat (a * qf))).
Proof.
  intros Hq Hqf. split.
  - destruct (get_price_float (Route53 pricing)
      (default "HostedZone" (req_component data)) 0.50) as [f Hf].
    destruct (get_route53_pricing_bulk pricing data q qf f Hq Hqf Hf) as (p & pr & ? & ? & ?).
    exists f, p, pr. split; [exact Hf | tauto].
  - intros a u Hu. unfold monthly_of. rewrite Hu. apply mul_float_int, Hqf.
Qed.

End FlatMonthly.

(** Three hosted zones: 0.50 * 3. *)
Lemma route53_monthly_cost_witness :
  py_int (H := Reference.builtins)
    (default (JNum (Py.PInt 1))
       (req_quantity (with_quantity (JNum (Py.PInt 3)) empty_request))) = Ok 3%Z
  ∧ Py.float_of_int 3 = Ok 3%float
  ∧ ∃ p pr,
      App.get_route53_pricing (H := Reference.builtins) (Some (BulkClient sample_pricing))
        (with_quantity (JNum (Py.PInt 3)) empty_request)
        = Success {| data := [p]; count := 1 |}
      ∧ prices p = Some [pr]
      ∧ amount pr = Some (AmountStr (Py.Str (Py.PFloat 0.50)))
      ∧ monthly_cost pr = Some (Py.PFloat 1.50).
Proof.
  assert (Hq : py_int (H := Reference.builtins)
    (default (JNum (Py.PInt 1))
       (req_quantity (with_quantity (JNum (Py.PInt 3)) empty_request))) = Ok 3%Z)
    by reflexivity.
  assert (Hqf : Py.float_of_int 3 = Ok 3%float) by (vm_compute; reflexivity).
  split; [exact Hq|]. split; [exact Hqf|].
  destruct (route53_monthly_cost (H := Reference.builtins) sample_pricing
              (with_quantity (JNum (Py.PInt 3)) empty_request) 3 3 Hq Hqf)
    as [(f & p & pr & Hf & Hr & _ & Hp & Ha & _ & Hm) _].
  vm_compute in Hf. injection Hf as <-.
  exists p, pr. repeat split; [exact Hr | exact Hp | exact Ha | exact Hm].
Defined.

(** ** The cart *)

Section CartFacts.
Context `{!Builtins}.

(** C10.  Removal keeps exactly the items whose id differs from the given
    one, so every item with that id is deleted, duplicates included; the items
    kept are unchanged and in their original order (they form a sublist of the
    cart); and the cartCount of the response is the length of the cart after
    the removal. *)
Theorem remove_deletes_all_matching_items (item_id : string) (s : session) :
  ∃ kept,
    (Cart.remove_from_cart item_id s).2 = {| cart := Some kept |}
    ∧ (Cart.remove_from_cart item_id s).1 = Success {| cartCount := length kept |}
    ∧ (∀ item, item ∈ kept ↔ item ∈ ensure_cart s ∧ id item ≠ item_id)
    ∧ kept `sublist_of` ensure_cart s
    ∧ (∀ item, item ∈ kept → id item ≠ item_id).
Proof.
  exists (filter (λ item, id item ≠ item_id) (ensure_cart s)).
  split; [reflexivity|]. split; [reflexivity|]. split; [|split].
  - intros item. rewrite list_elem_of_filter. tauto.
  - apply sublist_filter.
  - intros item Hin. apply list_elem_of_filter in Hin. tauto.
Qed.

(** C4.  Removal reports success whether or not an item has the given id, and
    removing the same id a second time reports success again and leaves the
    session as the first removal left it, with the same cartCount. *)
Theorem remove_is_idempotent (item_id : string) (s : session) :
  let first := Cart.remove_from_cart item_id s in
  let second := Cart.remove_from_cart item_id first.2 in
  success first.1 = true
  ∧ success second.1 = true
  ∧ second.2 = first.2
  ∧ second.1 = first.1.
Proof.
  cbv zeta. unfold Cart.remove_from_cart, ensure_cart. simpl.
  assert (Hff : filter (λ item, id item ≠ item_id)
                  (filter (λ item, id item ≠ item_id) (default [] (cart s)))
                = filter (λ item, id item ≠ item_id) (default [] (cart s))).
  { rewrite list_filter_filter. apply list_filter_iff. intros item. tauto. }
  rewrite Hff. repeat split; reflexivity.
Qed.

End CartFacts.

(** ** The sum and the rounding of the total *)

(** What [sum] returns on floats: the running total of the additions from
    the left, corrected by the accumulated rounding error when that one is
    finite and not zero. *)
Lemma neumaier_fold (f c : float) (xs : list float) :
  Reference.neumaier f c xs
    = let t := foldl (λ acc x, acc + x)%float f xs in
      let c' := compensation f c xs in
      if negb (c' =? 0)%float && is_finite c' then (t + c')%float else t.
Proof.
  revert f c. induction xs as [|x xs IH]; intros f c; [reflexivity|].
  simpl. rewrite IH. reflexivity.
Qed.

(** The number of hundredths nearest to [n / d], ties to the even one. *)
Lemma div_half_even_nearest (n d : Z) :
  (0 ≤ n)%Z → (0 < d)%Z →
  let h := Reference.div_half_even n d in
  (0 ≤ h)%Z
  ∧ (2 * Z.abs (n - h * d) ≤ d)%Z
  ∧ ((2 * Z.abs (n - h * d) = d)%Z → Z.even h = true).
Proof.
  intros Hn Hd. cbv zeta. unfold Reference.div_half_even.
  pose proof (Z.div_mod n d ltac:(lia)) as Hdm.
  pose proof (Z.mod_pos_bound n d Hd) as Hr.
  pose proof (Z.div_pos n d Hn Hd) as Hq.
  destruct (Z.compare_spec (2 * (n mod d)) d) as [Heq|Hlt|Hgt].
  - destruct (Z.even (n / d)) eqn:Hev.
    + split; [lia|]. split; [lia|]. intros _. exact Hev.
    + split; [lia|]. split; [lia|]. intros _.
      rewrite Z.even_add, Hev. reflexivity.
  - split; [lia|]. split; [lia|]. intros Htie. lia.
  - split; [lia|]. split; [lia|]. intros Htie. lia.
Qed.

(** [round(f, 2)] on a finite float: the float nearest to [h / 100], where
    [h] is the whole number of hundredths nearest to the value of [f] (the
    even one of two equally near). *)
Lemma round_2dp_nearest_hundredth (f : float) (s : bool) (m : positive) (e : Z) :
  Prim2SF f = S754_finite s m e →
  ∃ h : Z,
    (0 ≤ h)%Z
    ∧ (if (0 <=? e)%Z then h = (Z.pos m * 2 ^ e * 100)%Z
       else (2 * Z.abs (Z.pos m * 100 - h * 2 ^ (- e)) ≤ 2 ^ (- e))%Z
            ∧ ((2 * Z.abs (Z.pos m * 100 - h * 2 ^ (- e)) = 2 ^ (- e))%Z
               → Z.even h = true))
    ∧ Reference.round_2dp f
        = match h with
          | Z.pos p => SF2Prim (Reference.round_ratio s p 100)
          | _ => SF2Prim (S754_zero s)
          end.
Proof.
  intros Hf. unfold Reference.round_2dp. rewrite Hf.
  destruct (0 <=? e)%Z eqn:He.
  - eexists. split; [|split; [reflexivity|reflexivity]].
    apply Z.leb_le in He. apply Z.mul_nonneg_nonneg; [|lia].
    apply Z.mul_nonneg_nonneg; [lia|]. apply Z.pow_nonneg. lia.
  - apply Z.leb_gt in He.
    destruct (div_half_even_nearest (Z.pos m * 100) (2 ^ (- e)))
      as (Hh & Hnear & Htie); [lia | apply Z.pow_pos_nonneg; lia|].
    eexists. split; [exact Hh|]. split; [split; [exact Hnear | exact Htie]|].
    reflexivity.
Qed.

(** C5.  The total is the sum of the monthly costs of the items in the cart,
    rounded to two decimals.  It is the integer 0 for the empty cart, and 0
    again after any sequence of additions followed by a clear.  For a cart
    with items, [sum] starts from the integer 0, so the first cost [x] makes
    the running total the float [0 + x], the other costs are added to it, and
    the result is rounded.  With the sum and the rounding of the interpreter:
    the sum is the running total [t] of the additions from the left, in the
    order of the cart, corrected by the accumulated rounding error [c] of
    these additions when that one is finite and not zero, so that the total
    is [round(t, 2)] when no rounding error has accumulated; and
    [round(f, 2)] is the float of [h / 100] for the whole number [h] of
    hundredths nearest to [f], the even one of two equally near. *)
Theorem total_is_rounded_sum (s : session) (calls : list (string * request)) :
  (∀ H : Builtins,
     Cart.get_cart_total (H := H) s
       = (Success {| total :=
                       match monthlyCost <$> ensure_cart s with
                       | [] => Py.PInt 0
                       | x :: rest =>
                           Py.PFloat (round2 (sum_floats (0 + x)%float rest))
                       end;
                     total_count := length (ensure_cart s) |},
          {| cart := Some (ensure_cart s) |})
     ∧ (ensure_cart s = [] →
        (Cart.get_cart_total (H := H) s).1
          = Success {| total := Py.PInt 0; total_count := 0 |})
     ∧ (Cart.get_cart_total (H := H) (Cart.clear_cart (add_all (H := H) calls s)).2).1
         = Success {| total := Py.PInt 0; total_count := 0 |})
  ∧ (∀ x rest, monthlyCost <$> ensure_cart s = x :: rest →
       let t := foldl (λ acc cost, acc + cost)%float 0%float (x :: rest) in
       let c := compensation (0 + x) 0 rest in
       (Cart.get_cart_total (H := Reference.builtins) s).1
         = Success {| total :=
                        Py.PFloat (Reference.round_2dp
                          (if negb (c =? 0)%float && is_finite c
                           then (t + c)%float else t));
                      total_count := length (ensure_cart s) |})
  ∧ (∀ x rest, monthlyCost <$> ensure_cart s = x :: rest →
       (compensation (0 + x) 0 rest =? 0)%float = true →
       (Cart.get_cart_total (H := Reference.builtins) s).1
         = Success {| total :=
                        Py.PFloat (Reference.round_2dp
                          (foldl (λ acc cost, acc + cost)%float 0%float (x :: rest)));
                      total_count := length (ensure_cart s) |})
  ∧ (∀ f sign m e, Prim2SF f = S754_finite sign m e →
       ∃ h : Z,
         (0 ≤ h)%Z
         ∧ (if (0 <=? e)%Z then h = (Z.pos m * 2 ^ e * 100)%Z
            else (2 * Z.abs (Z.pos m * 100 - h * 2 ^ (- e)) ≤ 2 ^ (- e))%Z
                 ∧ ((2 * Z.abs (Z.pos m * 100 - h * 2 ^ (- e)) = 2 ^ (- e))%Z
                    → Z.even h = true))
         ∧ Reference.round_2dp f
             = match h with
               | Z.pos p => SF2Prim (Reference.round_ratio sign p 100)
               | _ => SF2Prim (S754_zero sign)
               end)
  ∧ (∀ f, match Prim2SF f with S754_finite _ _ _ => False | _ => True end →
       Reference.round_2dp f = f).
Proof.
  assert (Hsum : ∀ x rest, monthlyCost <$> ensure_cart s = x :: rest →
    (Cart.get_cart_total (H := Reference.builtins) s).1
      = Success {| total :=
                     Py.PFloat (Reference.round_2dp
                       (Reference.neumaier (0 + x) 0 rest));
                   total_count := length (ensure_cart s) |}).
  { intros x rest Hcosts. unfold Cart.get_cart_total, cart_sum. rewrite Hcosts.
    reflexivity. }
  split; [|split; [|split; [|split]]].
  - intros H. split; [|split].
    + unfold Cart.get_cart_total, cart_sum.
      destruct (monthlyCost <$> ensure_cart s); reflexivity.
    + intros Hempty. unfold Cart.get_cart_total, cart_sum. rewrite Hempty. reflexivity.
    + reflexivity.
  - intros x rest Hcosts. cbv zeta. rewrite (Hsum x rest Hcosts), neumaier_fold.
    reflexivity.
  - intros x rest Hcosts Hfree. rewrite (Hsum x rest Hcosts), neumaier_fold.
    cbv zeta. rewrite Hfree. reflexivity.
  - intros f sign m e Hf. exact (round_2dp_nearest_hundredth f sign m e Hf).
  - intros f Hf. unfold Reference.round_2dp. destruct (Prim2SF f); tauto.
Qed.

(** The sample cart holds items of 2.3, 8.468 and 1 a month: the total is
    11.77.  A cart with the one item of 8.468 totals 8.47. *)
Lemma total_is_rounded_sum_witness :
  monthlyCost <$> ensure_cart {| cart := Some sample_cart |}
    = [2.3; 8.468; 1]%float
  ∧ (Cart.get_cart_total (H := Reference.builtins) {| cart := Some sample_cart |}).1
      = Success {| total := Py.PFloat 11.77; total_count := 3 |}
  ∧ (compensation (0 + 8.468) 0 [] =? 0)%float = true
  ∧ (Cart.get_cart_total (H := Reference.builtins)
       {| cart := Some [sample_item "b" (Some "EC2") 8.468] |}).1
      = Success {| total := Py.PFloat 8.47; total_count := 1 |}.
Proof.
  split; [reflexivity|].
  destruct (total_is_rounded_sum {| cart := Some sample_cart |} [])
    as (_ & Hsum & _).
  destruct (total_is_rounded_sum
              {| cart := Some [sample_item "b" (Some "EC2") 8.468] |} [])
    as (_ & _ & Hfree & _).
  split; [|split; [reflexivity|]].
  - rewrite (Hsum 2.3%float [8.468; 1]%float eq_refl). vm_compute. reflexivity.
  - rewrite (Hfree 8.468%float [] eq_refl eq_refl). vm_compute. reflexivity.
Defined.

Example total_of_sample_cart :
  (Cart.get_cart_total (H := Reference.builtins) {| cart := Some sample_cart |}).1
    = Success {| total := Py.PFloat 11.77; total_count := 3 |}.
Proof. vm_compute. reflexivity. Qed.

(** ** Missing and malformed numeric fields *)

Section NumericFields.
Import LivePricingScraper Client.
Context `{!Builtins}.

(** What [float(v)] and [int(v)] raise on. *)
Lemma py_float_malformed (v : json) :
  match v with
  | JNull | JArr _ | JObj _ => py_float v = Raise TypeError
  | JStr s => float_of_str s = None → py_float v = Raise ValueError
  | JBool _ | JNum (Py.PFloat _) => is_ok (py_float v) = true
  | JNum (Py.PInt z) => py_float v = Py.float_of_int z
  end.
Proof. destruct v as [| |[]| | |]; simpl; try reflexivity. intros ->. reflexivity. Qed.

Lemma py_int_malformed (v : json) :
  match v with
  | JNull | JArr _ | JObj _ => py_int v = Raise TypeError
  | JStr s => int_of_str s = None → py_int v = Raise ValueError
  | JBool _ | JNum (Py.PInt _) => is_ok (py_int v) = true
  | JNum (Py.PFloat f) => py_int v = Py.int_of_float f
  end.
Proof. destruct v as [| |[]| | |]; simpl; try reflexivity. intros ->. reflexivity. Qed.





End NumericFields.



(** ** The order of texts *)

Lemma ascii_compare_N (a b : ascii) :
  Ascii.compare a b = N.compare (N_of_ascii a) (N_of_ascii b).
Proof. reflexivity. Qed.

Lemma string_compare_not_Gt_trans (a b c : string) :
  String.compare a b ≠ Gt → String.compare b c ≠ Gt → String.compare a c ≠ Gt.
Proof.
  revert b c. induction a as [|x a IH]; intros [|y b] [|z c]; simpl; try congruence.
  rewrite !ascii_compare_N.
  destruct (N.compare_spec (N_of_ascii x) (N_of_ascii y)) as [Hxy|Hxy|Hxy];
    destruct (N.compare_spec (N_of_ascii y) (N_of_ascii z)) as [Hyz|Hyz|Hyz];
    try congruence; intros Hab Hbc.
  - rewrite Hxy, Hyz, N.compare_refl. exact (IH b c Hab Hbc).
  - rewrite Hxy. apply N.compare_lt_iff in Hyz. rewrite Hyz. discriminate.
  - rewrite <- Hyz. apply N.compare_lt_iff in Hxy. rewrite Hxy. discriminate.
  - assert (Hxz : (N_of_ascii x < N_of_ascii z)%N) by lia.
    apply N.compare_lt_iff in Hxz. rewrite Hxz. discriminate.
Qed.

Lemma str_le_compare (a b : string) : str_le a b ↔ String.compare a b ≠ Gt.
Proof.
  unfold str_le, String.leb. destruct (String.compare a b); split; congruence.
Qed.

#[global] Instance str_le_trans : Transitive str_le.
Proof.
  intros a b c. rewrite !str_le_compare. apply string_compare_not_Gt_trans.
Qed.

#[global] Instance str_le_total : Total str_le.
Proof. intros a b. apply String.leb_total. Qed.

#[global] Instance str_le_antisym : AntiSymm eq str_le.
Proof. intros a b. apply String.leb_antisym. Qed.

(** ** The report *)

Lemma mapM_result_ok {A B} (f : A → result B) (l : list A) :
  Forall (λ x, ∃ y, f x = Ok y) l →
  ∃ ys, mapM f l = Ok ys ∧ Forall2 (λ x y, f x = Ok y) l ys.
Proof.
  induction 1 as [|x l [y Hy] _ (ys & Hys & IH)]; simpl.
  - exists []. split; [reflexivity | constructor].
  - exists (y :: ys). rewrite Hy. simpl. rewrite Hys. simpl.
    split; [reflexivity | constructor; assumption].
Qed.

(** Multiplying by the integer 12 never raises. *)
Lemma mul_12_ok (n : Py.num) : ∃ a, Py.mul n (Py.PInt 12) = Ok a.
Proof.
  destruct n as [z|f]; [eexists; reflexivity|].
  exists (Py.PFloat (f * 12)). apply mul_float_int, float_of_int_12.
Qed.

Section ReportFacts.
Import Report.

Lemma item_row_ok (item : cart_item) :
  item_row item
    = Ok [ CValue (item_service item); CValue (resourceType item);
           CValue (specifications item); CValue (region item);
           CJson (item_quantity item); CRate (hourlyCost item);
           CMoney (Py.PFloat (monthlyCost item));
           CMoney (Py.PFloat (monthlyCost item * 12)) ].
Proof.
  unfold item_row. rewrite (mul_float_int _ 12 12 float_of_int_12). reflexivity.
Qed.

Lemma item_rows_ok (cart_items : list cart_item) :
  ∃ rows, mapM item_row cart_items = Ok rows ∧ length rows = length cart_items.
Proof.
  destruct (mapM_result_ok item_row cart_items) as (rows & Hrows & Hall).
  - apply Forall_forall. intros item _. eexists. apply item_row_ok.
  - exists rows. split; [exact Hrows|]. symmetry. exact (Forall2_length _ _ _ Hall).
Qed.

(** The grouping loop never raises: every cost it stores is a float, and its
    keys are the keys of the items. *)
Lemma group_step_ok (key : cart_item → option string) (costs : gmap (option string) Py.num)
    counts (item : cart_item) :
  map_Forall (λ _ c, ∃ f, c = Py.PFloat f) costs →
  ∃ f n, group_step key (Ok (costs, counts)) item
           = Ok (<[key item := Py.PFloat f]> costs, <[key item := n]> counts).
Proof.
  intros Hfloats. unfold group_step. cbv beta iota delta [mbind result_bind].
  destruct (costs !! key item) as [c|] eqn:Hc.
  - destruct (Hfloats _ _ Hc) as [f ->]. simpl. do 2 eexists. reflexivity.
  - simpl default. cbv beta iota delta [Py.add mbind result_bind].
    rewrite float_of_int_0. do 2 eexists. reflexivity.
Qed.

Lemma foldl_group_step_ok (key : cart_item → option string) (cart_items : list cart_item)
    (costs : gmap (option string) Py.num) counts :
  map_Forall (λ _ c, ∃ f, c = Py.PFloat f) costs →
  ∃ g, foldl (group_step key) (Ok (costs, counts)) cart_items = Ok g
       ∧ map_Forall (λ _ c, ∃ f, c = Py.PFloat f) g.1
       ∧ dom g.1 = dom costs ∪ list_to_set (key <$> cart_items).
Proof.
  revert costs counts. induction cart_items as [|item cart_items IH];
    intros costs counts Hfloats.
  - exists (costs, counts). split; [reflexivity|]. split; [exact Hfloats|].
    rewrite fmap_nil, list_to_set_nil. simpl. symmetry. apply (right_id_L ∅ (∪)).
  - destruct (group_step_ok key costs counts item Hfloats) as (f & n & Hstep).
    change (foldl (group_step key) (Ok (costs, counts)) (item :: cart_items))
      with (foldl (group_step key) (group_step key (Ok (costs, counts)) item) cart_items).
    rewrite Hstep.
    destruct (IH (<[key item := Py.PFloat f]> costs) (<[key item := n]> counts))
      as (g & Hg & Hgf & Hdom).
    + apply map_Forall_insert_2; [eauto | exact Hfloats].
    + exists g. split; [exact Hg|]. split; [exact Hgf|].
      rewrite Hdom, dom_insert_L, fmap_cons. simpl. set_solver.
Qed.

Lemma group_by_ok (key : cart_item → option string) (cart_items : list cart_item) :
  ∃ g, group_by key cart_items = Ok g
       ∧ map_Forall (λ _ c, ∃ f, c = Py.PFloat f) g.1
       ∧ dom g.1 = list_to_set (key <$> cart_items).
Proof.
  destruct (foldl_group_step_ok key cart_items ∅ ∅) as (g & Hg & Hgf & Hdom).
  - apply map_Forall_empty.
  - exists g. split; [exact Hg|]. split; [exact Hgf|].
    rewrite Hdom, dom_empty_L. set_solver.
Qed.

(** [sorted] on keys that are all texts. *)
Lemma mapM_texts (texts : list string) :
  mapM (λ k : option string,
          match k with Some s => Ok s | None => Raise TypeError end) (Some <$> texts)
    = Ok texts.
Proof.
  induction texts as [|t texts IH]; [reflexivity|].
  rewrite fmap_cons. simpl. rewrite IH. reflexivity.
Qed.

Lemma py_sorted_texts (texts : list string) :
  ∃ sorted, py_sorted (Some <$> texts) = Ok (Some <$> sorted)
            ∧ sorted ≡ₚ texts ∧ StronglySorted str_le sorted.
Proof.
  destruct texts as [|t1 [|t2 texts]].
  - exists []. repeat split; [reflexivity | constructor].
  - exists [t1]. repeat split; [reflexivity | repeat constructor].
  - exists (merge_sort str_le (t1 :: t2 :: texts)). split; [|split].
    + unfold py_sorted. rewrite !fmap_cons, <- !fmap_cons, mapM_texts. reflexivity.
    + apply merge_sort_Permutation.
    + apply (StronglySorted_merge_sort str_le).
Qed.

Lemma keys_are_texts (keys : list (option string)) :
  Forall is_Some keys → ∃ texts, keys = Some <$> texts.
Proof.
  induction 1 as [|k keys [t ->] _ [texts ->]].
  - exists []. reflexivity.
  - exists (t :: texts). reflexivity.
Qed.

(** The rows of a breakdown when every item has a text under the key. *)
Lemma breakdown_ok (key : cart_item → option string) (cart_items : list cart_item) :
  Forall (λ item, is_Some (key item)) cart_items →
  ∃ keys rows,
    breakdown key cart_items = Ok rows
    ∧ StronglySorted str_le keys
    ∧ NoDup keys
    ∧ (∀ k, k ∈ keys ↔ ∃ item, item ∈ cart_items ∧ key item = Some k)
    ∧ Forall2 (λ k r, ∃ n m a, r = [CValue (Some k); CInt n; CMoney m; CMoney a]) keys rows.
Proof.
  intros Htexts.
  destruct (group_by_ok key cart_items) as (g & Hg & Hfloats & Hdom).
  assert (Hkeys : Forall is_Some (elements (dom g.1))).
  { apply Forall_forall. intros k Hk. apply elem_of_elements in Hk.
    rewrite Hdom in Hk. apply elem_of_list_to_set, list_elem_of_fmap in Hk
      as (item & -> & Hitem).
    exact (proj1 (Forall_forall _ _) Htexts item Hitem). }
  destruct (keys_are_texts _ Hkeys) as [texts Htx].
  destruct (py_sorted_texts texts) as (sorted & Hsorted & Hperm & Hss).
  destruct (mapM_result_ok (breakdown_row g) (Some <$> sorted)) as (rows & Hrows & Hall).
  { apply Forall_forall. intros k _. unfold breakdown_row.
    destruct (mul_12_ok (default (Py.PInt 0) (g.1 !! k))) as [a ->]. eexists. reflexivity. }
  exists sorted, rows. split; [|split; [|split; [|split]]].
  - unfold breakdown. rewrite Hg. cbv beta iota delta [mbind result_bind].
    rewrite Htx, Hsorted. exact Hrows.
  - exact Hss.
  - rewrite Hperm. apply (NoDup_fmap_1 Some). rewrite <- Htx. apply NoDup_elements.
  - intros k. rewrite Hperm.
    transitivity (Some k ∈ elements (dom g.1)).
    + rewrite Htx. rewrite list_elem_of_fmap. split.
      * intros Hk. exists k. split; [reflexivity | exact Hk].
      * intros (k' & [= <-] & Hk'). exact Hk'.
    + rewrite elem_of_elements, Hdom, elem_of_list_to_set, list_elem_of_fmap.
      split; intros (item & H1 & H2); exists item; split; auto.
  - apply Forall2_fmap_l in Hall.
    eapply Forall2_impl; [exact Hall|]. intros k r Hr.
    unfold compose, breakdown_row in Hr.
    destruct (mul_12_ok (default (Py.PInt 0) (g.1 !! Some k))) as [a Ha].
    rewrite Ha in Hr. injection Hr as <-. do 3 eexists. reflexivity.
Qed.

End ReportFacts.

Section ReportTheorems.
Import Report.

(** The report of a cart whose items all carry a service and a region text:
    the itemized section has one row per item; each breakdown has one row per
    distinct key, and its keys are in lexicographic order. *)
Theorem report_of_text_cart (now : string) (cart_items : list cart_item)
    (total_cost : Py.num) :
  Forall (λ item, is_Some (item_service item)) cart_items →
  Forall (λ item, is_Some (region item)) cart_items →
  ∃ s annual services regions,
    generate_csv_report now cart_items total_cost
      = Ok (render now (length cart_items) total_cost annual s)
    ∧ length (itemized s) = length cart_items
    ∧ (StronglySorted str_le services ∧ NoDup services
       ∧ (∀ k, k ∈ services ↔ ∃ item, item ∈ cart_items ∧ item_service item = Some k)
       ∧ Forall2 (λ k r, ∃ n m a, r = [CValue (Some k); CInt n; CMoney m; CMoney a])
           services (by_service s)
       ∧ length (by_service s) = length (remove_dups (item_service <$> cart_items)))
    ∧ (StronglySorted str_le regions ∧ NoDup regions
       ∧ (∀ k, k ∈ regions ↔ ∃ item, item ∈ cart_items ∧ region item = Some k)
       ∧ Forall2 (λ k r, ∃ n m a, r = [CValue (Some k); CInt n; CMoney m; CMoney a])
           regions (by_region s)
       ∧ length (by_region s) = length (remove_dups (region <$> cart_items))).
Proof.
  intros Hservices Hregions.
  destruct (item_rows_ok cart_items) as (item_rows & Hitems & Hlen).
  destruct (breakdown_ok item_service cart_items Hservices)
    as (services & srows & Hs & Hs1 & Hs2 & Hs3 & Hs4).
  destruct (breakdown_ok region cart_items Hregions)
    as (regions & rrows & Hr & Hr1 & Hr2 & Hr3 & Hr4).
  destruct (mul_12_ok total_cost) as [annual Hannual].
  assert (Hcount : ∀ (key : cart_item → option string) keys (rows : list row),
    NoDup keys →
    (∀ k, k ∈ keys ↔ ∃ item, item ∈ cart_items ∧ key item = Some k) →
    Forall (λ item, is_Some (key item)) cart_items →
    length rows = length keys →
    length rows = length (remove_dups (key <$> cart_items))).
  { intros key keys rows Hnd Hmem Htexts ->.
    rewrite <- (length_fmap Some keys). apply Permutation_length, NoDup_Permutation.
    - apply (NoDup_fmap_2 Some), Hnd.
    - apply NoDup_remove_dups.
    - intros k. rewrite elem_of_remove_dups, !list_elem_of_fmap. split.
      + intros (t & -> & Ht). apply Hmem in Ht as (item & Hitem & Hk).
        exists item. split; [symmetry; exact Hk | exact Hitem].
      + intros (item & -> & Hitem).
        destruct (proj1 (Forall_forall _ _) Htexts item Hitem) as [t Ht].
        exists t. split; [exact Ht|]. apply Hmem. exists item. split; assumption. }
  exists {| itemized := item_rows; by_service := srows; by_region := rrows |},
    annual, services, regions.
  split; [|split; [exact Hlen|split]].
  - unfold generate_csv_report, report_sections.
    rewrite Hitems, Hs, Hr. cbv beta iota delta [mbind result_bind].
    rewrite Hannual. reflexivity.
  - repeat split; try assumption. apply Hs3. apply Hs3.
    apply (Hcount item_service services); try assumption.
    symmetry. exact (Forall2_length _ _ _ Hs4).
  - repeat split; try assumption. apply Hr3. apply Hr3.
    apply (Hcount region regions); try assumption.
    symmetry. exact (Forall2_length _ _ _ Hr4).
Qed.

End ReportTheorems.

(** The sample cart holds three items of two services in one region. *)
Lemma report_of_text_cart_witness :
  Forall (λ item, is_Some (item_service item)) sample_cart
  ∧ Forall (λ item, is_Some (region item)) sample_cart
  ∧ ∃ s annual,
      Report.generate_csv_report "2026-01-01 00:00:00" sample_cart (Py.PFloat 11.768)
        = Ok (Report.render "2026-01-01 00:00:00" 3 (Py.PFloat 11.768) annual s)
      ∧ length (Report.itemized s) = 3
      ∧ length (Report.by_service s) = 2
      ∧ length (Report.by_region s) = 1.
Proof.
  assert (Hs : Forall (λ item, is_Some (item_service item)) sample_cart)
    by (repeat constructor; eexists; reflexivity).
  assert (Hr : Forall (λ item, is_Some (region item)) sample_cart)
    by (repeat constructor; eexists; reflexivity).
  split; [exact Hs|]. split; [exact Hr|].
  destruct (report_of_text_cart "2026-01-01 00:00:00" sample_cart (Py.PFloat 11.768) Hs Hr)
    as (s & annual & services & regions & Hgen & Hlen
        & (_ & _ & _ & _ & Hslen) & (_ & _ & _ & _ & Hrlen)).
  exists s, annual. split; [exact Hgen|]. split; [exact Hlen|].
  split; [exact Hslen | exact Hrlen].
Defined.

Example report_of_sample_cart :
  Report.by_service <$> Report.report_sections sample_cart
    = Ok [ [CValue (Some "EC2"); CInt 1; CMoney (Py.PFloat 8.468);
            CMoney (Py.PFloat 101.616)];
           [CValue (Some "S3"); CInt 2; CMoney (Py.PFloat 3.3);
            CMoney (Py.PFloat 39.599999999999994)] ].
Proof. vm_compute. reflexivity. Qed.

(** C8, on a cart the backend builds itself.  An item added without a
    service is stored with the service [None]; once the cart also holds an item
    with a service text, sorting the keys of the service breakdown raises
    [TypeError], and the export answers with the error envelope instead of a
    CSV document. *)
Theorem export_fails_for_item_without_service :
  (∃ a b,
     cart (add_all (H := Reference.builtins)
             [("id-1", cart_request None 2.3); ("id-2", cart_request (Some "EC2") 8.468)]
             {| cart := None |}) = Some [a; b]
     ∧ item_service a = None ∧ item_service b = Some "EC2")
  ∧ Report.generate_csv_report "2026-01-01 00:00:00"
      (ensure_cart (add_all (H := Reference.builtins)
         [("id-1", cart_request None 2.3); ("id-2", cart_request (Some "EC2") 8.468)]
         {| cart := None |})) (Py.PFloat 10.768000000000001)
      = Raise TypeError
  ∧ (Report.export_csv (H := Reference.builtins) "2026-01-01 00:00:00"
       (add_all (H := Reference.builtins)
          [("id-1", cart_request None 2.3); ("id-2", cart_request (Some "EC2") 8.468)]
          {| cart := None |})).1
      = Failure (ExceptionText TypeError) 500.
Proof.
  split; [do 2 eexists; split; [vm_compute; reflexivity | split; reflexivity]|].
  split; vm_compute; reflexivity.
Qed.

(** ** The cart as a sequence of requests *)

Section CartSequences.
Context `{!Builtins}.

(** What one call of [add_to_cart] does, by the outcome of the two
    conversions. *)
Lemma add_to_cart_cases (uuid : string) (data : request) (s : session) :
  match py_float (default (JNum (Py.PInt 0)) (req_hourlyCost data)),
        py_float (default (JNum (Py.PInt 0)) (req_monthlyCost data)) with
  | Ok hourly, Ok monthly =>
      Cart.add_to_cart uuid data s
        = (Success {| cartCount := S (length (ensure_cart s)) |},
           {| cart := Some (ensure_cart s ++
                 [ {| id := uuid;
                      item_service := req_service data;
                      resourceType := req_resourceType data;
                      specifications := req_specifications data;
                      region := req_region data;
                      item_quantity := default (JNum (Py.PInt 1)) (req_quantity data);
                      hourlyCost := hourly;
                      monthlyCost := monthly |} ])%list |})
  | Raise e, _ | Ok _, Raise e =>
      Cart.add_to_cart uuid data s
        = (Failure (ExceptionText e) 500, {| cart := Some (ensure_cart s) |})
  end.
Proof.
  unfold Cart.add_to_cart.
  destruct (py_float (default (JNum (Py.PInt 0)) (req_hourlyCost data))) as [h|e];
    [|reflexivity].
  destruct (py_float (default (JNum (Py.PInt 0)) (req_monthlyCost data))) as [m|e];
    [|reflexivity].
  cbv beta iota delta [mbind result_bind].
  rewrite length_app, Nat.add_comm. reflexivity.
Qed.

(** An id that no item has: the filter of [remove_from_cart] keeps all. *)
Lemma filter_absent_id (item_id : string) (l : list cart_item) :
  item_id ∉ id <$> l → filter (λ item, id item ≠ item_id) l = l.
Proof.
  induction l as [|x l IH]; [reflexivity|].
  rewrite fmap_cons, not_elem_of_cons. intros [Hx Hl].
  rewrite filter_cons_True by congruence. f_equal. apply IH, Hl.
Qed.

(** With unique ids, the filter drops exactly one item. *)
Lemma filter_present_id (item_id : string) (l : list cart_item) :
  NoDup (id <$> l) → item_id ∈ id <$> l →
  S (length (filter (λ item, id item ≠ item_id) l)) = length l.
Proof.
  induction l as [|x l IH]; [intros _ Hin; inversion Hin|].
  rewrite fmap_cons, NoDup_cons. intros [Hx Hnd] Hin.
  destruct (decide (id x = item_id)) as [Heq|Hne].
  - rewrite filter_cons_False by (intros Hc; exact (Hc Heq)).
    rewrite filter_absent_id by (rewrite <- Heq; exact Hx). reflexivity.
  - rewrite filter_cons_True by exact Hne. simpl. f_equal. apply IH; [exact Hnd|].
    apply elem_of_cons in Hin as [Hin|Hin]; [congruence | exact Hin].
Qed.

Lemma add_all_cons (call : string * request) (calls : list (string * request)) (s : session) :
  add_all (call :: calls) s = add_all calls (Cart.add_to_cart call.1 call.2 s).2.
Proof. reflexivity. Qed.

(** The cart after a sequence of add requests. *)
Lemma add_all_cart (calls : list (string * request)) (s : session) :
  ∃ added,
    ensure_cart (add_all calls s) = (ensure_cart s ++ added)%list
    ∧ Forall2 (λ (call : string * request) item,
         id item = call.1
         ∧ item_service item = req_service call.2
         ∧ resourceType item = req_resourceType call.2
         ∧ specifications item = req_specifications call.2
         ∧ region item = req_region call.2
         ∧ item_quantity item = default (JNum (Py.PInt 1)) (req_quantity call.2)
         ∧ py_float (default (JNum (Py.PInt 0)) (req_hourlyCost call.2))
             = Ok (hourlyCost item)
         ∧ py_float (default (JNum (Py.PInt 0)) (req_monthlyCost call.2))
             = Ok (monthlyCost item))
        (filter (λ call : string * request,
           is_ok (py_float (default (JNum (Py.PInt 0)) (req_hourlyCost call.2))) = true
           ∧ is_ok (py_float (default (JNum (Py.PInt 0)) (req_monthlyCost call.2))) = true)
           calls)
        added.
Proof.
  revert s. induction calls as [|[uuid data] calls IH]; intros s.
  - exists []. split; [symmetry; apply app_nil_r | constructor].
  - rewrite add_all_cons. simpl fst; simpl snd.
    pose proof (add_to_cart_cases uuid data s) as Hadd.
    destruct (py_float (default (JNum (Py.PInt 0)) (req_hourlyCost data))) as [h|e] eqn:Hh;
      [destruct (py_float (default (JNum (Py.PInt 0)) (req_monthlyCost data)))
         as [m|e] eqn:Hm|];
      rewrite Hadd; simpl snd;
      match goal with |- context [add_all calls ?s'] =>
        destruct (IH s') as (added & Hcart & Hall) end;
      change (ensure_cart {| cart := Some ?l |}) with l in Hcart.
    + rewrite filter_cons_True by (simpl; rewrite Hh, Hm; split; reflexivity).
      eexists (_ :: added). split.
      * rewrite Hcart, <- app_assoc. reflexivity.
      * constructor; [|exact Hall]. simpl. rewrite Hh, Hm. repeat split; reflexivity.
    + rewrite filter_cons_False by (simpl; rewrite Hh, Hm; simpl; intros [_ ?]; discriminate).
      exists added. split; [exact Hcart | exact Hall].
    + rewrite filter_cons_False by (simpl; rewrite Hh; simpl; intros [? _]; discriminate).
      exists added. split; [exact Hcart | exact Hall].
Qed.

(** The ids of the items added by a sequence of requests are ids of the
    requests, in their order. *)
Lemma added_ids (calls : list (string * request)) (added : list cart_item)
    (P : string * request → cart_item → Prop) :
  Forall2 (λ call item, id item = call.1 ∧ P call item) calls added →
  id <$> added = calls.*1.
Proof.
  induction 1 as [|call item calls added [Hid _] _ IH]; [reflexivity|].
  rewrite !fmap_cons, Hid, IH. reflexivity.
Qed.

(** The session cart lists, after the items it held, one item for every add
    request whose cost fields convert, in the order of the requests and with
    the fields of the request; a request whose cost fields do not convert
    leaves no trace. *)
Theorem cart_holds_accepted_requests_in_order
    (calls : list (string * request)) (s : session) :
  ∃ added,
    (Cart.get_cart_items (add_all calls s)).1
      = Success {| items := (ensure_cart s ++ added)%list;
                   items_count := length (ensure_cart s) + length added |}
    ∧ Forall2 (λ (call : string * request) item,
         id item = call.1
         ∧ item_service item = req_service call.2
         ∧ resourceType item = req_resourceType call.2
         ∧ specifications item = req_specifications call.2
         ∧ region item = req_region call.2
         ∧ item_quantity item = default (JNum (Py.PInt 1)) (req_quantity call.2)
         ∧ py_float (default (JNum (Py.PInt 0)) (req_hourlyCost call.2))
             = Ok (hourlyCost item)
         ∧ py_float (default (JNum (Py.PInt 0)) (req_monthlyCost call.2))
             = Ok (monthlyCost item))
        (filter (λ call : string * request,
           is_ok (py_float (default (JNum (Py.PInt 0)) (req_hourlyCost call.2))) = true
           ∧ is_ok (py_float (default (JNum (Py.PInt 0)) (req_monthlyCost call.2))) = true)
           calls)
        added.
Proof.
  destruct (add_all_cart calls s) as (added & Hcart & Hall).
  exists added. split; [|exact Hall].
  unfold Cart.get_cart_items. simpl fst. rewrite Hcart, length_app. reflexivity.
Qed.

(** No two items of the cart share an id, as long as the ids handed to
    [add_to_cart] are fresh: the property is kept by every sequence of add
    requests with distinct ids not in the cart, by a removal and by a clear. *)
Theorem cart_ids_stay_unique
    (s : session) (calls : list (string * request)) (item_id : string) :
  NoDup (id <$> ensure_cart s) →
  NoDup calls.*1 →
  (∀ uuid, uuid ∈ calls.*1 → uuid ∉ id <$> ensure_cart s) →
  NoDup (id <$> ensure_cart (add_all calls s))
  ∧ NoDup (id <$> ensure_cart (Cart.remove_from_cart item_id s).2)
  ∧ NoDup (id <$> ensure_cart (Cart.remove_from_cart item_id (add_all calls s)).2)
  ∧ NoDup (id <$> ensure_cart (Cart.clear_cart s).2).
Proof.
  intros Hs Hcalls Hfresh.
  assert (Hremove : ∀ l, NoDup (id <$> l) →
            NoDup (id <$> filter (λ item, id item ≠ item_id) l)).
  { intros l Hl. apply (sublist_NoDup _ (id <$> l)); [exact Hl | apply (fmap_sublist id), sublist_filter]. }
  assert (Hadd : NoDup (id <$> ensure_cart (add_all calls s))).
  { destruct (add_all_cart calls s) as (added & Hcart & Hall).
    rewrite Hcart, fmap_app. apply added_ids in Hall.
    assert (Hsub : id <$> added ⊆ calls.*1).
    { rewrite Hall. intros u Hu. apply list_elem_of_fmap in Hu as (call & -> & Hc).
      apply list_elem_of_filter in Hc as [_ Hc]. apply list_elem_of_fmap. eauto. }
    apply NoDup_app. split; [exact Hs|]. split.
    - intros u Hu Hu'. exact (Hfresh u (Hsub u Hu') Hu).
    - rewrite Hall. apply (sublist_NoDup _ calls.*1); [exact Hcalls | apply (fmap_sublist fst), sublist_filter]. }
  split; [exact Hadd|]. split; [apply Hremove, Hs|].
  split; [apply Hremove, Hadd | constructor].
Qed.

(** Adding an item under a fresh id and removing that id again leaves the
    cart as it was, whether the add request was accepted or not; the
    removal reports the length of the original cart. *)
Theorem add_then_remove_restores_cart (uuid : string) (data : request) (s : session) :
  uuid ∉ id <$> ensure_cart s →
  Cart.remove_from_cart uuid (Cart.add_to_cart uuid data s).2
    = (Success {| cartCount := length (ensure_cart s) |},
       {| cart := Some (ensure_cart s) |}).
Proof.
  intros Hfresh. pose proof (add_to_cart_cases uuid data s) as Hadd.
  unfold Cart.remove_from_cart.
  destruct (py_float (default (JNum (Py.PInt 0)) (req_hourlyCost data))) as [h|e];
    [destruct (py_float (default (JNum (Py.PInt 0)) (req_monthlyCost data))) as [m|e]|];
    rewrite Hadd; simpl snd;
    change (ensure_cart {| cart := Some ?l |}) with l.
  - rewrite filter_app, (filter_absent_id uuid _ Hfresh).
    rewrite filter_cons_False by (simpl; intros Hc; exact (Hc eq_refl)).
    rewrite filter_nil, app_nil_r. reflexivity.
  - rewrite (filter_absent_id uuid _ Hfresh). reflexivity.
  - rewrite (filter_absent_id uuid _ Hfresh). reflexivity.
Qed.

(** What a removal does to the count: an id that no item has leaves the
    cart and its count unchanged; with unique ids, an id that an item has
    lowers the count by exactly one, and the id is gone from the cart. *)
Theorem remove_changes_count_by_at_most_one (item_id : string) (s : session) :
  (item_id ∉ id <$> ensure_cart s →
   Cart.remove_from_cart item_id s
     = (Success {| cartCount := length (ensure_cart s) |},
        {| cart := Some (ensure_cart s) |}))
  ∧ (NoDup (id <$> ensure_cart s) → item_id ∈ id <$> ensure_cart s →
     ∃ kept,
       Cart.remove_from_cart item_id s
         = (Success {| cartCount := length kept |}, {| cart := Some kept |})
       ∧ S (length kept) = length (ensure_cart s)
       ∧ item_id ∉ id <$> kept).
Proof.
  split.
  - intros Habsent. unfold Cart.remove_from_cart.
    rewrite (filter_absent_id item_id _ Habsent). reflexivity.
  - intros Hnd Hin. exists (filter (λ item, id item ≠ item_id) (ensure_cart s)).
    split; [reflexivity|]. split; [apply filter_present_id; assumption|].
    intros Hc. apply list_elem_of_fmap in Hc as (item & -> & Hitem).
    apply list_elem_of_filter in Hitem as [Hne _]. exact (Hne eq_refl).
Qed.

End CartSequences.

(** The sample cart holds the ids a, b and c; two more requests arrive under
    the ids d and e. *)
Lemma cart_ids_stay_unique_witness :
  NoDup (id <$> ensure_cart {| cart := Some sample_cart |})
  ∧ NoDup [("d", cart_request (Some "VPC") 32.85); ("e", cart_request None 1)].*1
  ∧ NoDup (id <$> ensure_cart
             (add_all (H := Reference.builtins)
                [("d", cart_request (Some "VPC") 32.85); ("e", cart_request None 1)]
                {| cart := Some sample_cart |})).
Proof.
  assert (Hs : NoDup (id <$> ensure_cart {| cart := Some sample_cart |}))
    by (refine (bool_decide_unpack _ _); vm_compute; exact I).
  assert (Hc : NoDup [("d", cart_request (Some "VPC") 32.85);
                      ("e", cart_request None 1)].*1)
    by (refine (bool_decide_unpack _ _); vm_compute; exact I).
  split; [exact Hs|]. split; [exact Hc|].
  refine (proj1 (cart_ids_stay_unique (H := Reference.builtins)
                   {| cart := Some sample_cart |} _ "b" Hs Hc _)).
  intros uuid Hu.
  apply elem_of_cons in Hu as [->|Hu]; [refine (bool_decide_unpack _ _); vm_compute; exact I|].
  apply list_elem_of_singleton in Hu as ->. refine (bool_decide_unpack _ _); vm_compute; exact I.
Defined.

(** The id d is not in the sample cart. *)
Lemma add_then_remove_restores_cart_witness :
  ("d" ∉ id <$> ensure_cart {| cart := Some sample_cart |})
  ∧ Cart.remove_from_cart "d"
      (Cart.add_to_cart (H := Reference.builtins) "d" (cart_request (Some "VPC") 32.85)
         {| cart := Some sample_cart |}).2
    = (Success {| cartCount := 3 |}, {| cart := Some sample_cart |}).
Proof.
  assert (Hd : "d" ∉ id <$> ensure_cart {| cart := Some sample_cart |})
    by (refine (bool_decide_unpack _ _); vm_compute; exact I).
  split; [exact Hd|].
  exact (add_then_remove_restores_cart (H := Reference.builtins) "d"
           (cart_request (Some "VPC") 32.85) {| cart := Some sample_cart |} Hd).
Defined.

(** ** The endpoints on the external pricing service *)

Section LiveMode.
Import LivePricingScraper Client.
Context `{!Builtins}.

Lemma skip_failures_nil {A B} (body : A → result B) : skip_failures body [] = [].
Proof. reflexivity. Qed.

Lemma skip_failures_app {A B} (body : A → result B) (xs ys : list A) :
  skip_failures body (xs ++ ys) = (skip_failures body xs ++ skip_failures body ys)%list.
Proof. unfold skip_failures. apply bind_app. Qed.

Lemma skip_failures_cons_ok {A B} (body : A → result B) (x : A) (y : B) (xs : list A) :
  body x = Ok y → skip_failures body (x :: xs) = y :: skip_failures body xs.
Proof. intros Hx. unfold skip_failures. rewrite bind_cons, Hx. reflexivity. Qed.

Lemma skip_failures_cons_raise {A B} (body : A → result B) (x : A) (e : exn) (xs : list A) :
  body x = Raise e → skip_failures body (x :: xs) = skip_failures body xs.
Proof. intros Hx. unfold skip_failures. rewrite bind_cons, Hx. reflexivity. Qed.

(** In live mode an empty answer of the pricing service is a success with no
    record, and a failure of the service is the error envelope with its
    message; the two are told apart by every pricing endpoint. *)
Theorem empty_answer_is_not_a_failure
    (get_products : string → list term_match → Z → result (list product))
    (data : request) (g : float) (q : Z) :
  py_float (default (JNum (Py.PInt 0)) (req_storageGB data)) = Ok g →
  py_int (default (JNum (Py.PInt 1)) (req_quantity data)) = Ok q →
  ((∀ service_code filters max_results,
      get_products service_code filters max_results = Ok []) →
   App.get_ec2_pricing (Some (ApiClient get_products)) data
     = Success {| data := []; count := 0 |}
   ∧ App.get_rds_pricing (Some (ApiClient get_products)) data
     = Success {| data := []; count := 0 |}
   ∧ App.get_s3_pricing (Some (ApiClient get_products)) data
     = Success {| data := []; count := 0 |}
   ∧ App.get_vpc_pricing (Some (ApiClient get_products)) data
     = Success {| data := []; count := 0 |}
   ∧ App.get_alb_pricing (Some (ApiClient get_products)) data
     = Success {| data := []; count := 0 |}
   ∧ App.get_route53_pricing (Some (ApiClient get_products)) data
     = Success {| data := []; count := 0 |})
  ∧ (∀ e,
      (∀ service_code filters max_results,
         get_products service_code filters max_results = Raise e) →
      App.get_ec2_pricing (Some (ApiClient get_products)) data
        = Failure (ExceptionText e) 500
      ∧ App.get_rds_pricing (Some (ApiClient get_products)) data
        = Failure (ExceptionText e) 500
      ∧ App.get_s3_pricing (Some (ApiClient get_products)) data
        = Failure (ExceptionText e) 500
      ∧ App.get_vpc_pricing (Some (ApiClient get_products)) data
        = Failure (ExceptionText e) 500
      ∧ App.get_alb_pricing (Some (ApiClient get_products)) data
        = Failure (ExceptionText e) 500
      ∧ App.get_route53_pricing (Some (ApiClient get_products)) data
        = Failure (ExceptionText e) 500).
Proof.
  intros Hg Hq. split.
  - intros Hempty.
    unfold App.get_ec2_pricing, App.get_rds_pricing, App.get_s3_pricing,
      App.get_vpc_pricing, App.get_alb_pricing, App.get_route53_pricing,
      Client.get_ec2_pricing, Client.get_rds_pricing, Client.get_s3_pricing,
      Client.get_vpc_pricing, Client.get_alb_pricing, Client.get_route53_pricing.
    rewrite Hg, Hq, !Hempty. repeat split; reflexivity.
  - intros e Hfail.
    unfold App.get_ec2_pricing, App.get_rds_pricing, App.get_s3_pricing,
      App.get_vpc_pricing, App.get_alb_pricing, App.get_route53_pricing,
      Client.get_ec2_pricing, Client.get_rds_pricing, Client.get_s3_pricing,
      Client.get_vpc_pricing, Client.get_alb_pricing, Client.get_route53_pricing.
    rewrite Hg, Hq, !Hfail. repeat split; reflexivity.
Qed.

(** EC2 and RDS in live mode: the answer holds one record for every product
    of the pricing service, in the same order; the record shows the
    attributes of the product, ['N/A'] for a missing one, and one price for
    every price dimension of the product, none with a monthly cost. *)
Theorem format_pricing_data_keeps_every_product (products : list product) :
  length (format_pricing_data products) = length products
  ∧ Forall2 (λ p p',
       description p' = Some (or_na (attributes p !! "instanceType"))
       ∧ instanceType p' = Some (or_na (attributes p !! "instanceType"))
       ∧ location p' = Some (or_na (attributes p !! "location"))
       ∧ vcpu p' = Some (or_na (attributes p !! "vcpu"))
       ∧ memory p' = Some (or_na (attributes p !! "memory"))
       ∧ storage p' = Some (or_na (attributes p !! "storage"))
       ∧ networkPerformance p' = Some (or_na (attributes p !! "networkPerformance"))
       ∧ quantity p' = None
       ∧ ∃ prs, prices p' = Some prs
           ∧ Forall2 (λ d pr,
                amount pr = Some (AmountText (or_na (pricePerUnit_USD d)))
                ∧ price_unit pr = Some (or_na (pd_unit d))
                ∧ price_description pr = Some (or_na (pd_description d))
                ∧ monthly_cost pr = None)
               (concat (on_demand p)) prs)
      products (format_pricing_data products)
  ∧ (∀ get_products data,
       get_products "AmazonEC2"
         [("instanceType", default "t2.micro" (req_instanceType data));
          ("location", default default_region (req_region data));
          ("operatingSystem", default "Linux" (req_operatingSystem data));
          ("tenancy", default "Shared" (req_tenancy data));
          ("preInstalledSw", "NA"); ("capacitystatus", "Used")] 10%Z = Ok products →
       App.get_ec2_pricing (Some (ApiClient get_products)) data
         = Success {| data := format_pricing_data products; count := length products |})
  ∧ (∀ get_products data,
       get_products "AmazonRDS"
         [("instanceType", default "db.t3.micro" (req_instanceType data));
          ("location", default default_region (req_region data));
          ("databaseEngine", default "MySQL" (req_databaseEngine data));
          ("deploymentOption", default "Single-AZ" (req_deploymentOption data))] 10%Z
         = Ok products →
       App.get_rds_pricing (Some (ApiClient get_products)) data
         = Success {| data := format_pricing_data products; count := length products |}).
Proof.
  assert (Hall : Forall2 (λ p p',
       description p' = Some (or_na (attributes p !! "instanceType"))
       ∧ instanceType p' = Some (or_na (attributes p !! "instanceType"))
       ∧ location p' = Some (or_na (attributes p !! "location"))
       ∧ vcpu p' = Some (or_na (attributes p !! "vcpu"))
       ∧ memory p' = Some (or_na (attributes p !! "memory"))
       ∧ storage p' = Some (or_na (attributes p !! "storage"))
       ∧ networkPerformance p' = Some (or_na (attributes p !! "networkPerformance"))
       ∧ quantity p' = None
       ∧ ∃ prs, prices p' = Some prs
           ∧ Forall2 (λ d pr,
                amount pr = Some (AmountText (or_na (pricePerUnit_USD d)))
                ∧ price_unit pr = Some (or_na (pd_unit d))
                ∧ price_description pr = Some (or_na (pd_description d))
                ∧ monthly_cost pr = None)
               (concat (on_demand p)) prs)
      products (format_pricing_data products)).
  { induction products as [|p products IH]; [constructor|].
    change (format_pricing_data (p :: products))
      with (hd p (format_pricing_data [p]) :: format_pricing_data products).
    constructor; [|exact IH]. simpl. repeat split; try reflexivity.
    eexists. split; [reflexivity|].
    induction (concat (on_demand p)) as [|d ds IHd]; [constructor|].
    constructor; [repeat split; reflexivity | exact IHd]. }
  assert (Hlen : length (format_pricing_data products) = length products)
    by (symmetry; exact (Forall2_length _ _ _ Hall)).
  split; [exact Hlen|]. split; [exact Hall|]. split.
  - intros get_products data Hapi.
    unfold App.get_ec2_pricing, Client.get_ec2_pricing. rewrite Hapi.
    cbv beta iota delta [mbind result_bind pricing_response respond use_bulk_pricing].
    rewrite Hlen. reflexivity.
  - intros get_products data Hapi.
    unfold App.get_rds_pricing, Client.get_rds_pricing. rewrite Hapi.
    cbv beta iota delta [mbind result_bind pricing_response respond use_bulk_pricing].
    rewrite Hlen. reflexivity.
Qed.

(** [mapM] raises as soon as the body raises on one element. *)
Lemma mapM_result_raise {A B} (f : A → result B) (l : list A) (x : A) (e : exn) :
  x ∈ l → f x = Raise e → ∃ e', mapM f l = Raise e'.
Proof.
  intros Hx Hf. induction l as [|y l IH]; [inversion Hx|].
  simpl. destruct (f y) as [y'|e'] eqn:Hy; [|eexists; reflexivity].
  apply elem_of_cons in Hx as [<-|Hx]; [congruence|].
  destruct (IH Hx) as [e' ->]. eexists. reflexivity.
Qed.

(** A product of the pricing service with a price that does not read as a
    number makes the body of either formatter raise. *)
Lemma unreadable_price_raises (service_name : string) (q : Z) (g : float)
    (p : product) (d : price_dimension) (t : string) :
  service p = None →
  d ∈ concat (on_demand p) →
  pricePerUnit_USD d = Some t →
  float_of_str t = None →
  (∃ e, format_single_product service_name q p = Raise e)
  ∧ (∃ e, format_s3_product g p = Raise e).
Proof.
  intros Hs Hd Ht Hbad.
  assert (Hppu : price_per_unit d = Raise ValueError).
  { unfold price_per_unit. rewrite Ht. simpl. rewrite Hbad. reflexivity. }
  split.
  - unfold format_single_product.
    rewrite bool_decide_eq_false_2 by (rewrite Hs; set_solver).
    cbv zeta.
    destruct (mapM_result_raise
      (λ d, ppu ← price_per_unit d;
            m ← monthly_of ppu (or_na (pd_unit d)) q;
            Ok {| amount := Some (AmountNum ppu); monthly_cost := Some m;
                  price_unit := Some (or_na (pd_unit d));
                  price_description := Some (or_na (pd_description d)) |})
      _ d ValueError Hd) as [e He].
    { rewrite Hppu. reflexivity. }
    rewrite He. eexists. reflexivity.
  - unfold format_s3_product.
    rewrite bool_decide_eq_false_2 by (rewrite Hs; discriminate).
    cbv zeta.
    destruct (mapM_result_raise
      (λ d, ppu ← price_per_unit d;
            Ok {| amount := Some (AmountNum ppu);
                  monthly_cost :=
                    Some (if (0 <? g)%float then Py.PFloat (ppu * g) else Py.PInt 0);
                  price_unit := Some (or_na (pd_unit d));
                  price_description := None |})
      _ d ValueError Hd) as [e He].
    { rewrite Hppu. reflexivity. }
    rewrite He. eexists. reflexivity.
Qed.

(** Skip and continue.  Both formatters handle every product on its own and
    keep the order of the products; a product of the pricing service one of
    whose prices does not read as a number is left out of the answer, and the
    products before and after it are formatted as if it were not there. *)
Theorem formatters_skip_unreadable_products (service_name : string) (q : Z) (g : float)
    (before after : list product) (p : product) (d : price_dimension) (t : string) :
  service p = None →
  d ∈ concat (on_demand p) →
  pricePerUnit_USD d = Some t →
  float_of_str t = None →
  format_single_price (before ++ p :: after) service_name q
    = (format_single_price before service_name q
       ++ format_single_price after service_name q)%list
  ∧ format_s3_pricing_data (before ++ p :: after) g
    = (format_s3_pricing_data before g ++ format_s3_pricing_data after g)%list
  ∧ (∀ xs ys,
       format_single_price (xs ++ ys) service_name q
         = (format_single_price xs service_name q
            ++ format_single_price ys service_name q)%list
       ∧ format_s3_pricing_data (xs ++ ys) g
         = (format_s3_pricing_data xs g ++ format_s3_pricing_data ys g)%list).
Proof.
  intros Hs Hd Ht Hbad.
  destruct (unreadable_price_raises service_name q g p d t Hs Hd Ht Hbad)
    as [[e1 He1] [e2 He2]].
  unfold format_single_price, format_s3_pricing_data.
  split; [|split; [|intros xs ys; split; apply skip_failures_app]].
  - rewrite skip_failures_app, (skip_failures_cons_raise _ _ _ _ He1). reflexivity.
  - rewrite skip_failures_app, (skip_failures_cons_raise _ _ _ _ He2). reflexivity.
Qed.

(** The formatter changes neither the unit price nor the unit of a record of
    the static table, and touches the first price only; so formatting a
    formatted record again, for another quantity, gives what formatting the
    original record for that quantity gives. *)
Theorem reformatting_uses_the_last_quantity
    (name1 name2 : string) (q1 q2 : Z) (p p1 : product) :
  service p ∈ [Some "VPC"; Some "ALB"; Some "Route53"] →
  format_single_product name1 q1 p = Ok p1 →
  format_single_product name2 q2 p1 = format_single_product name2 q2 p
  ∧ amount <$> default [] (prices p1) = amount <$> default [] (prices p)
  ∧ price_unit <$> default [] (prices p1) = price_unit <$> default [] (prices p)
  ∧ tail (default [] (prices p1)) = tail (default [] (prices p)).
Proof.
  intros Hs Hfmt. unfold format_single_product in Hfmt.
  rewrite (bool_decide_eq_true_2 _ Hs) in Hfmt.
  destruct (prices p) as [[|pr rest]|] eqn:Hp.
  - injection Hfmt as <-. rewrite Hp. repeat split; reflexivity.
  - destruct (float_of_amount (amount pr)) as [a|e] eqn:Ha; [|discriminate].
    cbv beta iota delta [mbind result_bind] in Hfmt.
    destruct (monthly_of a (default "Hrs" (price_unit pr)) q1) as [m|e] eqn:Hm;
      [|discriminate].
    injection Hfmt as <-. split; [|repeat split; reflexivity].
    unfold format_single_product. simpl service. simpl prices.
    rewrite (bool_decide_eq_true_2 _ Hs), Hp. simpl amount. simpl price_unit.
    rewrite Ha. cbv beta iota delta [mbind result_bind].
    destruct (monthly_of a (default "Hrs" (price_unit pr)) q2); reflexivity.
  - injection Hfmt as <-. rewrite Hp. repeat split; reflexivity.
Qed.

Lemma hourly_formula_raise (f : float) (q : Z) (e : exn) :
  Py.float_of_int q = Raise e →
  Py.mul (Py.PFloat f) (Py.PInt 730) ≫= (λ h, Py.mul h (Py.PInt q)) = Raise e.
Proof.
  intros Hq. cbv beta iota delta [Py.mul].
  rewrite float_of_int_730. cbv beta iota delta [mbind result_bind Py.mul].
  rewrite Hq. reflexivity.
Qed.

Lemma mul_float_int_raise (x : float) (z : Z) (e : exn) :
  Py.float_of_int z = Raise e → Py.mul (Py.PFloat x) (Py.PInt z) = Raise e.
Proof. intros Hz. cbv beta iota delta [Py.mul]. rewrite Hz. reflexivity. Qed.

(** The two places that compute a monthly cost agree.  For every quantity,
    what the formatter makes of the record that the table client returns for
    the quantity 1 is the record that the table client itself returns for
    that quantity, with the key ['quantity'] added; and for every storage
    size, what the S3 formatter makes of the record for 0 GB is the record of
    the table client for that size.  A quantity too large for a float gives
    no record either way. *)
Theorem formatter_agrees_with_table_client (pricing : pricing_data)
    (component region_name storage_class service_name : string) (q : Z) (g : float) :
  format_single_price (find_vpc_pricing pricing component region_name 1) service_name q
    = (λ p, update_product p (storageGB p) (Some q) (default [] (prices p)))
        <$> find_vpc_pricing pricing component region_name q
  ∧ format_single_price (find_alb_pricing pricing region_name 1) service_name q
    = (λ p, update_product p (storageGB p) (Some q) (default [] (prices p)))
        <$> find_alb_pricing pricing region_name q
  ∧ format_single_price (find_route53_pricing pricing component 1) service_name q
    = (λ p, update_product p (storageGB p) (Some q) (default [] (prices p)))
        <$> find_route53_pricing pricing component q
  ∧ format_s3_pricing_data (find_s3_pricing pricing storage_class region_name (Py.PInt 0)) g
    = find_s3_pricing pricing storage_class region_name (Py.PFloat g).
Proof.
  destruct (get_price_float (get_table (VPC pricing) region_name) component 0.045)
    as [f1 Hf1].
  destruct (get_price_float (ALB pricing) region_name 0.0225) as [f2 Hf2].
  destruct (get_price_float (Route53 pricing) component 0.50) as [f3 Hf3].
  destruct (get_price_float (get_table (S3 pricing) region_name) storage_class 0.023)
    as [f4 Hf4].
  unfold find_vpc_pricing, find_alb_pricing, find_route53_pricing, find_s3_pricing,
    vpc_hourly_price, alb_hourly_price, route53_monthly_price, s3_price_per_gb.
  rewrite Hf1, Hf2, Hf3, Hf4.
  rewrite !(hourly_formula _ 1 1 float_of_int_1), (mul_float_int f3 1 1 float_of_int_1),
    (mul_float_int f4 0 0 float_of_int_0).
  unfold format_single_price, format_s3_pricing_data.
  destruct (Py.float_of_int q) as [qf|e] eqn:Hq.
  - rewrite !(hourly_formula _ q qf Hq), (mul_float_int f3 q qf Hq).
    split; [|split; [|split]].
    + erewrite skip_failures_cons_ok;
        [|eapply format_single_product_bulk;
           [set_solver | reflexivity | reflexivity | apply (monthly_of_hrs _ q qf Hq)]];
        reflexivity.
    + erewrite skip_failures_cons_ok;
        [|eapply format_single_product_bulk;
           [set_solver | reflexivity | reflexivity | apply (monthly_of_hrs _ q qf Hq)]];
        reflexivity.
    + erewrite skip_failures_cons_ok;
        [|eapply format_single_product_bulk;
           [set_solver | reflexivity | reflexivity | apply (monthly_of_month _ q qf Hq)]];
        reflexivity.
    + erewrite skip_failures_cons_ok;
        [|eapply format_s3_product_bulk; reflexivity];
        reflexivity.
  - rewrite !(hourly_formula_raise _ q e Hq), (mul_float_int_raise f3 q e Hq).
    assert (Hskip : ∀ p pr a u,
      service p ∈ [Some "VPC"; Some "ALB"; Some "Route53"] →
      prices p = Some [pr] →
      float_of_amount (amount pr) = Ok a →
      monthly_of a (default "Hrs" (price_unit pr)) q = Raise u →
      skip_failures (format_single_product service_name q) [p] = []).
    { intros p pr a u Hs Hp Ha Hm.
      erewrite skip_failures_cons_raise; [reflexivity|].
      unfold format_single_product.
      rewrite (bool_decide_eq_true_2 _ Hs), Hp, Ha.
      cbv beta iota delta [mbind result_bind]. rewrite Hm. reflexivity. }
    split; [|split; [|split]].
    + eapply Hskip; [set_solver | reflexivity | reflexivity |].
      unfold monthly_of. simpl contains. cbv iota. apply hourly_formula_raise, Hq.
    + eapply Hskip; [set_solver | reflexivity | reflexivity |].
      unfold monthly_of. simpl contains. cbv iota. apply hourly_formula_raise, Hq.
    + eapply Hskip; [set_solver | reflexivity | reflexivity |].
      unfold monthly_of. simpl contains. cbv iota. apply mul_float_int_raise, Hq.
    + erewrite skip_failures_cons_ok;
        [|eapply format_s3_product_bulk; reflexivity];
        reflexivity.
Qed.

End LiveMode.

(** A pricing service that has nothing for any query, and one that fails on
    every query. *)
Lemma empty_answer_is_not_a_failure_witness :
  py_float (H := Reference.builtins)
    (default (JNum (Py.PInt 0)) (req_storageGB empty_request)) = Ok 0%float
  ∧ py_int (H := Reference.builtins)
      (default (JNum (Py.PInt 1)) (req_quantity empty_request)) = Ok 1%Z
  ∧ App.get_s3_pricing (H := Reference.builtins)
      (Some (ApiClient (λ _ _ _, Ok []))) empty_request
    = Success {| data := []; count := 0 |}
  ∧ App.get_s3_pricing (H := Reference.builtins)
      (Some (ApiClient (λ _ _ _, Raise (ApiError "Error fetching products")))) empty_request
    = Failure (ExceptionText (ApiError "Error fetching products")) 500.
Proof.
  assert (Hg : py_float (H := Reference.builtins)
    (default (JNum (Py.PInt 0)) (req_storageGB empty_request)) = Ok 0%float)
    by (vm_compute; reflexivity).
  assert (Hq : py_int (H := Reference.builtins)
    (default (JNum (Py.PInt 1)) (req_quantity empty_request)) = Ok 1%Z)
    by reflexivity.
  split; [exact Hg|]. split; [exact Hq|]. split.
  - destruct (empty_answer_is_not_a_failure (H := Reference.builtins)
                (λ _ _ _, Ok []) empty_request 0 1 Hg Hq) as [Hempty _].
    destruct (Hempty (λ _ _ _, eq_refl)) as (_ & _ & Hs3 & _). exact Hs3.
  - destruct (empty_answer_is_not_a_failure (H := Reference.builtins)
                (λ _ _ _, Raise (ApiError "Error fetching products")) empty_request 0 1
                Hg Hq) as [_ Hfail].
    destruct (Hfail _ (λ _ _ _, eq_refl)) as (_ & _ & Hs3 & _). exact Hs3.
Defined.

(** The pricing service lists a product priced [n/a] after a regular one:
    the answer holds the regular one alone. *)
Lemma formatters_skip_unreadable_products_witness :
  service unreadable_product = None
  ∧ float_of_str (Builtins := Reference.builtins) "n/a" = None
  ∧ Client.format_s3_pricing_data (H := Reference.builtins)
      [api_s3_product; unreadable_product] 100
    = Client.format_s3_pricing_data (H := Reference.builtins) [api_s3_product] 100
  ∧ length (Client.format_s3_pricing_data (H := Reference.builtins)
              [api_s3_product; unreadable_product] 100) = 1.
Proof.
  assert (Hbad : float_of_str (Builtins := Reference.builtins) "n/a" = None)
    by reflexivity.
  split; [reflexivity|]. split; [exact Hbad|].
  destruct (formatters_skip_unreadable_products (H := Reference.builtins) "S3" 1 100
              [api_s3_product] [] unreadable_product
              {| pricePerUnit_USD := Some "n/a"; pd_unit := Some "GB-Mo";
                 pd_description := None |} "n/a"
              eq_refl (list_elem_of_here _ _) eq_refl Hbad) as (_ & Hs3 & _).
  change ([api_s3_product; unreadable_product])
    with ([api_s3_product] ++ unreadable_product :: [])%list.
  rewrite Hs3. split; [apply app_nil_r|]. vm_compute. reflexivity.
Defined.

(** The record of a NAT gateway, formatted for 2 and then for 5 gateways. *)
Lemma reformatting_uses_the_last_quantity_witness :
  ∃ p p1 p2,
    LivePricingScraper.find_vpc_pricing sample_pricing "NatGateway" default_region 1 = [p]
    ∧ service p ∈ [Some "VPC"; Some "ALB"; Some "Route53"]
    ∧ Client.format_single_product (H := Reference.builtins) "VPC" 2 p = Ok p1
    ∧ Client.format_single_product (H := Reference.builtins) "VPC" 5 p1 = Ok p2
    ∧ Client.format_single_product (H := Reference.builtins) "VPC" 5 p = Ok p2
    ∧ quantity p2 = Some 5%Z.
Proof.
  pose (p := hd unreadable_product
               (LivePricingScraper.find_vpc_pricing sample_pricing "NatGateway"
                  default_region 1)).
  assert (Hs : service p ∈ [Some "VPC"; Some "ALB"; Some "Route53"])
    by (vm_compute; set_solver).
  destruct (Client.format_single_product (H := Reference.builtins) "VPC" 2 p)
    as [p1|e] eqn:Hf1; [|vm_compute in Hf1; discriminate].
  destruct (Client.format_single_product (H := Reference.builtins) "VPC" 5 p)
    as [p2|e] eqn:Hf2; [|vm_compute in Hf2; discriminate].
  destruct (reformatting_uses_the_last_quantity (H := Reference.builtins)
              "VPC" "VPC" 2 5 p p1 Hs Hf1) as (Hre & _).
  exists p, p1, p2. split; [vm_compute; reflexivity|]. split; [exact Hs|].
  split; [exact Hf1|]. split; [rewrite Hre; exact Hf2|]. split; [exact Hf2|].
  vm_compute in Hf2. injection Hf2 as <-. reflexivity.
Defined.

Section LivePrices.
Import LivePricingScraper Client.
Context `{!Builtins}.

(** A product of the pricing service in live mode.  When every price of the
    product reads as a number and the quantity converts to a float, the
    formatter returns a record with the service name and the quantity, and
    with one price for every price dimension: the unit price as a float and
    the monthly cost [price * 730 * quantity] when the unit of the dimension
    contains Hrs, [price * quantity] otherwise (also when the dimension has no
    unit, which reads as N/A). *)
Theorem live_prices_follow_the_unit (service_name : string) (q : Z) (qf : float)
    (p : product) :
  service p = None →
  Py.float_of_int q = Ok qf →
  Forall (λ d, ∃ ppu, price_per_unit d = Ok ppu) (concat (on_demand p)) →
  ∃ p' prs,
    format_single_product service_name q p = Ok p'
    ∧ service p' = Some service_name
    ∧ quantity p' = Some q
    ∧ description p' = Some (or_na (attributes p !! "usagetype"))
    ∧ location p' = Some (or_na (attributes p !! "location"))
    ∧ productFamily p' = Some (or_na (attributes p !! "productFamily"))
    ∧ prices p' = Some prs
    ∧ Forall2 (λ d pr,
         ∃ ppu,
           price_per_unit d = Ok ppu
           ∧ amount pr = Some (AmountNum ppu)
           ∧ price_unit pr = Some (or_na (pd_unit d))
           ∧ price_description pr = Some (or_na (pd_description d))
           ∧ monthly_cost pr
               = Some (Py.PFloat (if contains "Hrs" (or_na (pd_unit d))
                                  then ppu * 730 * qf else ppu * qf)))
        (concat (on_demand p)) prs.
Proof.
  intros Hs Hq Hall.
  assert (Hmonthly : ∀ ppu u,
    monthly_of ppu u q
      = Ok (Py.PFloat (if contains "Hrs" u then ppu * 730 * qf else ppu * qf))).
  { intros ppu u. unfold monthly_of. destruct (contains "Hrs" u).
    - apply hourly_formula, Hq.
    - apply mul_float_int, Hq. }
  destruct (mapM_result_ok
    (λ d, ppu ← price_per_unit d;
          m ← monthly_of ppu (or_na (pd_unit d)) q;
          Ok {| amount := Some (AmountNum ppu); monthly_cost := Some m;
                price_unit := Some (or_na (pd_unit d));
                price_description := Some (or_na (pd_description d)) |})
    (concat (on_demand p))) as (prs & Hprs & Hrel).
  { eapply Forall_impl; [exact Hall|]. intros d [ppu Hd]. rewrite Hd.
    cbv beta iota delta [mbind result_bind]. rewrite Hmonthly. eexists. reflexivity. }
  eexists. exists prs. split.
  - unfold format_single_product.
    rewrite bool_decide_eq_false_2 by (rewrite Hs; set_solver).
    cbv zeta. rewrite Hprs. reflexivity.
  - repeat split; try reflexivity.
    eapply Forall2_impl; [exact Hrel|]. intros d pr Hd. simpl in Hd.
    destruct (price_per_unit d) as [ppu|e]; [|discriminate].
    cbv beta iota delta [mbind result_bind] in Hd. rewrite Hmonthly in Hd.
    injection Hd as <-. exists ppu. repeat split; reflexivity.
Qed.

End LivePrices.

(** Two NAT gateways at 0.045 an hour, as the pricing service lists them. *)
Lemma live_prices_follow_the_unit_witness :
  service api_nat_product = None
  ∧ Py.float_of_int 2 = Ok 2%float
  ∧ ∃ p' pr,
      Client.format_single_product (H := Reference.builtins) "VPC" 2 api_nat_product = Ok p'
      ∧ prices p' = Some [pr]
      ∧ amount pr = Some (AmountNum 0.045)
      ∧ monthly_cost pr = Some (Py.PFloat 65.7).
Proof.
  split; [reflexivity|]. split; [exact float_of_int_2|].
  destruct (live_prices_follow_the_unit (H := Reference.builtins) "VPC" 2 2
              api_nat_product eq_refl float_of_int_2)
    as (p' & prs & Hfmt & _ & _ & _ & _ & _ & Hprs & Hrel).
  { repeat constructor. eexists. vm_compute. reflexivity. }
  change (concat (on_demand api_nat_product))
    with [ {| pricePerUnit_USD := Some "0.0450000000"; pd_unit := Some "Hrs";
              pd_description := Some "$0.045 per NAT Gateway Hour" |} ] in Hrel.
  destruct prs as [|pr [|pr2 prs]]; [inversion Hrel| |inversion Hrel as [|? ? ? ? _ Hn]; inversion Hn].
  apply Forall2_cons_1 in Hrel as [(ppu & Hppu & Ha & _ & _ & Hm) _].
  vm_compute in Hppu. injection Hppu as <-.
  exists p', pr. split; [exact Hfmt|]. split; [exact Hprs|]. split; [exact Ha|].
  rewrite Hm. vm_compute. reflexivity.
Defined.

(** ** The utility endpoints *)

(** The instance catalogue.  On the static table the endpoint lists the
    instance types that the table has for the region, each once and in
    lexicographic order, with their number; a region that the table does not
    have gives the empty list, still as a success.  Without the static table
    (live mode, or no client at all) it answers with a fixed list of three,
    whatever the region. *)
Theorem available_instances_lists_the_region_catalog
    (pricing : pricing_data) (region_arg : option string) :
  (∃ l,
     Utility.get_available_instances (Some (BulkClient pricing)) region_arg
       = Success {| instances := l; instances_count := length l;
                    instances_region := Some (default default_region region_arg) |}
     ∧ StronglySorted str_le l
     ∧ NoDup l
     ∧ (∀ i, i ∈ l ↔
          is_Some (get_table (EC2 pricing) (default default_region region_arg) !! i))
     ∧ length l = size (get_table (EC2 pricing) (default default_region region_arg))
     ∧ (EC2 pricing !! default default_region region_arg = None → l = []))
  ∧ (∀ get_products,
       Utility.get_available_instances (Some (ApiClient get_products)) region_arg
         = Success {| instances := ["t2.micro"; "t3.micro"; "m5.large"];
                      instances_count := 3; instances_region := None |})
  ∧ Utility.get_available_instances None region_arg
      = Success {| instances := ["t2.micro"; "t3.micro"; "m5.large"];
                   instances_count := 3; instances_region := None |}.
Proof.
  split; [|split; [intros get_products|]; reflexivity].
  set (region_data := get_table (EC2 pricing) (default default_region region_arg)).
  exists (merge_sort str_le (map_to_list region_data).*1).
  assert (Hperm : merge_sort str_le (map_to_list region_data).*1
                    ≡ₚ (map_to_list region_data).*1)
    by apply merge_sort_Permutation.
  split; [reflexivity|]. split; [apply (StronglySorted_merge_sort str_le)|].
  split; [rewrite Hperm; apply NoDup_fst_map_to_list|].
  split; [|split].
  - intros i. rewrite Hperm, list_elem_of_fmap. split.
    + intros ([k v] & -> & Hkv). apply elem_of_map_to_list in Hkv. eauto.
    + intros [v Hv]. exists (i, v). split; [reflexivity|].
      apply elem_of_map_to_list. exact Hv.
  - rewrite Hperm, length_fmap. apply length_map_to_list.
  - intros Hnone. subst region_data. unfold get_table. rewrite Hnone. reflexivity.
Qed.

(** The connectivity probe tells the state of the client, always with the
    status 200: it fails with its own message exactly when the pricing
    endpoints fail with theirs (no client), succeeds on the static table
    without calling the pricing service, and in live mode succeeds exactly
    when the call to the pricing service does not raise. *)
Theorem probe_reports_client_state (pricing_client : option AWSPricingClient)
    (get_services : result (list string)) (data : request) `{!Builtins} :
  (Utility.test_connection pricing_client get_services).2 = 200%Z
  ∧ (Utility.test_connection pricing_client get_services
       = (ConnectionFailed "Pricing client not initialized", 200%Z)
     ↔ pricing_client = None)
  ∧ (pricing_client = None ↔
       App.get_ec2_pricing pricing_client data = Failure ClientNotInitialized 500
       ∧ App.get_rds_pricing pricing_client data = Failure ClientNotInitialized 500
       ∧ App.get_s3_pricing pricing_client data = Failure ClientNotInitialized 500
       ∧ App.get_vpc_pricing pricing_client data = Failure ClientNotInitialized 500
       ∧ App.get_alb_pricing pricing_client data = Failure ClientNotInitialized 500
       ∧ App.get_route53_pricing pricing_client data = Failure ClientNotInitialized 500)
  ∧ (∀ pricing,
       pricing_client = Some (BulkClient pricing) →
       Utility.test_connection pricing_client get_services
         = (ConnectionOk "Using credential-free pricing", 200%Z))
  ∧ (∀ api,
       pricing_client = Some (ApiClient api) →
       match get_services with
       | Ok _ => Utility.test_connection pricing_client get_services
                   = (ConnectionOk "Connected to AWS Pricing API", 200%Z)
       | Raise e => Utility.test_connection pricing_client get_services
                      = (ConnectionRaised e, 200%Z)
       end).
Proof.
  split; [|split; [|split; [|split]]].
  - destruct pricing_client as [[|]|]; [reflexivity| |reflexivity].
    simpl. destruct get_services; reflexivity.
  - split; [|intros ->; reflexivity].
    destruct pricing_client as [[|]|]; [discriminate| |reflexivity].
    simpl. destruct get_services; discriminate.
  - split; [intros ->; repeat split; reflexivity|].
    intros [Hec2 _]. destruct pricing_client as [c|]; [|reflexivity].
    unfold App.get_ec2_pricing, pricing_response, respond in Hec2.
    destruct (_ ≫= _) in Hec2; discriminate.
  - intros pricing ->. reflexivity.
  - intros api ->. destruct get_services; reflexivity.
Qed.

(** ** Building the price table *)

(** A loop that stores one entry per key of a dictionary builds the image of
    the dictionary. *)
Lemma map_fold_insert_fmap {A B} (g : A → B) (m : gmap string A) :
  map_fold (λ k v (acc : gmap string B), <[k := g v]> acc) ∅ m = g <$> m.
Proof.
  apply (map_fold_weak_ind (λ r m, r = g <$> m)).
  - rewrite fmap_empty. reflexivity.
  - intros k v m' r _ ->. rewrite fmap_insert. reflexivity.
Qed.

Section TableFacts.
Import ComprehensivePricing.
Variable round4 : float → float.

(** The inner loop of the expansion: the region keeps what it lists and
    gets the regional prices of every other instance type of US East. *)
Lemma add_missing_instances_union (us_east_instances : gmap string (gmap string float))
    (multiplier : float) (region_table : gmap string (gmap string float)) :
  add_missing_instances round4 us_east_instances multiplier region_table
    = region_table ∪ (regional_prices round4 multiplier <$> us_east_instances).
Proof.
  unfold add_missing_instances.
  apply (map_fold_weak_ind
    (λ r m, r = region_table ∪ (regional_prices round4 multiplier <$> m))).
  - rewrite fmap_empty. symmetry. apply (right_id_L ∅ (∪)).
  - intros i x m r Hi ->. rewrite fmap_insert.
    assert (Hmi : (regional_prices round4 multiplier <$> m) !! i = None)
      by (rewrite lookup_fmap, Hi; reflexivity).
    destruct (decide _) as [[v Hv]|Hnone].
    + apply lookup_union_Some_raw in Hv as [Hv|[_ Hv]]; [|congruence].
      apply map_eq. intros j. rewrite !lookup_union.
      destruct (decide (i = j)) as [<-|Hne].
      * rewrite lookup_insert_eq, Hv, Hmi. reflexivity.
      * rewrite lookup_insert_ne by exact Hne. reflexivity.
    + apply eq_None_not_Some in Hnone. apply lookup_union_None in Hnone as [Hr _].
      apply insert_union_r, Hr.
Qed.

(** The outer loop, region by region. *)
Lemma get_all_regions_pricing_lookup
    (EC2_PRICING : gmap string (gmap string (gmap string float)))
    (REGION_MULTIPLIERS : gmap string float)
    (us_east_instances : gmap string (gmap string float)) :
  EC2_PRICING !! default_region = Some us_east_instances →
  ∃ table,
    get_all_regions_pricing round4 EC2_PRICING REGION_MULTIPLIERS = Ok table
    ∧ ∀ r, table !! r =
        match REGION_MULTIPLIERS !! r with
        | None => EC2_PRICING !! r
        | Some m =>
            Some (get_table EC2_PRICING r
                  ∪ (regional_prices round4 m <$> us_east_instances))
        end.
Proof.
  intros Hus. unfold get_all_regions_pricing. rewrite Hus. eexists. split; [reflexivity|].
  apply (map_fold_weak_ind (λ table mult, ∀ r, table !! r =
        match mult !! r with
        | None => EC2_PRICING !! r
        | Some m =>
            Some (get_table EC2_PRICING r
                  ∪ (regional_prices round4 m <$> us_east_instances))
        end)).
  - intros r. rewrite lookup_empty. reflexivity.
  - intros i x mult table Hi IH r. cbv zeta.
    destruct (decide (i = r)) as [<-|Hne].
    + rewrite !lookup_insert_eq, add_missing_instances_union. f_equal. f_equal.
      pose proof (IH i) as IHi. rewrite Hi in IHi.
      unfold get_table. destruct (decide (is_Some (table !! i))) as [[v Hv]|Hnone].
      * rewrite Hv, <- IHi, Hv. reflexivity.
      * apply eq_None_not_Some in Hnone. rewrite lookup_insert_eq, <- IHi, Hnone.
        reflexivity.
    + rewrite !lookup_insert_ne by exact Hne.
      destruct (decide (is_Some (table !! i))); [apply IH|].
      rewrite lookup_insert_ne by exact Hne. apply IH.
Qed.

(** The expanded table, region by region. *)
Lemma expanded_table_facts
    (EC2_PRICING : gmap string (gmap string (gmap string float)))
    (REGION_MULTIPLIERS : gmap string float)
    (us_east_instances : gmap string (gmap string float)) :
  EC2_PRICING !! default_region = Some us_east_instances →
  ∃ table,
    get_all_regions_pricing round4 EC2_PRICING REGION_MULTIPLIERS = Ok table
    ∧ table !! default_region = Some us_east_instances
    ∧ (∀ r, REGION_MULTIPLIERS !! r = None → table !! r = EC2_PRICING !! r)
    ∧ (∀ r m, REGION_MULTIPLIERS !! r = Some m →
         ∃ t, table !! r = Some t
           ∧ (∀ i os_prices,
                get_table EC2_PRICING r !! i = Some os_prices →
                t !! i = Some os_prices)
           ∧ (∀ i os_prices,
                get_table EC2_PRICING r !! i = None →
                us_east_instances !! i = Some os_prices →
                t !! i = Some (regional_prices round4 m os_prices))
           ∧ (∀ i, is_Some (t !! i) ↔
                is_Some (get_table EC2_PRICING r !! i)
                ∨ is_Some (us_east_instances !! i))).
Proof.
  intros Hus. rename us_east_instances into us.
  destruct (get_all_regions_pricing_lookup EC2_PRICING REGION_MULTIPLIERS us Hus)
    as (table & Htable & Hlookup).
  exists table. split; [exact Htable|]. split; [|split].
  - rewrite Hlookup. destruct (REGION_MULTIPLIERS !! default_region) as [m|]; [|exact Hus].
    f_equal. unfold get_table. rewrite Hus. simpl.
    apply map_eq. intros i. rewrite lookup_union, lookup_fmap.
    destruct (us !! i); reflexivity.
  - intros r Hr. rewrite Hlookup, Hr. reflexivity.
  - intros r m Hr. eexists. split; [rewrite Hlookup, Hr; reflexivity|].
    split; [|split].
    + intros i os_prices Hi. rewrite lookup_union, Hi.
      destruct ((regional_prices round4 m <$> us) !! i); reflexivity.
    + intros i os_prices Hi Hu. rewrite lookup_union, Hi, lookup_fmap, Hu. reflexivity.
    + intros i. rewrite lookup_union, lookup_fmap. unfold is_Some.
      destruct (get_table EC2_PRICING r !! i), (us !! i); simpl; split;
        try (intros [[v Hv]|[v Hv]]); try (intros [v Hv]); try discriminate; eauto.
Qed.

(** The expansion of the EC2 table.  It needs the table of the default region
    and fails with [KeyError] without it.  Otherwise it leaves the default
    region and every region without a multiplier as they are; and a region
    with a multiplier keeps every price it lists, gets every other instance
    type of US East at the US East prices times the multiplier, rounded to
    four decimals, and so lists exactly its own instance types and those of
    US East. *)
Theorem expansion_completes_the_catalog
    (EC2_PRICING : gmap string (gmap string (gmap string float)))
    (REGION_MULTIPLIERS : gmap string float) :
  match EC2_PRICING !! default_region with
  | None =>
      get_all_regions_pricing round4 EC2_PRICING REGION_MULTIPLIERS
        = Raise (KeyError default_region)
  | Some us_east_instances =>
      ∃ table,
        get_all_regions_pricing round4 EC2_PRICING REGION_MULTIPLIERS = Ok table
        ∧ table !! default_region = Some us_east_instances
        ∧ (∀ r, REGION_MULTIPLIERS !! r = None → table !! r = EC2_PRICING !! r)
        ∧ (∀ r m, REGION_MULTIPLIERS !! r = Some m →
             ∃ t, table !! r = Some t
               ∧ (∀ i os_prices,
                    get_table EC2_PRICING r !! i = Some os_prices →
                    t !! i = Some os_prices)
               ∧ (∀ i os_prices,
                    get_table EC2_PRICING r !! i = None →
                    us_east_instances !! i = Some os_prices →
                    t !! i = Some (regional_prices round4 m os_prices))
               ∧ (∀ i, is_Some (t !! i) ↔
                    is_Some (get_table EC2_PRICING r !! i)
                    ∨ is_Some (us_east_instances !! i)))
  end.
Proof.
  destruct (EC2_PRICING !! default_region) as [us|] eqn:Hus;
    [|unfold get_all_regions_pricing; rewrite Hus; reflexivity].
  exact (expanded_table_facts EC2_PRICING REGION_MULTIPLIERS us Hus).
Qed.

Section Generated.
Import LivePricingScraper.
Variable EC2_PRICING : gmap string (gmap string (gmap string float)).
Variable REGION_MULTIPLIERS : gmap string float.
Variable RDS_BASE_US_EAST : gmap string (gmap string deployment_prices).

Lemma for_each_region_fmap {V} (entry : float → V) :
  BulkPricing.for_each_region REGION_MULTIPLIERS entry = entry <$> REGION_MULTIPLIERS.
Proof. apply (map_fold_insert_fmap entry). Qed.

Lemma rds_region_fmap (multiplier : float) :
  BulkPricing.rds_region round4 RDS_BASE_US_EAST multiplier
    = (λ engine_data : gmap string deployment_prices,
         BulkPricing.deployment_entry round4 multiplier <$> engine_data)
        <$> RDS_BASE_US_EAST.
Proof.
  unfold BulkPricing.rds_region.
  rewrite <- (map_fold_insert_fmap
    (λ engine_data : gmap string deployment_prices,
       BulkPricing.deployment_entry round4 multiplier <$> engine_data) RDS_BASE_US_EAST).
  apply (map_fold_weak_ind (λ r m, r = map_fold _ ∅ m)).
  - rewrite map_fold_empty. reflexivity.
  - intros i x m r Hi ->.
    rewrite map_fold_insert_L; [|intros; apply insert_insert_ne; done|exact Hi].
    f_equal. apply (map_fold_insert_fmap _ x).
Qed.

(** The fields of the generated table. *)
Lemma FALLBACK_PRICING_fields (pricing : pricing_data) :
  BulkPricing.FALLBACK_PRICING round4 EC2_PRICING REGION_MULTIPLIERS RDS_BASE_US_EAST
    = Ok pricing →
  get_all_regions_pricing round4 EC2_PRICING REGION_MULTIPLIERS = Ok (EC2 pricing)
  ∧ RDS pricing
      = (λ multiplier,
           (λ engine_data : gmap string deployment_prices,
              BulkPricing.deployment_entry round4 multiplier <$> engine_data)
             <$> RDS_BASE_US_EAST) <$> REGION_MULTIPLIERS
  ∧ S3 pricing
      = (λ multiplier, (λ price, round4 (price * multiplier)%float) <$> S3_BASE)
          <$> REGION_MULTIPLIERS
  ∧ VPC pricing
      = (λ multiplier, (λ price, round4 (price * multiplier)%float) <$> VPC_BASE)
          <$> REGION_MULTIPLIERS
  ∧ ALB pricing
      = (λ multiplier, round4 (ALB_BASE * multiplier)%float) <$> REGION_MULTIPLIERS
  ∧ Route53 pricing = {[ "HostedZone" := 0.50%float; "Queries" := 0.40%float ]}.
Proof.
  unfold BulkPricing.FALLBACK_PRICING.
  destruct (get_all_regions_pricing _ _ _) as [ec2|e]; [|discriminate].
  intros [= <-]. simpl. rewrite !for_each_region_fmap.
  repeat split; try reflexivity.
  apply map_fmap_ext. intros r m _. apply rds_region_fmap.
Qed.

(** Lookups in a table of regions built from a base table. *)
Lemma get_table_for_each_region {V} `{Empty V} (entry : float → V) (r : string) :
  get_table (entry <$> REGION_MULTIPLIERS) r
    = default ∅ (entry <$> REGION_MULTIPLIERS !! r).
Proof. unfold get_table. rewrite lookup_fmap. reflexivity. Qed.

(** Every region with a multiplier offers the whole US East catalogue: the
    instance catalogue of such a region contains that of the default region.
    An instance type that the region does not list itself is priced at the US
    East price times the multiplier of the region, rounded to four decimals;
    should that product round to zero, the lookup answers with the US East
    price instead. *)
Theorem every_priced_region_offers_the_us_east_catalog
    (pricing : pricing_data) (r : string) (m : float) :
  BulkPricing.FALLBACK_PRICING round4 EC2_PRICING REGION_MULTIPLIERS RDS_BASE_US_EAST
    = Ok pricing →
  REGION_MULTIPLIERS !! r = Some m →
  (∃ l_us l_r,
     Utility.get_available_instances (Some (BulkClient pricing)) None
       = Success {| instances := l_us; instances_count := length l_us;
                    instances_region := Some default_region |}
     ∧ Utility.get_available_instances (Some (BulkClient pricing)) (Some r)
       = Success {| instances := l_r; instances_count := length l_r;
                    instances_region := Some r |}
     ∧ l_us ⊆ l_r)
  ∧ (∀ us_east_instances i os_prices os price,
       EC2_PRICING !! default_region = Some us_east_instances →
       us_east_instances !! i = Some os_prices →
       os_prices !! os = Some price →
       get_table EC2_PRICING r !! i = None →
       ec2_hourly_price pricing i r os
         = Py.PFloat (if (round4 (price * m) =? 0)%float then price
                      else round4 (price * m)%float)).
Proof.
  intros Hfb Hr. apply FALLBACK_PRICING_fields in Hfb as (Hec2 & _).
  destruct (EC2_PRICING !! default_region) as [us|] eqn:Hus;
    [|unfold get_all_regions_pricing in Hec2; rewrite Hus in Hec2; discriminate].
  destruct (expanded_table_facts EC2_PRICING REGION_MULTIPLIERS us Hus)
    as (table & Htable & Hdefault & _ & Hregions).
  rewrite Hec2 in Htable. injection Htable as <-.
  destruct (Hregions r m Hr) as (t & Ht & Hkeep & Hnew & Hdom).
  split.
  - do 2 eexists. split; [reflexivity|]. split; [reflexivity|].
    intros i. rewrite !merge_sort_Permutation, !list_elem_of_fmap.
    intros ([k v] & -> & Hkv). apply elem_of_map_to_list in Hkv.
    unfold get_table in Hkv. simpl default in Hkv. rewrite Hdefault in Hkv.
    simpl in Hkv.
    destruct (proj2 (Hdom k)) as [w Hw]; [right; eauto|].
    exists (k, w). split; [reflexivity|]. apply elem_of_map_to_list.
    unfold get_table. simpl default. rewrite Ht. exact Hw.
  - intros us' i os_prices os price [= <-] Hi Hos Hnone.
    assert (Hregional : ec2_entry pricing r i os = Some (round4 (price * m)%float)).
    { unfold ec2_entry, get_table. rewrite Ht. simpl.
      rewrite (Hnew i os_prices Hnone Hi). simpl.
      unfold regional_prices. rewrite lookup_fmap, Hos. reflexivity. }
    assert (Hhome : ec2_entry pricing default_region i os = Some price).
    { unfold ec2_entry, get_table. rewrite Hdefault. simpl. rewrite Hi. exact Hos. }
    destruct (round4 (price * m) =? 0)%float eqn:Hz.
    + rewrite ec2_retry by (rewrite Hregional; exact Hz).
      rewrite Hhome. reflexivity.
    + exact (ec2_no_retry pricing i r os _ Hregional Hz).
Qed.

(** The prices of the generated table.  In a region with a multiplier a
    storage class, a VPC component and the load balancer resolve to the base
    price times the multiplier, rounded to four decimals, and an RDS entry is
    the base price of its deployment option scaled in the same way.  In a
    region without a multiplier every storage class resolves to 0.023, every
    VPC component to 0.045 and the load balancer to 0.0225, whatever their
    base prices are.  A Route53 component costs 0.40 when it is Queries and
    0.50 otherwise. *)
Theorem generated_table_prices (pricing : pricing_data) :
  BulkPricing.FALLBACK_PRICING round4 EC2_PRICING REGION_MULTIPLIERS RDS_BASE_US_EAST
    = Ok pricing →
  (∀ r m, REGION_MULTIPLIERS !! r = Some m →
     (∀ storage_class base, S3_BASE !! storage_class = Some base →
        s3_price_per_gb pricing storage_class r = Py.PFloat (round4 (base * m)%float))
     ∧ (∀ component base, VPC_BASE !! component = Some base →
        vpc_hourly_price pricing component r = Py.PFloat (round4 (base * m)%float))
     ∧ alb_hourly_price pricing r = Py.PFloat (round4 (ALB_BASE * m)%float)
     ∧ (∀ instance_type engine_data engine prices,
          RDS_BASE_US_EAST !! instance_type = Some engine_data →
          engine_data !! engine = Some prices →
          rds_entry pricing r instance_type engine "Single-AZ"
            = Some (round4 (single_az prices * m)%float)
          ∧ rds_entry pricing r instance_type engine "Multi-AZ"
            = Some (round4 (multi_az prices * m)%float)))
  ∧ (∀ r, REGION_MULTIPLIERS !! r = None →
       (∀ storage_class, s3_price_per_gb pricing storage_class r = Py.PFloat 0.023)
       ∧ (∀ component, vpc_hourly_price pricing component r = Py.PFloat 0.045)
       ∧ alb_hourly_price pricing r = Py.PFloat 0.0225
       ∧ (∀ instance_type engine deployment,
            rds_entry pricing r instance_type engine deployment = None))
  ∧ (∀ component,
       route53_monthly_price pricing component
         = Py.PFloat (if decide (component = "Queries") then 0.40 else 0.50)).
Proof.
  intros Hfb.
  apply FALLBACK_PRICING_fields in Hfb as (_ & Hrds & Hs3 & Hvpc & Halb & Hr53).
  unfold s3_price_per_gb, vpc_hourly_price, alb_hourly_price, route53_monthly_price,
    rds_entry, get_price.
  rewrite Hrds, Hs3, Hvpc, Halb, Hr53.
  split; [|split].
  - intros r m Hr. rewrite !get_table_for_each_region, !lookup_fmap, Hr. simpl.
    split; [|split; [|split]].
    + intros sc base Hb. rewrite lookup_fmap, Hb. reflexivity.
    + intros c base Hb. rewrite lookup_fmap, Hb. reflexivity.
    + reflexivity.
    + intros it ed engine prices Hit Hen. unfold get_table.
      rewrite lookup_fmap, Hit. simpl. rewrite lookup_fmap, Hen. simpl.
      split; reflexivity.
  - intros r Hr. rewrite !get_table_for_each_region, !lookup_fmap, Hr. simpl.
    split; [|split; [|split]]; try reflexivity.
  - intros c. destruct (decide (c = "Queries")) as [->|Hq]; [reflexivity|].
    destruct (decide (c = "HostedZone")) as [->|Hh]; [reflexivity|].
    rewrite lookup_insert_ne by congruence.
    rewrite lookup_singleton_ne by congruence. reflexivity.
Qed.

(** The number that start-up reports for RDS: every region with a
    multiplier is given every base instance type, so the count is the number
    of regions times the number of base instance types. *)
Theorem rds_count_is_regions_times_types (pricing : pricing_data) :
  BulkPricing.FALLBACK_PRICING round4 EC2_PRICING REGION_MULTIPLIERS RDS_BASE_US_EAST
    = Ok pricing →
  _count_instances (RDS pricing) = size REGION_MULTIPLIERS * size RDS_BASE_US_EAST
  ∧ size (RDS pricing) = size REGION_MULTIPLIERS
  ∧ ∀ r instances, RDS pricing !! r = Some instances →
      size instances = size RDS_BASE_US_EAST.
Proof.
  intros Hfb. apply FALLBACK_PRICING_fields in Hfb as (_ & Hrds & _).
  rewrite Hrds. split; [|split].
  - unfold _count_instances. rewrite map_fold_fmap.
    apply (map_fold_weak_ind (λ n mult, n = size mult * size RDS_BASE_US_EAST)).
    + rewrite map_size_empty. reflexivity.
    + intros i x mult n Hi ->. unfold compose.
      rewrite map_size_fmap, (map_size_insert_None _ _ _ Hi). simpl. lia.
  - apply map_size_fmap.
  - intros r instances. rewrite lookup_fmap.
    destruct (REGION_MULTIPLIERS !! r); [|discriminate].
    intros [= <-]. apply map_size_fmap.
Qed.

End Generated.
End TableFacts.

(** The display name of a region code: a code that the map does not have is
    returned as it is, so a display name is a fixed point, and converting
    twice is converting once. *)
Theorem region_name_is_idempotent (region_code : string) :
  _get_region_name (_get_region_name region_code) = _get_region_name region_code
  ∧ (region_map !! region_code = None → _get_region_name region_code = region_code)
  ∧ (∀ name, region_map !! region_code = Some name →
       _get_region_name region_code = name ∧ _get_region_name name = name).
Proof.
  assert (Hnames : ∀ name, region_map !! region_code = Some name →
            region_map !! name = None).
  { intros name Hname. apply elem_of_map_to_list in Hname.
    assert (Hin : name ∈ (map_to_list region_map).*2)
      by (apply list_elem_of_fmap; exists (region_code, name); split; [reflexivity|exact Hname]).
    clear Hname.
    assert (Hall : Forall (λ n, region_map !! n = None) (map_to_list region_map).*2)
      by (vm_compute; repeat constructor).
    exact (proj1 (Forall_forall _ _) Hall name Hin). }
  unfold _get_region_name.
  destruct (region_map !! region_code) as [name|] eqn:Hcode; simpl.
  - rewrite (Hnames name eq_refl). simpl.
    split; [reflexivity|]. split; [discriminate|].
    intros n [= <-]. rewrite (Hnames name eq_refl). split; reflexivity.
  - rewrite Hcode. simpl.
    split; [reflexivity|]. split; [reflexivity|]. intros n Hn. discriminate.
Qed.

Lemma sample_fallback_generated :
  BulkPricing.FALLBACK_PRICING round_4dp sample_EC2_PRICING sample_REGION_MULTIPLIERS
    sample_RDS_BASE = Ok sample_fallback.
Proof. vm_compute. reflexivity. Qed.

(** EU (London) lists nothing of its own: it offers the two instance types
    of US East, and m5.large costs 0.096 * 1.13 there, rounded to 0.1085. *)
Lemma every_priced_region_offers_the_us_east_catalog_witness :
  BulkPricing.FALLBACK_PRICING round_4dp sample_EC2_PRICING sample_REGION_MULTIPLIERS
    sample_RDS_BASE = Ok sample_fallback
  ∧ sample_REGION_MULTIPLIERS !! "EU (London)" = Some 1.13%float
  ∧ (∃ l_us l_r,
       Utility.get_available_instances (Some (BulkClient sample_fallback)) None
         = Success {| instances := l_us; instances_count := length l_us;
                      instances_region := Some default_region |}
       ∧ Utility.get_available_instances (Some (BulkClient sample_fallback))
           (Some "EU (London)")
         = Success {| instances := l_r; instances_count := length l_r;
                      instances_region := Some "EU (London)" |}
       ∧ l_us ⊆ l_r)
  ∧ LivePricingScraper.ec2_hourly_price sample_fallback "m5.large" "EU (London)" "Linux"
      = Py.PFloat 0.1085.
Proof.
  assert (Hm : sample_REGION_MULTIPLIERS !! "EU (London)" = Some 1.13%float)
    by (vm_compute; reflexivity).
  split; [exact sample_fallback_generated|]. split; [exact Hm|].
  destruct (every_priced_region_offers_the_us_east_catalog round_4dp
              sample_EC2_PRICING sample_REGION_MULTIPLIERS sample_RDS_BASE
              sample_fallback "EU (London)" 1.13 sample_fallback_generated Hm)
    as [Hcat Hprice].
  split; [exact Hcat|].
  rewrite (Hprice _ "m5.large" {[ "Linux" := 0.096%float; "Windows" := 0.192%float ]}
             "Linux" 0.096%float eq_refl); try (vm_compute; reflexivity).
Defined.

(** Archive storage costs 0.004 * 1.12, rounded to 0.0045, in EU (Ireland),
    and 0.023 in a region that has no multiplier. *)
Lemma generated_table_prices_witness :
  BulkPricing.FALLBACK_PRICING round_4dp sample_EC2_PRICING sample_REGION_MULTIPLIERS
    sample_RDS_BASE = Ok sample_fallback
  ∧ LivePricingScraper.s3_price_per_gb sample_fallback "Archive" "EU (Ireland)"
      = Py.PFloat 0.0045
  ∧ LivePricingScraper.s3_price_per_gb sample_fallback "Archive" "Mars (Olympus)"
      = Py.PFloat 0.023
  ∧ LivePricingScraper.vpc_hourly_price sample_fallback "VPN" "Mars (Olympus)"
      = Py.PFloat 0.045.
Proof.
  split; [exact sample_fallback_generated|].
  destruct (generated_table_prices round_4dp sample_EC2_PRICING sample_REGION_MULTIPLIERS
              sample_RDS_BASE sample_fallback sample_fallback_generated)
    as (Hlisted & Hother & _).
  destruct (Hlisted "EU (Ireland)" 1.12%float) as (Hs3 & _); [vm_compute; reflexivity|].
  destruct (Hother "Mars (Olympus)") as (Hs3' & Hvpc' & _); [vm_compute; reflexivity|].
  split; [|split; [apply Hs3' | apply Hvpc']].
  rewrite (Hs3 "Archive" 0.004%float) by (vm_compute; reflexivity).
  vm_compute. reflexivity.
Defined.

(** Three regions, one base instance type. *)
Lemma rds_count_is_regions_times_types_witness :
  BulkPricing.FALLBACK_PRICING round_4dp sample_EC2_PRICING sample_REGION_MULTIPLIERS
    sample_RDS_BASE = Ok sample_fallback
  ∧ _count_instances (RDS sample_fallback) = 3.
Proof.
  split; [exact sample_fallback_generated|].
  rewrite (proj1 (rds_count_is_regions_times_types round_4dp sample_EC2_PRICING
                    sample_REGION_MULTIPLIERS sample_RDS_BASE sample_fallback
                    sample_fallback_generated)).
  vm_compute. reflexivity.
Defined.

(** ** The breakdowns of the report *)

Section BreakdownFacts.
Import Report.

(** [sorted] raises on a [None] among two keys or more. *)
Lemma mapM_texts_none (keys : list (option string)) :
  None ∈ keys →
  mapM (λ k : option string,
          match k with Some s => Ok s | None => Raise TypeError end) keys
    = Raise TypeError.
Proof.
  induction keys as [|[t|] keys IH]; intros Hin.
  - inversion Hin.
  - apply elem_of_cons in Hin as [Hin|Hin]; [discriminate|].
    simpl. rewrite (IH Hin). reflexivity.
  - reflexivity.
Qed.

Lemma py_sorted_mixed (keys : list (option string)) (t : string) :
  None ∈ keys → Some t ∈ keys → py_sorted keys = Raise TypeError.
Proof.
  intros Hnone Hsome. destruct keys as [|k1 [|k2 keys]].
  - inversion Hnone.
  - apply list_elem_of_singleton in Hnone. apply list_elem_of_singleton in Hsome. congruence.
  - unfold py_sorted. rewrite (mapM_texts_none _ Hnone). reflexivity.
Qed.

Lemma py_sorted_only_none (keys : list (option string)) :
  NoDup keys → (∀ k, k ∈ keys → k = None) → py_sorted keys = Ok keys.
Proof.
  intros Hnd Hall. destruct keys as [|k1 [|k2 keys]]; [reflexivity|reflexivity|].
  exfalso. apply NoDup_cons in Hnd as [Hk1 _]. apply Hk1.
  rewrite (Hall k1) by (left). rewrite (Hall k2) by (right; left). left.
Qed.

(** When a breakdown raises, and when it is written. *)
Lemma breakdown_mixed (key : cart_item → option string) (cart_items : list cart_item)
    (t : string) :
  None ∈ key <$> cart_items → Some t ∈ key <$> cart_items →
  breakdown key cart_items = Raise TypeError.
Proof.
  intros Hnone Ht.
  destruct (group_by_ok key cart_items) as (g & Hg & _ & Hdom).
  unfold breakdown. rewrite Hg. cbv beta iota delta [mbind result_bind].
  rewrite (py_sorted_mixed _ t); [reflexivity| |];
    apply elem_of_elements; rewrite Hdom; apply elem_of_list_to_set; assumption.
Qed.

Lemma breakdown_pure (key : cart_item → option string) (cart_items : list cart_item) :
  (None ∈ key <$> cart_items → ∀ t, Some t ∉ key <$> cart_items) →
  ∃ rows, breakdown key cart_items = Ok rows.
Proof.
  intros Hpure. destruct (decide (None ∈ key <$> cart_items)) as [Hnone|Hnone].
  - destruct (group_by_ok key cart_items) as (g & Hg & _ & Hdom).
    unfold breakdown. rewrite Hg. cbv beta iota delta [mbind result_bind].
    rewrite py_sorted_only_none.
    + destruct (mapM_result_ok (breakdown_row g) (elements (dom g.1)))
        as (rows & Hrows & _); [|eauto].
      apply Forall_forall. intros k _. unfold breakdown_row.
      destruct (mul_12_ok (default (Py.PInt 0) (g.1 !! k))) as [a ->].
      eexists. reflexivity.
    + apply NoDup_elements.
    + intros [t|] Hk; [|reflexivity]. exfalso. apply (Hpure Hnone t).
      apply elem_of_elements in Hk. rewrite Hdom in Hk.
      apply elem_of_list_to_set in Hk. exact Hk.
  - destruct (breakdown_ok key cart_items) as (keys & rows & Hrows & _); [|eauto].
    apply Forall_forall. intros item Hitem.
    destruct (key item) as [t|] eqn:Hk; [eauto|].
    exfalso. apply Hnone. apply list_elem_of_fmap. exists item. split; [congruence|exact Hitem].
Qed.

Lemma breakdown_raises_TypeError (key : cart_item → option string)
    (cart_items : list cart_item) (e : exn) :
  breakdown key cart_items = Raise e → e = TypeError.
Proof.
  intros Hraise.
  destruct (decide (Forall (λ k, k = None) (key <$> cart_items))) as [Hall|Hsome].
  - destruct (breakdown_pure key cart_items) as [rows Hrows]; [|congruence].
    intros _ t Ht. specialize (proj1 (Forall_forall _ _) Hall _ Ht). discriminate.
  - destruct (decide (None ∈ key <$> cart_items)) as [Hnone|Hnone].
    + apply not_Forall_Exists in Hsome; [|apply _].
      apply Exists_exists in Hsome as ([t|] & Hin & Hne); [|contradiction Hne; reflexivity].
      rewrite (breakdown_mixed key cart_items t Hnone Hin) in Hraise. congruence.
    + destruct (breakdown_pure key cart_items) as [rows Hrows]; [|congruence].
      intros Hc. contradiction.
Qed.

End BreakdownFacts.

Section ExportTheorems.
Import Report.

(** X19.  When the export fails on a missing key.  If the cart holds an item
    whose service is [None] next to an item whose service is a text, or an
    item whose region is [None] next to an item whose region is a text,
    sorting the keys of a breakdown raises [TypeError] and no report is
    written.  If the services of the items are all texts or all [None], and
    so are the regions, the report is written. *)
Theorem export_fails_on_mixed_keys (now : string) (cart_items : list cart_item)
    (total_cost : Py.num) :
  (((∃ a, a ∈ cart_items ∧ item_service a = None)
    ∧ (∃ b t, b ∈ cart_items ∧ item_service b = Some t))
   ∨ ((∃ a, a ∈ cart_items ∧ region a = None)
      ∧ (∃ b t, b ∈ cart_items ∧ region b = Some t)) →
   generate_csv_report now cart_items total_cost = Raise TypeError)
  ∧ (Forall (λ a, item_service a = None) cart_items
     ∨ Forall (λ a, ∃ t, item_service a = Some t) cart_items →
     Forall (λ a, region a = None) cart_items
     ∨ Forall (λ a, ∃ t, region a = Some t) cart_items →
     ∃ rows, generate_csv_report now cart_items total_cost = Ok rows).
Proof.
  assert (Hsame : ∀ key : cart_item → option string,
    Forall (λ a, key a = None) cart_items
    ∨ Forall (λ a, ∃ t, key a = Some t) cart_items →
    ¬ ((∃ a, a ∈ cart_items ∧ key a = None)
       ∧ (∃ b, b ∈ cart_items ∧ is_Some (key b)))).
  { intros key Hall [(a & Ha & Hka) (b & Hb & [t Hkb])].
    destruct Hall as [Hall|Hall].
    - specialize (proj1 (Forall_forall _ _) Hall b Hb). congruence.
    - destruct (proj1 (Forall_forall _ _) Hall a Ha) as [t' Ht']. congruence. }
  assert (Hmixed : ∀ key : cart_item → option string,
    (None ∈ key <$> cart_items ∧ ∃ t, Some t ∈ key <$> cart_items)
    ↔ ((∃ a, a ∈ cart_items ∧ key a = None)
       ∧ (∃ b, b ∈ cart_items ∧ is_Some (key b)))).
  { intros key. rewrite list_elem_of_fmap. split.
    - intros [(a & Ha & Hin) (t & Ht)]. apply list_elem_of_fmap in Ht as (b & Hb & Hinb).
      split; [exists a; split; [exact Hin | congruence]|].
      exists b. split; [exact Hinb|]. exists t. congruence.
    - intros [(a & Hin & Ha) (b & Hinb & [t Ht])].
      split; [exists a; split; [congruence | exact Hin]|].
      exists t. apply list_elem_of_fmap. exists b. split; [congruence | exact Hinb]. }
  destruct (item_rows_ok cart_items) as (item_rows & Hitems & _).
  destruct (mul_12_ok total_cost) as [annual Hannual].
  assert (Hok : ∀ key : cart_item → option string,
    ¬ ((∃ a, a ∈ cart_items ∧ key a = None)
       ∧ (∃ b, b ∈ cart_items ∧ is_Some (key b))) →
    ∃ rows, breakdown key cart_items = Ok rows).
  { intros key Hn. apply breakdown_pure. intros Hnone t Ht.
    apply Hn, Hmixed. split; [exact Hnone | eauto]. }
  assert (Hpure : ¬ ((∃ a, a ∈ cart_items ∧ item_service a = None)
        ∧ (∃ b, b ∈ cart_items ∧ is_Some (item_service b))) →
     ¬ ((∃ a, a ∈ cart_items ∧ region a = None)
        ∧ (∃ b, b ∈ cart_items ∧ is_Some (region b))) →
     ∃ rows, generate_csv_report now cart_items total_cost = Ok rows).
  { intros Hns Hnr.
    destruct (Hok _ Hns) as [srows Hs]. destruct (Hok _ Hnr) as [rrows Hr].
    unfold generate_csv_report, report_sections.
    rewrite Hitems, Hs, Hr. cbv beta iota delta [mbind result_bind].
    rewrite Hannual. eauto. }
  split.
  - intros Hcase. unfold generate_csv_report, report_sections.
    rewrite Hitems. cbv beta iota delta [mbind result_bind].
    assert (Hraise : ∀ key : cart_item → option string,
      (∃ a, a ∈ cart_items ∧ key a = None)
      ∧ (∃ b t, b ∈ cart_items ∧ key b = Some t) →
      breakdown key cart_items = Raise TypeError).
    { intros key [Ha (b & t & Hb & Hkb)].
      assert (Hc : (∃ a, a ∈ cart_items ∧ key a = None)
                   ∧ (∃ b, b ∈ cart_items ∧ is_Some (key b)))
        by (split; [exact Ha | exists b; split; [exact Hb | exists t; exact Hkb]]).
      apply Hmixed in Hc as [Hnone [t' Ht']].
      exact (breakdown_mixed key cart_items t' Hnone Ht'). }
    destruct Hcase as [Hc|Hc].
    + rewrite (Hraise _ Hc). reflexivity.
    + rewrite (Hraise _ Hc).
      destruct (breakdown item_service cart_items) as [srows|e] eqn:Hs; [reflexivity|].
      rewrite (breakdown_raises_TypeError _ _ _ Hs). reflexivity.
  - intros Hs Hr. apply Hpure; apply Hsame; assumption.
Qed.

End ExportTheorems.

Section GroupFacts.
Import Report.

Lemma group_by_snoc (key : cart_item → option string) (l : list cart_item) (x : cart_item) :
  group_by key (l ++ [x]) = group_step key (group_by key l) x.
Proof. unfold group_by. rewrite foldl_app. reflexivity. Qed.

(** What the grouping loop stores under a key: the number of the items with
    that key, and the sum of their monthly costs, added one by one in the
    order of the cart. *)
Lemma group_by_lookup (key : cart_item → option string) (cart_items : list cart_item) :
  ∃ g, group_by key cart_items = Ok g
    ∧ ∀ k,
        match filter (λ item, key item = k) cart_items with
        | [] => g.1 !! k = None ∧ g.2 !! k = None
        | group =>
            g.1 !! k = Some (Py.PFloat
                         (foldl (λ acc item, acc + monthlyCost item)%float 0%float group))
            ∧ g.2 !! k = Some (Z.of_nat (length group))
        end.
Proof.
  induction cart_items as [|x l (g & Hg & IH)] using rev_ind.
  - exists (∅, ∅). split; [reflexivity|]. intros k. simpl. split; apply lookup_empty.
  - rewrite group_by_snoc, Hg. destruct g as [costs counts]. simpl in IH.
    unfold group_step. cbv beta iota delta [mbind result_bind].
    assert (Hadd : Py.add (default (Py.PInt 0) (costs !! key x))
                          (Py.PFloat (monthlyCost x))
              = Ok (Py.PFloat
                      (foldl (λ acc item, acc + monthlyCost item)%float 0%float
                         (filter (λ item, key item = key x) l ++ [x])))).
    { specialize (IH (key x)). rewrite foldl_app. simpl.
      destruct (filter (λ item, key item = key x) l) as [|y group].
      - destruct IH as [-> _]. simpl default.
        cbv beta iota delta [Py.add mbind result_bind]. rewrite float_of_int_0.
        reflexivity.
      - destruct IH as [-> _]. reflexivity. }
    rewrite Hadd.
    eexists. split; [reflexivity|]. intros k. simpl fst; simpl snd.
    rewrite filter_app. destruct (decide (key x = k)) as [<-|Hne].
    + rewrite filter_cons_True, filter_nil by reflexivity.
      rewrite !lookup_insert_eq.
      specialize (IH (key x)).
      destruct (filter (λ item, key item = key x) l) as [|y group].
      * destruct IH as [_ ->]. simpl. split; reflexivity.
      * destruct IH as [_ ->]. simpl default. simpl app. cbv iota.
        split; [reflexivity|]. f_equal. simpl length. rewrite length_app. simpl. lia.
    + rewrite filter_cons_False, filter_nil, app_nil_r by exact Hne.
      rewrite !lookup_insert_ne by exact Hne. apply IH.
Qed.

(** Among keys without duplicates, one key is counted once. *)
Lemma sum_list_indicator (keys : list string) (k : string) :
  NoDup keys → k ∈ keys →
  sum_list ((λ k', if decide (Some k = Some k') then 1 else 0) <$> keys) = 1.
Proof.
  induction keys as [|k0 keys IH]; [intros _ Hin; inversion Hin|].
  rewrite NoDup_cons. intros [Hk0 Hnd] Hin. rewrite fmap_cons. simpl.
  destruct (decide (Some k = Some k0)) as [[= <-]|Hne].
  - assert (Hzero : ∀ l : list string, k ∉ l →
      sum_list ((λ k', if decide (Some k = Some k') then 1 else 0) <$> l) = 0).
    { clear. induction l as [|a l IHl]; [reflexivity|].
      rewrite not_elem_of_cons, fmap_cons. intros [Ha Hl]. simpl.
      rewrite decide_False by congruence. simpl. apply IHl, Hl. }
    rewrite (Hzero keys Hk0). reflexivity.
  - apply elem_of_cons in Hin as [->|Hin]; [contradiction Hne; reflexivity|].
    simpl. apply IH; assumption.
Qed.

(** Every item is counted under exactly one of the keys. *)
Lemma group_sizes_add_up (key : cart_item → option string) (cart_items : list cart_item)
    (keys : list string) :
  NoDup keys →
  (∀ item, item ∈ cart_items → ∃ k, key item = Some k ∧ k ∈ keys) →
  sum_list ((λ k, length (filter (λ item, key item = Some k) cart_items)) <$> keys)
    = length cart_items.
Proof.
  intros Hnd. induction cart_items as [|x l IH]; intros Hall.
  - induction keys as [|k keys IHk]; [reflexivity|].
    rewrite fmap_cons. simpl. apply IHk.
    + apply NoDup_cons in Hnd. tauto.
    + intros item Hitem. inversion Hitem.
  - destruct (Hall x) as (kx & Hkx & Hin); [left|].
    assert (Hstep : ∀ ks : list string,
      sum_list ((λ k, length (filter (λ item, key item = Some k) (x :: l))) <$> ks)
        = sum_list ((λ k', if decide (Some kx = Some k') then 1 else 0) <$> ks)
          + sum_list ((λ k, length (filter (λ item, key item = Some k) l)) <$> ks)).
    { induction ks as [|k ks IHk]; [reflexivity|].
      rewrite !fmap_cons. simpl sum_list. rewrite IHk.
      destruct (decide (Some kx = Some k)) as [Heq|Hne].
      - rewrite filter_cons_True by congruence. simpl. lia.
      - rewrite filter_cons_False by congruence. lia. }
    rewrite Hstep, (sum_list_indicator keys kx Hnd Hin), IH; [reflexivity|].
    intros item Hitem. apply Hall. right. exact Hitem.
Qed.

End GroupFacts.

Section BreakdownTheorems.
Import Report.

(** The rows of a breakdown.  When every item has a text under the key, the
    breakdown has one row for every distinct key, in lexicographic order; the
    row of a key shows the number of the items with that key and the sum of
    their monthly costs, added one by one in the order of the cart (starting
    from 0), with twelve times that sum as the annual cost; and the numbers of
    all rows add up to the number of items. *)
Theorem breakdown_rows_count_and_sum (key : cart_item → option string)
    (cart_items : list cart_item) :
  Forall (λ item, is_Some (key item)) cart_items →
  ∃ keys,
    breakdown key cart_items
      = Ok ((λ k,
               let group := filter (λ item, key item = Some k) cart_items in
               let monthly :=
                 foldl (λ acc item, acc + monthlyCost item)%float 0%float group in
               [ CValue (Some k); CInt (Z.of_nat (length group));
                 CMoney (Py.PFloat monthly); CMoney (Py.PFloat (monthly * 12)) ])
            <$> keys)
    ∧ StronglySorted str_le keys
    ∧ NoDup keys
    ∧ (∀ k, k ∈ keys ↔ ∃ item, item ∈ cart_items ∧ key item = Some k)
    ∧ sum_list ((λ k, length (filter (λ item, key item = Some k) cart_items)) <$> keys)
        = length cart_items.
Proof.
  intros Htexts.
  destruct (group_by_lookup key cart_items) as (g & Hg & Hlookup).
  destruct (group_by_ok key cart_items) as (g' & Hg' & _ & Hdom).
  rewrite Hg in Hg'. injection Hg' as <-.
  assert (Hkeys : Forall is_Some (elements (dom g.1))).
  { apply Forall_forall. intros k Hk. apply elem_of_elements in Hk.
    rewrite Hdom in Hk. apply elem_of_list_to_set, list_elem_of_fmap in Hk
      as (item & -> & Hitem).
    exact (proj1 (Forall_forall _ _) Htexts item Hitem). }
  destruct (keys_are_texts _ Hkeys) as [texts Htx].
  destruct (py_sorted_texts texts) as (sorted & Hsorted & Hperm & Hss).
  assert (Hmem : ∀ k, k ∈ sorted ↔ ∃ item, item ∈ cart_items ∧ key item = Some k).
  { intros k. rewrite Hperm.
    transitivity (Some k ∈ elements (dom g.1)).
    - rewrite Htx. rewrite list_elem_of_fmap. split.
      + intros Hk. exists k. split; [reflexivity | exact Hk].
      + intros (k' & [= <-] & Hk'). exact Hk'.
    - rewrite elem_of_elements, Hdom, elem_of_list_to_set, list_elem_of_fmap.
      split; intros (item & H1 & H2); exists item; split; auto. }
  assert (Hnd : NoDup sorted).
  { rewrite Hperm. apply (NoDup_fmap_1 Some). rewrite <- Htx. apply NoDup_elements. }
  exists sorted. split; [|split; [exact Hss|split; [exact Hnd|split; [exact Hmem|]]]].
  - unfold breakdown. rewrite Hg. cbv beta iota delta [mbind result_bind].
    rewrite Htx, Hsorted.
    assert (Hrows : ∀ ks : list string, (∀ k, k ∈ ks → k ∈ sorted) →
      mapM (breakdown_row g) (Some <$> ks)
        = Ok ((λ k,
               let group := filter (λ item, key item = Some k) cart_items in
               let monthly :=
                 foldl (λ acc item, acc + monthlyCost item)%float 0%float group in
               [ CValue (Some k); CInt (Z.of_nat (length group));
                 CMoney (Py.PFloat monthly); CMoney (Py.PFloat (monthly * 12)) ])
            <$> ks)).
    { induction ks as [|k ks IHk]; intros Hsub; [reflexivity|].
      rewrite !fmap_cons. simpl mapM. rewrite IHk by (intros k' Hk'; apply Hsub; right; exact Hk').
      assert (Hk : k ∈ sorted) by (apply Hsub; left).
      apply Hmem in Hk as (item & Hitem & Hkey).
      specialize (Hlookup (Some k)).
      assert (Hin : item ∈ filter (λ item, key item = Some k) cart_items)
        by (apply list_elem_of_filter; split; assumption).
      destruct (filter (λ item, key item = Some k) cart_items) as [|y group] eqn:Hgroup;
        [inversion Hin|].
      destruct Hlookup as [Hcost Hcount].
      unfold breakdown_row. rewrite Hcost, Hcount. simpl default.
      rewrite (mul_float_int _ 12 12 float_of_int_12). reflexivity. }
    apply Hrows. auto.
  - apply group_sizes_add_up; [exact Hnd|].
    intros item Hitem.
    destruct (proj1 (Forall_forall _ _) Htexts item Hitem) as [k Hk].
    exists k. split; [exact Hk|]. apply Hmem. eauto.
Qed.

End BreakdownTheorems.

(** The sample cart: two S3 items and one EC2 item; the numbers of the rows
    add up to 3. *)
Lemma breakdown_rows_count_and_sum_witness :
  Forall (λ item, is_Some (item_service item)) sample_cart
  ∧ ∃ keys,
      Report.breakdown item_service sample_cart
        = Ok ((λ k,
               let group := filter (λ item, item_service item = Some k) sample_cart in
               let monthly :=
                 foldl (λ acc item, acc + monthlyCost item)%float 0%float group in
               [ CValue (Some k); CInt (Z.of_nat (length group));
                 CMoney (Py.PFloat monthly); CMoney (Py.PFloat (monthly * 12)) ])
            <$> keys)
      ∧ (∀ k, k ∈ keys ↔ ∃ item, item ∈ sample_cart ∧ item_service item = Some k)
      ∧ sum_list ((λ k, length (filter (λ item, item_service item = Some k) sample_cart))
                    <$> keys) = 3.
Proof.
  assert (Hs : Forall (λ item, is_Some (item_service item)) sample_cart)
    by (repeat constructor; eexists; reflexivity).
  split; [exact Hs|].
  destruct (breakdown_rows_count_and_sum item_service sample_cart Hs)
    as (keys & Hrows & _ & _ & Hmem & Hsum).
  exists keys. split; [exact Hrows|]. split; [exact Hmem | exact Hsum].
Defined.

(** ** The estimates of an instance record *)

(** Removing the text [db.] from a text that does not contain it changes
    nothing. *)
Lemma remove_db_prefixes_absent (t : string) :
  contains "db." t = false → remove_db_prefixes 0 t = t.
Proof.
  induction t as [|c t IH]; [reflexivity|].
  intros Hc. change (contains "db." (String c t))
    with (String.prefix "db." (String c t) || contains "db." t) in Hc.
  apply orb_false_iff in Hc as [Hp Hc].
  change (remove_db_prefixes 0 (String c t))
    with (if String.prefix "db." (String c t) then remove_db_prefixes 2 t
          else String c (remove_db_prefixes 0 t)).
  rewrite Hp, (IH Hc). reflexivity.
Qed.

(** The record of the RDS instance type [db.<class>] carries the vCPU and
    memory estimates of the EC2 record of [<class>]: the estimates are made
    from the name with [db.] removed.  Its network performance is always
    Moderate, whatever the family of the class. *)
Theorem rds_estimates_are_those_of_the_class (pricing : pricing_data)
    (class region_name engine deployment os : string) :
  contains "db." class = false →
  ∃ p_rds p_ec2,
    LivePricingScraper.find_rds_pricing pricing ("db." ++ class) region_name engine deployment
      = [p_rds]
    ∧ LivePricingScraper.find_ec2_pricing pricing class region_name os = [p_ec2]
    ∧ instanceType p_rds = Some ("db." ++ class)
    ∧ vcpu p_rds = vcpu p_ec2
    ∧ memory p_rds = memory p_ec2
    ∧ vcpu p_rds = Some (LivePricingScraper._get_instance_vcpu class)
    ∧ memory p_rds = Some (LivePricingScraper._get_instance_memory class)
    ∧ networkPerformance p_rds = Some "Moderate"
    ∧ networkPerformance p_ec2
        = Some (LivePricingScraper._get_network_performance class).
Proof.
  intros Hclass.
  assert (Hstrip : remove_db_prefixes 0 ("db." ++ class) = class).
  { rewrite <- (remove_db_prefixes_absent class Hclass) at 2.
    change (remove_db_prefixes 0 ("db." ++ class))
      with (if String.prefix "db." (String "d" (String "b" (String "." class)))
            then remove_db_prefixes 0 class
            else String "d" (remove_db_prefixes 0 (String "b" (String "." class)))).
    assert (Hp : String.prefix "db." (String "d" (String "b" (String "." class))) = true)
      by (destruct class; reflexivity).
    rewrite Hp. reflexivity. }
  do 2 eexists. split; [reflexivity|]. split; [reflexivity|].
  cbv beta iota delta [LivePricingScraper.find_rds_pricing
    LivePricingScraper.find_ec2_pricing instanceType vcpu memory networkPerformance].
  rewrite Hstrip. repeat split; reflexivity.
Qed.

(** db.t3.micro and t3.micro. *)
Lemma rds_estimates_are_those_of_the_class_witness :
  contains "db." "t3.micro" = false
  ∧ ∃ p_rds,
      LivePricingScraper.find_rds_pricing sample_pricing "db.t3.micro" default_region
        "MySQL" "Single-AZ" = [p_rds]
      ∧ vcpu p_rds = Some "1-2" ∧ memory p_rds = Some "1 GiB"
      ∧ networkPerformance p_rds = Some "Moderate".
Proof.
  split; [reflexivity|].
  destruct (rds_estimates_are_those_of_the_class sample_pricing "t3.micro" default_region
              "MySQL" "Single-AZ" "Linux" eq_refl)
    as (p_rds & p_ec2 & Hrds & _ & _ & _ & _ & Hv & Hm & Hn & _).
  exists p_rds. split; [exact Hrds|]. split; [exact Hv|]. split; [exact Hm | exact Hn].
Defined.
